(** * btap_weather: EPW ingestion and wy3 transcoding, embedded in Rocq

    Shallow embedding of [utilities/create_database.py] and
    [utilities/generate_epw_from_wy3.py].

    Conventions of the embedding.
    - Python [str] values are Rocq [string]s; a character stands for the code
      point of the same number, so the model covers text whose code points
      are below 256.
    - Python exceptions are the [Raise] branch of [result]; [try/except]
      clauses are written with [except_ValueError] and [except_Exception].
    - Python [float] values are [pyfloat]: a finite binary64 value is the
      rational it denotes (the sign of zero is not kept), and values are
      rounded to binary64 by [b64] wherever Python rounds them.
    - The relational store is the list of its rows in insertion order, each
      row tagged with its table; a connection keeps the committed rows and
      the rows of the open transaction apart.  An [INSERT] that binds an
      integer outside 64 bits raises [OverflowError], as [sqlite3] does.
    - pandas and [re] are libraries outside the repository: the frame
      operations and the pattern search the program calls are written out
      from their documented behaviour, next to the line that calls them.
      What that behaviour leaves open (the order an unstable sort gives
      equal keys, the type pandas infers for a column that holds an integer
      outside 64 bits) is a parameter of the model, [Pandas.library]; the
      properties hold for every value of it. *)

From Stdlib Require Import List Bool Arith ZArith QArith Qabs Qround Qpower.
From Stdlib Require Import Lia Lqa.
From Stdlib Require Import Ascii String Permutation Sorted.
From Stdlib Require Import DecimalString.
Import ListNotations.

Local Open Scope string_scope.
Local Open Scope list_scope.

(* ===================================================================== *)
(** ** Exceptions and results *)
(* ===================================================================== *)

Inductive exn : Type :=
| ValueError
| OverflowError
| IndexError
| KeyError
| UnboundLocalError
| PlainException (msg : string).

Inductive result (A : Type) : Type :=
| Ok (a : A)
| Raise (e : exn).

Arguments Ok {A} a.
Arguments Raise {A} e.

Definition rbind {A B : Type} (r : result A) (k : A -> result B) : result B :=
  match r with
  | Ok a => k a
  | Raise e => Raise e
  end.

Definition rmap {A B : Type} (f : A -> B) (r : result A) : result B :=
  rbind r (fun a => Ok (f a)).

Declare Scope result_scope.
Delimit Scope result_scope with result.
Notation "x <- c1 ;; c2" := (rbind c1 (fun x => c2))
  (at level 61, c1 at next level, right associativity) : result_scope.
Notation "' pat <- c1 ;; c2" := (rbind c1 (fun x => match x with pat => c2 end))
  (at level 61, pat pattern, c1 at next level, right associativity) : result_scope.

Definition is_ValueError (e : exn) : bool :=
  match e with ValueError => true | _ => false end.

(** [try: body  except ValueError: handler] *)
Definition except_ValueError {A : Type} (body handler : result A) : result A :=
  match body with
  | Raise ValueError => handler
  | other => other
  end.

(** [try: body  except Exception: handler]; every exception of the model
    is a subclass of [Exception]. *)
Definition except_Exception {A : Type} (body : result A) (handler : exn -> result A)
  : result A :=
  match body with
  | Raise e => handler e
  | other => other
  end.

Definition raised {A : Type} (r : result A) : bool :=
  match r with Raise _ => true | Ok _ => false end.

(* ===================================================================== *)
(** ** Python text primitives *)
(* ===================================================================== *)

Module PyStr.

Definition code (c : ascii) : nat := nat_of_ascii c.

Definition mem_nat (n : nat) (l : list nat) : bool := existsb (Nat.eqb n) l.

(** [str.isspace] on the code points below 256. *)
Definition isspace (c : ascii) : bool :=
  mem_nat (code c) [9; 10; 11; 12; 13; 28; 29; 30; 31; 32; 133; 160]%nat.

(** C-locale [isspace], the set skipped by [float()] and [int()]. *)
Definition c_isspace (c : ascii) : bool :=
  mem_nat (code c) [9; 10; 11; 12; 13; 32]%nat.

Fixpoint lstrip_by (sp : ascii -> bool) (s : string) : string :=
  match s with
  | String c t => if sp c then lstrip_by sp t else s
  | EmptyString => EmptyString
  end.

Fixpoint rstrip_by (sp : ascii -> bool) (s : string) : string :=
  match s with
  | String c t =>
      match rstrip_by sp t with
      | EmptyString => if sp c then EmptyString else String c EmptyString
      | t' => String c t'
      end
  | EmptyString => EmptyString
  end.

Definition strip_by (sp : ascii -> bool) (s : string) : string :=
  rstrip_by sp (lstrip_by sp s).

(** [s.strip()] *)
Definition strip (s : string) : string := strip_by isspace s.

(** [s.split(sep)] for a one-character separator: never the empty list. *)
Fixpoint split (sep : ascii) (s : string) : list string :=
  match s with
  | EmptyString => [EmptyString]
  | String c t =>
      if Ascii.eqb c sep then EmptyString :: split sep t
      else match split sep t with
           | h :: r => String c h :: r
           | [] => [String c EmptyString]
           end
  end.

(** [s.split(sep, 1)[-1]]: what follows the first separator, or all of [s]. *)
Fixpoint split1_last (sep : ascii) (s : string) : string :=
  match s with
  | EmptyString => EmptyString
  | String c t =>
      if Ascii.eqb c sep then t
      else if existsb (Ascii.eqb sep) (list_ascii_of_string t)
           then split1_last sep t else s
  end.

(** [sep.join(parts)] *)
Fixpoint join (sep : string) (parts : list string) : string :=
  match parts with
  | [] => EmptyString
  | [p] => p
  | p :: rest => String.append p (String.append sep (join sep rest))
  end.

(** [s.startswith(p)] *)
Definition startswith (s p : string) : bool := String.prefix p s.

(** [s.endswith(p)] *)
Definition endswith (s p : string) : bool :=
  let n := String.length s in
  let m := String.length p in
  (m <=? n)%nat && String.eqb (substring (n - m) m s) p.

Definition lower_char (c : ascii) : ascii :=
  let n := code c in
  if ((65 <=? n) && (n <=? 90))%nat then ascii_of_nat (n + 32)
  else if ((192 <=? n) && (n <=? 222) && negb (n =? 215))%nat
       then ascii_of_nat (n + 32)
  else c.

(** [s.lower()] *)
Fixpoint lower (s : string) : string :=
  match s with
  | String c t => String (lower_char c) (lower t)
  | EmptyString => EmptyString
  end.

(** [s[i:j]] for [0 <= i <= j]; out-of-range bounds are clamped. *)
Definition slice (s : string) (i j : nat) : string := substring i (j - i) s.

(** [s[i]]: [IndexError] past the end. *)
Definition index (s : string) (i : nat) : result string :=
  match String.get i s with
  | Some c => Ok (String c EmptyString)
  | None => Raise IndexError
  end.

(** truth value of a string: non-empty *)
Definition truthy (s : string) : bool :=
  match s with EmptyString => false | _ => true end.

(** [s in l] for a list of strings *)
Definition mem (s : string) (l : list string) : bool := existsb (String.eqb s) l.

Definition is_digit (c : ascii) : bool :=
  ((48 <=? code c) && (code c <=? 57))%nat.

Definition digit_val (c : ascii) : Z := Z.of_nat (code c - 48).

End PyStr.

(** [l[i]] on a Python list *)
Definition list_index {A : Type} (l : list A) (i : nat) : result A :=
  match nth_error l i with
  | Some a => Ok a
  | None => Raise IndexError
  end.

(* ===================================================================== *)
(** ** Python numbers *)
(* ===================================================================== *)

Module PyNum.

Inductive pyfloat : Type :=
| PFin (q : Q)
| PInf (negative : bool)
| PNan.

Definition pow2 (e : Z) : Q :=
  if (0 <=? e)%Z then inject_Z (2 ^ e) else 1 # Z.to_pos (2 ^ (- e)).

(** round to the nearest integer, ties to the even one *)
Definition round_half_even (q : Q) : Z :=
  let d := Zpos (Qden q) in
  let '(fl, r) := Z.div_eucl (Qnum q) d in
  match (2 * r ?= d)%Z with
  | Lt => fl
  | Gt => (fl + 1)%Z
  | Eq => if Z.even fl then fl else (fl + 1)%Z
  end.

(** floor of the base-2 logarithm of a positive rational *)
Definition ilog2 (q : Q) : Z :=
  let e := (Z.log2 (Qnum q) - Z.log2 (Zpos (Qden q)))%Z in
  if Qle_bool (pow2 e) q then e else (e - 1)%Z.

(** the number of trailing zero bits *)
Fixpoint trailing_zeros (p : positive) : Z :=
  match p with
  | xO p' => (1 + trailing_zeros p')%Z
  | _ => 0%Z
  end.

(** [m * 2 ^ e] in lowest terms *)
Definition dyadic (m e : Z) : Q :=
  if (0 <=? e)%Z then inject_Z (m * 2 ^ e)
  else
    match m with
    | Z0 => 0
    | Zpos p | Zneg p =>
        let t := Z.min (trailing_zeros p) (- e) in
        (m / 2 ^ t) # Z.to_pos (2 ^ (- e - t))
    end.

(** a fraction with the common powers of two of its terms cancelled *)
Definition cancel_twos (q : Q) : Q :=
  match Qnum q with
  | Z0 => 0
  | Zpos p | Zneg p =>
      let t := Z.min (trailing_zeros p) (trailing_zeros (Qden q)) in
      Z.shiftr (Qnum q) t # Z.to_pos (Z.shiftr (Zpos (Qden q)) t)
  end.

(** Round a rational to binary64 (round-to-nearest, ties-to-even, gradual
    underflow, overflow to infinity): [m] is the integer significand in
    units of [2 ^ ue]; the result overflows when [m * 2 ^ ue] reaches
    [2 ^ 1024]. *)
Definition b64 (q : Q) : pyfloat :=
  if Qeq_bool q 0 then PFin 0
  else
    let a := Qabs q in
    let ue := Z.max (ilog2 a - 52) (-1074) in
    let m := round_half_even (cancel_twos (/ pow2 ue * a)) in
    if (1024 <=? Z.log2 m + ue)%Z then PInf (negb (Qle_bool 0 q))
    else PFin (dyadic (if Qle_bool 0 q then m else (- m)%Z) ue).

Definition is_nan (f : pyfloat) : bool :=
  match f with PNan => true | _ => false end.

(** [x * y] on floats *)
Definition fmul (x y : pyfloat) : pyfloat :=
  match x, y with
  | PNan, _ | _, PNan => PNan
  | PFin a, PFin b => b64 (a * b)
  | PInf s, PInf t => PInf (xorb s t)
  | PInf s, PFin a | PFin a, PInf s =>
      if Qeq_bool a 0 then PNan else PInf (xorb s (negb (Qle_bool 0 a)))
  end.

(** [x / y] on floats; a zero divisor raises [ZeroDivisionError] in Python
    and is not needed here: the divisors of the model are non-zero literals. *)
Definition fdiv (x y : pyfloat) : pyfloat :=
  match x, y with
  | PNan, _ | _, PNan => PNan
  | PFin a, PFin b => if Qeq_bool b 0 then PNan else b64 (a / b)
  | PInf s, PInf t => PNan
  | PInf s, PFin a => PInf (xorb s (negb (Qle_bool 0 a)))
  | PFin a, PInf s => PFin 0
  end.

(** [x + y] on floats *)
Definition fadd (x y : pyfloat) : pyfloat :=
  match x, y with
  | PNan, _ | _, PNan => PNan
  | PFin a, PFin b => b64 (a + b)
  | PInf s, PInf t => if Bool.eqb s t then PInf s else PNan
  | PInf s, PFin _ | PFin _, PInf s => PInf s
  end.

(** [- x] *)
Definition fneg (x : pyfloat) : pyfloat :=
  match x with
  | PFin a => PFin (- a)
  | PInf s => PInf (negb s)
  | PNan => PNan
  end.

(** [x - y] on floats *)
Definition fsub (x y : pyfloat) : pyfloat := fadd x (fneg y).

(** [x < y]; false when either is NaN *)
Definition flt (x y : pyfloat) : bool :=
  match x, y with
  | PNan, _ | _, PNan => false
  | PInf true, PInf true => false
  | PInf true, _ => true
  | _, PInf true => false
  | PInf false, _ => false
  | PFin _, PInf false => true
  | PFin a, PFin b => negb (Qle_bool b a)
  end.

(** [x >= y]; false when either is NaN *)
Definition fge (x y : pyfloat) : bool :=
  negb (is_nan x) && negb (is_nan y) && negb (flt x y).

(** [x == y]; false when either is NaN *)
Definition feq (x y : pyfloat) : bool := fge x y && fge y x.

(** [float(n)] of an integer *)
Definition of_Z (z : Z) : pyfloat := b64 (inject_Z z).

(** truncation toward zero *)
Definition Qtrunc (q : Q) : Z :=
  if Qle_bool 0 q then Qfloor q else Qceiling q.

(** [int(x)] of a float: truncation; infinities and NaN raise. *)
Definition int_of_float (f : pyfloat) : result Z :=
  match f with
  | PFin q => Ok (Qtrunc q)
  | PInf _ => Raise OverflowError
  | PNan => Raise ValueError
  end.

(** [round(x)] of a float, without [ndigits]. *)
Definition round_float (f : pyfloat) : result Z :=
  match f with
  | PFin q => Ok (round_half_even q)
  | PInf _ => Raise OverflowError
  | PNan => Raise ValueError
  end.

(** *** Number syntax accepted by [float()] and [int()] *)

Import PyStr.

(** [digit (["_"] digit)*]; the accumulator is the value so far and the
    count of digits read.  Stops in front of whatever does not fit. *)
Fixpoint digits_loop (acc : Z) (n : nat) (s : string) : Z * nat * string :=
  match s with
  | String c t =>
      if is_digit c then digits_loop (10 * acc + digit_val c) (S n) t
      else if Ascii.eqb c "_" then
        match t with
        | String c2 t2 =>
            if is_digit c2 && (0 <? n)%nat
            then digits_loop (10 * acc + digit_val c2) (S n) t2
            else (acc, n, s)
        | EmptyString => (acc, n, s)
        end
      else (acc, n, s)
  | EmptyString => (acc, n, s)
  end.

(** a [digitpart]: at least one digit *)
Definition digitpart (s : string) : option (Z * nat * string) :=
  match digits_loop 0 0 s with
  | (_, O, _) => None
  | other => Some other
  end.

Definition sign_of (s : string) : bool * string :=
  match s with
  | String "-" t => (true, t)
  | String "+" t => (false, t)
  | _ => (false, s)
  end.

(** [exponent ::= ("e" | "E") [sign] digitpart], up to the end of the text *)
Definition exponent (s : string) : option Z :=
  match s with
  | EmptyString => Some 0%Z
  | String c t =>
      if Ascii.eqb c "e" || Ascii.eqb c "E" then
        let '(neg, t') := sign_of t in
        match digitpart t' with
        | Some (e, _, EmptyString) => Some (if neg then (- e)%Z else e)
        | _ => None
        end
      else None
  end.

Definition pow10 (e : Z) : Q :=
  if (0 <=? e)%Z then inject_Z (10 ^ e) else 1 # Z.to_pos (10 ^ (- e)).

(** [number [exponent]]: the exact decimal value *)
Definition floatnumber (s : string) : option Q :=
  match s with
  | String "." t =>
      match digitpart t with
      | Some (f, nf, rest) =>
          match exponent rest with
          | Some e => Some (inject_Z f * pow10 (e - Z.of_nat nf))
          | None => None
          end
      | None => None
      end
  | _ =>
      match digitpart s with
      | Some (i, _, String "." rest) =>
          let '(f, nf, rest') := digits_loop 0 0 rest in
          match exponent rest' with
          | Some e =>
              Some (inject_Z (i * 10 ^ Z.of_nat nf + f) * pow10 (e - Z.of_nat nf))
          | None => None
          end
      | Some (i, _, rest) =>
          match exponent rest with
          | Some e => Some (inject_Z i * pow10 e)
          | None => None
          end
      | None => None
      end
  end.

(** Non-ASCII white space is turned into a blank before the C-locale
    strip of [float()] and [int()]. *)
Fixpoint spaces_to_ascii (s : string) : string :=
  match s with
  | String c t =>
      String (if mem_nat (code c) [133; 160]%nat then " "%char else c)
             (spaces_to_ascii t)
  | EmptyString => EmptyString
  end.

Definition number_text (s : string) : string :=
  strip_by c_isspace (spaces_to_ascii s).

(** [float(s)] for a string; [None] stands for [ValueError]. *)
Definition parse_float (s : string) : option pyfloat :=
  let '(neg, body) := sign_of (number_text s) in
  let l := lower body in
  if String.eqb l "inf" || String.eqb l "infinity" then Some (PInf neg)
  else if String.eqb l "nan" then Some PNan
  else match floatnumber body with
       | Some q => Some (b64 (if neg then - q else q))
       | None => None
       end.

Definition py_float (s : string) : result pyfloat :=
  match parse_float s with
  | Some f => Ok f
  | None => Raise ValueError
  end.

(** [int(s)] for a string, base ten; [None] stands for [ValueError]. *)
Definition parse_int (s : string) : option Z :=
  let '(neg, body) := sign_of (number_text s) in
  match digitpart body with
  | Some (z, _, EmptyString) => Some (if neg then (- z)%Z else z)
  | _ => None
  end.

Definition py_int (s : string) : result Z :=
  match parse_int s with
  | Some z => Ok z
  | None => Raise ValueError
  end.

(** [str(n)] of an integer *)
Definition str_of_Z (z : Z) : string := NilZero.string_of_int (Z.to_int z).

End PyNum.

(* ===================================================================== *)
(** ** Hourly record decoder ([create_hourly_dataframe]) *)
(* ===================================================================== *)

Module Hourly.

Import PyStr PyNum.
Local Open Scope result_scope.

(** A cell of a decoded row: [None], an [int], a [float] or a [str]. *)
Inductive value : Type :=
| VNone
| VInt (z : Z)
| VFloat (f : pyfloat)
| VStr (s : string).

(** [row_dict]: column name to cell, in insertion order. *)
Definition row_dict : Type := list (string * value).

Definition columns : list string :=
  [ "Year"; "Month"; "Day"; "Hour"; "Minute"; "DataFlags";
    "DryBulb"; "DewPoint"; "RH"; "Pressure";
    "ExtraHorizontalRadiation"; "ExtraDirNormalRadiation"; "HorizontalIRSkyRadiation";
    "GlobalHorizontalRadiation"; "DirectNormalRadiation"; "DiffuseHorizontalRadiation";
    "GlobalHorizontalIlluminance"; "DirectNormalIlluminance"; "DiffuseHorizontalIlluminance";
    "ZenithLuminance"; "WindDirection"; "WindSpeed"; "TotalSkyCover"; "OpaqueSkyCover";
    "Visibility"; "CeilingHeight"; "PresentWeatherObservation"; "PresentWeatherCodes";
    "PrecipitableWater"; "AerosolOpticalDepth"; "SnowDepth"; "DaysSinceLastSnowfall";
    "Albedo"; "LiquidPrecipitationDepth"; "LiquidPrecipitationQuantity" ].

(** the missing value markers of line 284 *)
Definition missing_markers : list string :=
  [ "*"; "**"; "***"; "****"; "*****"; "******"; "?"; "??"; "undefined" ].

(** [j < 5 or j in [20, 22, 23, 26, 27, 31]] *)
Definition int_column (j : nat) : bool :=
  (j <? 5)%nat || mem_nat j [20; 22; 23; 26; 27; 31]%nat.

(** [int(value)] where [value] is the float just parsed or the int [0] *)
Definition int_of_value (v : value) : result value :=
  match v with
  | VFloat f => rmap VInt (int_of_float f)
  | other => Ok other
  end.

(** the body of the [try] of lines 282-290 *)
Definition decode_numeric (j : nat) (part : string) : result value :=
  if mem (strip part) missing_markers then Ok VNone
  else
    value <- (if truthy (strip part) then rmap VFloat (py_float part)
              else Ok (VInt 0)) ;;
    if int_column j then int_of_value value else Ok value.

(** lines 281-294: the cell decoded from token [part] of column [j] *)
Definition decode_field (j : nat) (part : string) : result value :=
  if negb (mem_nat j [5]%nat)
  then except_ValueError (decode_numeric j part) (Ok VNone)
  else Ok (VStr part).

(** the loop of lines 278-295 over [enumerate(parts)], from index [j] on *)
Fixpoint decode_parts (j : nat) (parts : list string) : result (list value) :=
  match parts with
  | [] => Ok []
  | part :: rest =>
      if (j <? List.length columns)%nat then
        value <- decode_field j part ;;
        row <- decode_parts (S j) rest ;;
        Ok (value :: row)
      else decode_parts (S j) rest
  end.

(** lines 275-299 for the line of index [i] *)
Definition decode_line (i : nat) (line : string) : result row_dict :=
  let parts := split "," (strip line) in
  row <- decode_parts 0 parts ;;
  Ok (combine columns row ++ [("hour_index", VInt (Z.of_nat i + 1))]).

(** the loop of line 274 over [enumerate(data_lines)], from index [i] on *)
Fixpoint decode_lines (i : nat) (data_lines : list string) : result (list row_dict) :=
  match data_lines with
  | [] => Ok []
  | line :: rest =>
      row_dict <- decode_line i line ;;
      rows <- decode_lines (S i) rest ;;
      Ok (row_dict :: rows)
  end.

(** The data frame is the list of its rows; a column a row lacks, and a
    [None] cell, read as missing. *)
Definition create_hourly_dataframe (data_lines : list string) : result (list row_dict) :=
  decode_lines 0 data_lines.

(** [row[col]] *)
Fixpoint cell (row : row_dict) (col : string) : value :=
  match row with
  | [] => VNone
  | (k, v) :: rest => if String.eqb k col then v else cell rest col
  end.

Definition hour_index (row : row_dict) : value := cell row "hour_index".

Arguments columns : simpl never.
Arguments missing_markers : simpl never.

End Hourly.

(* ===================================================================== *)
(** ** What numpy and pandas leave open *)
(* ===================================================================== *)

Module Pandas.

Import PyNum.

(** Two things the program hands to the libraries have an outcome their
    documentation does not fix.

    - [DataFrame.sort_values] sorts with numpy's quicksort, which is not
      stable: the order it gives rows of equal key depends on the build of
      numpy and on the processor.  [tie_rank keys i] is the rank of
      position [i] of the array [keys]: of two positions with equal keys,
      the one of smaller rank comes first (and the one in front, when the
      ranks are equal too).
    - [DataFrame.to_sql] hands SQLite the cells of each column as pandas
      has typed the column.  SQLite refuses an integer outside 64 bits.
      A column of integers only is passed as integers; a column that also
      holds a missing cell may have been read as a float column, and its
      integers are then passed as floats: whether it has depends on the
      place of the missing cell in the column and on the version of
      pandas.  [reads_as_float df] says, of a frame [df] in which every
      column with an integer outside 64 bits has a missing cell, that
      pandas has read those columns as floats. *)
Class library : Type := {
  tie_rank : list pyfloat -> nat -> nat;
  reads_as_float : list Hourly.row_dict -> bool
}.

(** a library whose sort leaves equal keys in the order of the frame and
    which keeps integer columns as they are *)
Definition in_frame_order : library :=
  {| tie_rank := fun _ i => i; reads_as_float := fun _ => false |}.

(** a library whose sort gives equal keys in the reverse of the order of
    the frame *)
Definition in_reverse_order : library :=
  {| tie_rank := fun keys i => (List.length keys - i)%nat;
     reads_as_float := fun _ => false |}.

End Pandas.

(* ===================================================================== *)
(** ** The store: tables, connection, commit and rollback *)
(* ===================================================================== *)

Module Db.

Import PyNum.

(** the dictionary returned by [parse_epw_header], in key order *)
Record header : Type := mk_header {
  station_name : string;
  state_province : string;
  country : string;
  latitude : pyfloat;
  longitude : pyfloat;
  elevation : pyfloat;
  timezone : pyfloat;
  source_type : string;
  wmo_station_id : string;
  comment_1 : string;
  comment_2 : string
}.

(** a design-day block: name, month, day, temperature, humidity value,
    humidity type, wind speed, wind direction *)
Record block : Type := mk_block {
  block_name : string;
  block_month : Z;
  block_day : Z;
  block_temp : pyfloat;
  block_humidity : Q;
  block_humidity_type : string;
  block_wind_speed : Q;
  block_wind_direction : Z
}.

(** One inserted row, tagged with its table.  Only [locations_metadata]
    keeps its key in the model: it is the one key the program reads back
    ([cur.lastrowid]). *)
Inductive row : Type :=
| LocationRow (id : Z) (meta : header) (epw_file catalog : string)
| HourlyRow (location_id : Z) (cells : Hourly.row_dict)
| DesignDayRow (location_id : Z) (b : block)
| DesignConditionsRow (location_id : Z) (raw_data : string)
| TypicalPeriodRow (location_id : Z) (period_type period_name : string)
                   (start_month start_day end_month end_day : Z)
| GroundTempRow (location_id : Z) (depth conductivity density specific_heat : pyfloat)
                (monthly : list pyfloat)
| HolidaysDstRow (location_id : Z) (uses_holidays : string)
                 (dst_start_day dst_end_day dst_indicator : Z)
| DataPeriodRow (location_id : Z) (num_periods intervals_per_hour : Z)
                (period_type period_name : string)
                (start_month start_day end_month end_day : Z).

(** The database file: every committed row, in insertion order. *)
Definition store : Type := list row.

(** A [sqlite3] connection: the committed rows and the rows of the open
    transaction. *)
Record conn : Type := mk_conn {
  committed : store;
  pending : list row
}.

Definition connect (db : store) : conn := mk_conn db [].

(** [cur.execute("INSERT ...")] *)
Definition execute_insert (r : row) (c : conn) : conn :=
  mk_conn (committed c) (pending c ++ [r]).

(** [conn.commit()] *)
Definition commit (c : conn) : conn :=
  mk_conn (committed c ++ pending c) [].

(** [conn.rollback()] *)
Definition rollback (c : conn) : conn :=
  mk_conn (committed c) [].

Definition visible (c : conn) : list row := committed c ++ pending c.

Definition is_location (r : row) : bool :=
  match r with LocationRow _ _ _ _ => true | _ => false end.

Definition is_hourly (r : row) : bool :=
  match r with HourlyRow _ _ => true | _ => false end.

Definition is_design_day (r : row) : bool :=
  match r with DesignDayRow _ _ => true | _ => false end.

Definition location_ids (rows : list row) : list Z :=
  flat_map (fun r => match r with LocationRow id _ _ _ => [id] | _ => [] end) rows.

(** the key SQLite gives the next [locations_metadata] row: one more than
    the largest key in the table *)
Definition next_location_id (rows : list row) : Z :=
  fold_right Z.max 0%Z (location_ids rows) + 1.

(** the location a row belongs to *)
Definition row_location (r : row) : Z :=
  match r with
  | LocationRow id _ _ _ => id
  | HourlyRow l _ | DesignDayRow l _ | DesignConditionsRow l _
  | TypicalPeriodRow l _ _ _ _ _ _ | GroundTempRow l _ _ _ _ _
  | HolidaysDstRow l _ _ _ _ | DataPeriodRow l _ _ _ _ _ _ _ _ => l
  end.

(** the rows of location [l] held by a store *)
Definition rows_of (l : Z) (db : store) : list row :=
  filter (fun r => Z.eqb (row_location r) l) db.

(** *** Statements that use a connection

    A statement maps the connection to an outcome and the connection
    after it; an exception leaves the connection as it was when raised. *)
Definition stmt (A : Type) : Type := conn -> result A * conn.

Definition ret {A : Type} (a : A) : stmt A := fun c => (Ok a, c).

Definition throw {A : Type} (e : exn) : stmt A := fun c => (Raise e, c).

Definition bind {A B : Type} (m : stmt A) (k : A -> stmt B) : stmt B :=
  fun c =>
    match m c with
    | (Ok a, c') => k a c'
    | (Raise e, c') => (Raise e, c')
    end.

(** a computation without store access *)
Definition lift {A : Type} (r : result A) : stmt A := fun c => (r, c).

(** an integer SQLite holds: 64 bits, signed *)
Definition sqlite_int (z : Z) : bool := ((- 2 ^ 63 <=? z) && (z <? 2 ^ 63))%Z.

(** The integers of a row that the program has read from the text of the
    file.  The [location_id] of a row is the key SQLite itself gave the
    location ([cur.lastrowid]), a 64-bit integer; floats and text are
    bound as they are. *)
Definition bound_ints (r : row) : list Z :=
  match r with
  | TypicalPeriodRow _ _ _ start_month start_day end_month end_day =>
      [start_month; start_day; end_month; end_day]
  | HolidaysDstRow _ _ dst_start_day dst_end_day dst_indicator =>
      [dst_start_day; dst_end_day; dst_indicator]
  | DataPeriodRow _ num_periods intervals_per_hour _ _
                  start_month start_day end_month end_day =>
      [num_periods; intervals_per_hour; start_month; start_day; end_month; end_day]
  | _ => []
  end.

(** [cur.execute("INSERT ...", params)]: [sqlite3] raises [OverflowError]
    for a Python [int] outside 64 bits, and nothing is written *)
Definition do_insert (r : row) : stmt unit :=
  fun c =>
    if forallb sqlite_int (bound_ints r) then (Ok tt, execute_insert r c)
    else (Raise OverflowError, c).

Definition do_commit : stmt unit := fun c => (Ok tt, commit c).

(** [try: body  except Exception: pass] around store statements *)
Definition try_except {A : Type} (body : stmt A) (handler : exn -> stmt A) : stmt A :=
  fun c =>
    match body c with
    | (Raise e, c') => handler e c'
    | other => other
    end.

End Db.

Declare Scope stmt_scope.
Delimit Scope stmt_scope with stmt.
Notation "x <~ c1 ;; c2" := (Db.bind c1 (fun x => c2))
  (at level 61, c1 at next level, right associativity) : stmt_scope.
Notation "c1 ;;; c2" := (Db.bind c1 (fun _ => c2))
  (at level 61, right associativity) : stmt_scope.

(* ===================================================================== *)
(** ** EPW header, catalog tag and header metadata *)
(* ===================================================================== *)

Module Epw.

Import PyStr PyNum Db.

Definition newline : ascii := ascii_of_nat 10.

(** *** [parse_epw_header] *)

(** lines 210-213: the [for ... break] over [enumerate(lines)], from index
    [i] on; [None] when the loop ends without a hit *)
Fixpoint find_data_start (i : nat) (lines : list string) : option nat :=
  match lines with
  | [] => None
  | line :: rest =>
      if startswith (strip line) "DATA PERIODS," then Some (i + 1)%nat
      else find_data_start (S i) rest
  end.

(** lines 209-217 *)
Definition data_start_idx (lines : list string) : nat :=
  match find_data_start 0 lines with
  | Some idx => idx
  | None => 8%nat
  end.

(** [fields[k].strip()] *)
Definition stripped_field (fields : list string) (k : nat) : result string :=
  rmap strip (list_index fields k).

(** [float(fields[k]) if fields[k].strip() else 0.0] *)
Definition float_field (fields : list string) (k : nat) : result pyfloat :=
  rbind (list_index fields k)
        (fun f => if truthy (strip f) then py_float f else Ok (PFin 0)).

(** [lines[k].strip().split(',', 1)[-1]] if [len(lines) > k], else the
    empty string *)
Definition comment_line (lines : list string) (k : nat) : string :=
  match nth_error lines k with
  | Some line => split1_last "," (strip line)
  | None => EmptyString
  end.

Local Open Scope result_scope.

Definition parse_epw_header (lines : list string) : result (header * nat) :=
  line0 <- list_index lines 0 ;;
  let fields := split "," line0 in
  let idx := data_start_idx lines in
  station_name <- stripped_field fields 1 ;;
  state_province <- stripped_field fields 2 ;;
  country <- stripped_field fields 3 ;;
  latitude <- float_field fields 6 ;;
  longitude <- float_field fields 7 ;;
  elevation <- float_field fields 9 ;;
  timezone <- float_field fields 8 ;;
  source_type <- stripped_field fields 4 ;;
  wmo_station_id <- stripped_field fields 5 ;;
  Ok (mk_header station_name state_province country latitude longitude
                elevation timezone source_type wmo_station_id
                (comment_line lines 5) (comment_line lines 6),
      idx).

Local Close Scope result_scope.

(** *** The catalog tag

    [re.search(catalog_pattern, epw_filename)] for the pattern of line 308:
    group 1 is one of TMY, TRY, CWEC followed by any run of characters,
    group 3 is the literal extension [.epw], anchored by [$]. *)

(** the extension and [$]: the extension at the end of the text, or in
    front of a final newline *)
Definition ext_here (s : string) : bool :=
  String.eqb s ".epw" || String.eqb s (String.append ".epw" (String newline EmptyString)).

(** the greedy run of non-newline characters, giving back characters
    until the extension fits; the result is the run *)
Fixpoint dotstar_ext (s : string) : option string :=
  match s with
  | String c t =>
      if Ascii.eqb c newline then (if ext_here s then Some EmptyString else None)
      else match dotstar_ext t with
           | Some run => Some (String c run)
           | None => if ext_here s then Some EmptyString else None
           end
  | EmptyString => None
  end.

Definition catalog_tags : list string := ["TMY"; "TRY"; "CWEC"].

(** what follows [p] when the text starts with [p] *)
Fixpoint after_prefix (p s : string) : option string :=
  match p, s with
  | EmptyString, _ => Some s
  | String a p', String b s' => if Ascii.eqb a b then after_prefix p' s' else None
  | String _ _, EmptyString => None
  end.

(** one of the tags, tried in order, followed by the rest of the pattern;
    the result is group 1 *)
Fixpoint tag_then_rest (tags : list string) (s : string) : option string :=
  match tags with
  | [] => None
  | tag :: others =>
      match after_prefix tag s with
      | Some rest =>
          match dotstar_ext rest with
          | Some run => Some (String.append tag run)
          | None => tag_then_rest others s
          end
      | None => tag_then_rest others s
      end
  end.

(** [re.search]: the leftmost start position at which the pattern fits *)
Fixpoint re_search_catalog (s : string) : option string :=
  match tag_then_rest catalog_tags s with
  | Some g => Some g
  | None =>
      match s with
      | String _ t => re_search_catalog t
      | EmptyString => None
      end
  end.

(** no newline among the characters of [s] *)
Fixpoint free_of_newline (s : string) : bool :=
  match s with
  | String c t => negb (Ascii.eqb c newline) && free_of_newline t
  | EmptyString => true
  end.

(** *** [insert_location] *)

Definition insert_location (meta : header) (epw_filename : string) : stmt Z :=
  match re_search_catalog epw_filename with
  | Some catalog =>
      fun c =>
        let id := next_location_id (visible c) in
        (Ok id, commit (execute_insert (LocationRow id meta epw_filename catalog) c))
  | None => throw ValueError
  end.

(** *** Header metadata parsers *)

Local Open Scope stmt_scope.

(** [parse_line_to_table] as called for ["DESIGN CONDITIONS,"] *)
Definition parse_design_conditions (line : string) (location_id : Z) : stmt unit :=
  let parts := split "," line in
  do_insert (DesignConditionsRow location_id (join "," (tl parts))) ;;;
  do_commit.

(** ["M/D"] pairs of one typical period, lines 406-413 *)
Definition typical_dates (start_date end_date : string)
  : result (option (Z * Z * Z * Z)) :=
  let start_parts := split "/" start_date in
  let end_parts := split "/" end_date in
  if ((List.length start_parts =? 2) && (List.length end_parts =? 2))%nat then
    rbind (py_int (nth 0 start_parts EmptyString)) (fun start_month =>
    rbind (py_int (nth 1 start_parts EmptyString)) (fun start_day =>
    rbind (py_int (nth 0 end_parts EmptyString)) (fun end_month =>
    rbind (py_int (nth 1 end_parts EmptyString)) (fun end_day =>
    Ok (Some (start_month, start_day, end_month, end_day))))))
  else Ok None.

(** the [for i in range(num_periods)] loop of [parse_typical_periods] *)
Fixpoint typical_loop (n : nat) (current_idx : nat) (parts : list string)
         (location_id : Z) : stmt unit :=
  match n with
  | O => ret tt
  | S n' =>
      if (List.length parts <=? current_idx + 3)%nat then ret tt
      else
        let period_name := strip (nth current_idx parts EmptyString) in
        let period_type := strip (nth (current_idx + 1) parts EmptyString) in
        let start_date := strip (nth (current_idx + 2) parts EmptyString) in
        let end_date := strip (nth (current_idx + 3) parts EmptyString) in
        try_except
          (d <~ lift (typical_dates start_date end_date) ;;
           match d with
           | Some (sm, sd, em, ed) =>
               do_insert (TypicalPeriodRow location_id period_type period_name
                                           sm sd em ed)
           | None => ret tt
           end)
          (fun _ => ret tt) ;;;
        typical_loop n' (current_idx + 4) parts location_id
  end.

Definition parse_typical_periods (line : string) (location_id : Z) : stmt unit :=
  if negb (startswith line "TYPICAL/EXTREME PERIODS") then ret tt
  else
    let parts := split "," line in
    if (List.length parts <? 3)%nat then ret tt
    else
      num_periods <~ lift (py_int (nth 1 parts EmptyString)) ;;
      typical_loop (Z.to_nat num_periods) 2 parts location_id ;;;
      do_commit.

(** [float(parts[k]) if parts[k].strip() else 0.0] for [k] from [k0] on,
    [n] times *)
Fixpoint float_fields (parts : list string) (k0 n : nat) : result (list pyfloat) :=
  match n with
  | O => Ok []
  | S n' =>
      rbind (float_field parts k0) (fun v =>
      rbind (float_fields parts (S k0) n') (fun vs => Ok (v :: vs)))
  end.

(** one depth group of [parse_ground_temps], lines 450-467 *)
Definition ground_group (parts : list string) (base_idx : nat) (location_id : Z)
  : stmt unit :=
  depth <~ lift (rbind (list_index parts base_idx) py_float) ;;
  soil_conductivity <~ lift (float_field parts (base_idx + 1)) ;;
  soil_density <~ lift (float_field parts (base_idx + 2)) ;;
  soil_specific_heat <~ lift (float_field parts (base_idx + 3)) ;;
  monthly_temps <~ lift (float_fields parts (base_idx + 4) 12) ;;
  do_insert (GroundTempRow location_id depth soil_conductivity soil_density
                           soil_specific_heat monthly_temps).

(** the [for i in range(num_depths)] loop, from [i] on, [n] rounds left *)
Fixpoint ground_loop (n i : nat) (parts : list string) (location_id : Z)
  : stmt unit :=
  match n with
  | O => ret tt
  | S n' =>
      let base_idx := (2 + i * 16)%nat in
      if (List.length parts <=? base_idx)%nat then ret tt
      else
        try_except (ground_group parts base_idx location_id) (fun _ => ret tt) ;;;
        ground_loop n' (S i) parts location_id
  end.

Definition parse_ground_temps (line : string) (location_id : Z) : stmt unit :=
  if negb (startswith line "GROUND TEMPERATURES") then ret tt
  else
    let parts := split "," line in
    if (List.length parts <? 3)%nat then ret tt
    else
      num_depths <~ lift (py_int (nth 1 parts EmptyString)) ;;
      ground_loop (Z.to_nat num_depths) 0 parts location_id ;;;
      do_commit.

(** [int(parts[k]) if parts[k].strip() else 0] *)
Definition int_field (parts : list string) (k : nat) : result Z :=
  rbind (list_index parts k)
        (fun p => if truthy (strip p) then py_int p else Ok 0%Z).

Definition parse_holidays_dst (line : string) (location_id : Z) : stmt unit :=
  if negb (startswith line "HOLIDAYS/DAYLIGHT SAVINGS") then ret tt
  else
    let parts := split "," line in
    if (List.length parts <? 5)%nat then ret tt
    else
      let uses_holidays := nth 1 parts EmptyString in
      dst_start_day <~ lift (int_field parts 2) ;;
      dst_end_day <~ lift (int_field parts 3) ;;
      dst_indicator <~ lift (int_field parts 4) ;;
      do_insert (HolidaysDstRow location_id uses_holidays dst_start_day
                                dst_end_day dst_indicator) ;;;
      do_commit.

(** ["M/D"] or ["M/ D"]: [int(p[0])], [int(p[1].strip())] of [d.split('/')] *)
Definition month_day (date : string) : result (Z * Z) :=
  let date_parts := split "/" date in
  rbind (rbind (list_index date_parts 0) py_int) (fun m =>
  rbind (rbind (list_index date_parts 1) (fun d => py_int (strip d))) (fun d =>
  Ok (m, d))).

Definition parse_data_periods (line : string) (location_id : Z) : stmt unit :=
  if negb (startswith line "DATA PERIODS") then ret tt
  else
    let parts := split "," line in
    if (List.length parts <? 6)%nat then ret tt
    else
      try_except
        (num_periods <~ lift (rbind (list_index parts 1) py_int) ;;
         intervals_per_hour <~ lift (rbind (list_index parts 2) py_int) ;;
         period_type <~ lift (stripped_field parts 3) ;;
         day_of_week <~ lift (stripped_field parts 4) ;;
         start_date <~ lift (stripped_field parts 5) ;;
         start <~ lift (month_day start_date) ;;
         end_date <~ lift (stripped_field parts 6) ;;
         stop <~ lift (month_day end_date) ;;
         do_insert (DataPeriodRow location_id num_periods intervals_per_hour
                                  period_type day_of_week
                                  (fst start) (snd start) (fst stop) (snd stop)) ;;;
         do_commit)
        (fun _ => ret tt).

(** the handler table of [parse_epw_metadata], in dictionary order *)
Definition metadata_handlers : list (string * (string -> Z -> stmt unit)) :=
  [ ("DESIGN CONDITIONS,", parse_design_conditions);
    ("TYPICAL/EXTREME PERIODS,", parse_typical_periods);
    ("GROUND TEMPERATURES,", parse_ground_temps);
    ("HOLIDAYS/DAYLIGHT SAVINGS,", parse_holidays_dst);
    ("DATA PERIODS,", parse_data_periods) ].

(** the inner loop of lines 551-554: the first matching prefix runs *)
Fixpoint dispatch (handlers : list (string * (string -> Z -> stmt unit)))
         (line : string) (location_id : Z) : stmt unit :=
  match handlers with
  | [] => ret tt
  | (prefix, handler) :: others =>
      if startswith (strip line) prefix then handler line location_id
      else dispatch others line location_id
  end.

Fixpoint metadata_loop (lines : list string) (location_id : Z) : stmt unit :=
  match lines with
  | [] => ret tt
  | line :: rest =>
      dispatch metadata_handlers line location_id ;;;
      metadata_loop rest location_id
  end.

Definition parse_epw_metadata (lines : list string) (location_id : Z) : stmt unit :=
  metadata_loop (firstn 20 lines) location_id.

Local Close Scope stmt_scope.

End Epw.

(* ===================================================================== *)
(** ** Design days ([extract_design_days]) *)
(* ===================================================================== *)

Module DesignDays.

Import PyStr PyNum Hourly Db.

Section Library.

Context {L : Pandas.library}.

(** *** The daily frame *)

Record date : Type := mk_date { year : Z; month : Z; day : Z }.

(** [year * 10000 + month * 100 + day], the number [pd.to_datetime]
    assembles from the three columns; it orders dates *)
Definition date_key (d : date) : Z := year d * 10000 + month d * 100 + day d.

Definition is_leap (y : Z) : bool :=
  ((y mod 4 =? 0) && (negb (y mod 100 =? 0) || (y mod 400 =? 0)))%Z.

Definition days_in_month (y m : Z) : Z :=
  if (m =? 2)%Z then (if is_leap y then 29 else 28)%Z
  else if ((m =? 4) || (m =? 6) || (m =? 9) || (m =? 11))%Z then 30%Z
  else 31%Z.

(** a calendar date inside the range of [pd.Timestamp] *)
Definition timestamp_ok (d : date) : bool :=
  ((1 <=? month d) && (month d <=? 12) && (1 <=? day d)
   && (day d <=? days_in_month (year d) (month d))
   && (16770922 <=? date_key d) && (date_key d <=? 22620411))%Z.

Fixpoint has_key (row : row_dict) (col : string) : bool :=
  match row with
  | [] => false
  | (k, _) :: rest => String.eqb k col || has_key rest col
  end.

(** a column exists in the frame when some row has the key *)
Definition has_column (df : list row_dict) (col : string) : bool :=
  existsb (fun row => has_key row col) df.

(** [df[col]]: [KeyError] for a column the frame lacks *)
Definition require_column (df : list row_dict) (col : string) : result unit :=
  if has_column df col then Ok tt else Raise KeyError.

(** the date of one row: [None] is NaT (a component is missing),
    [ValueError] when the components are not a date *)
Definition to_datetime (row : row_dict) : result (option date) :=
  match cell row "Year", cell row "Month", cell row "Day" with
  | VInt y, VInt m, VInt d =>
      let dt := mk_date y m d in
      if timestamp_ok dt then Ok (Some dt) else Raise ValueError
  | _, _, _ => Ok None
  end.

(** a numeric cell as a float; a missing cell is NaN *)
Definition cell_float (row : row_dict) (col : string) : pyfloat :=
  match cell row col with
  | VFloat f => f
  | VInt z => of_Z z
  | _ => PNan
  end.

Local Open Scope result_scope.

(** [df["Date"] = pd.to_datetime(df[["Year", "Month", "Day"]])] *)
Fixpoint with_dates (df : list row_dict) : result (list (option date * row_dict)) :=
  match df with
  | [] => Ok []
  | row :: rest =>
      d <- to_datetime row ;;
      ds <- with_dates rest ;;
      Ok ((d, row) :: ds)
  end.

Record daily_row : Type := mk_daily {
  Date : date;
  MinTemp : pyfloat;
  MaxTemp : pyfloat;
  MeanTemp : pyfloat;
  MeanRH : pyfloat
}.

Definition not_nan (l : list pyfloat) : list pyfloat :=
  filter (fun v => negb (is_nan v)) l.

(** ["min"], NaN skipped *)
Definition agg_min (l : list pyfloat) : pyfloat :=
  match not_nan l with
  | [] => PNan
  | v :: vs => fold_left (fun m x => if flt x m then x else m) vs v
  end.

(** ["max"], NaN skipped *)
Definition agg_max (l : list pyfloat) : pyfloat :=
  match not_nan l with
  | [] => PNan
  | v :: vs => fold_left (fun m x => if flt m x then x else m) vs v
  end.

(** one round of the sum of [group_mean]: the sum and its compensation
    term, [y = val - compensation; t = sumx + y;
    compensation = t - sumx - y], the compensation being set back to 0
    when it is NaN *)
Definition mean_step (acc : pyfloat * pyfloat) (val : pyfloat) : pyfloat * pyfloat :=
  let '(sumx, compensation) := acc in
  let y := fsub val compensation in
  let t := fadd sumx y in
  let c := fsub (fsub t sumx) y in
  (t, if is_nan c then PFin 0 else c).

(** ["mean"], NaN skipped: the compensated sum over the count *)
Definition agg_mean (l : list pyfloat) : pyfloat :=
  match not_nan l with
  | [] => PNan
  | vs => fdiv (fst (fold_left mean_step vs (PFin 0, PFin 0)))
               (of_Z (Z.of_nat (List.length vs)))
  end.

(** insert a date in an ascending list without repeats *)
Fixpoint insert_date (d : date) (l : list date) : list date :=
  match l with
  | [] => [d]
  | e :: rest =>
      if (date_key d <? date_key e)%Z then d :: l
      else if (date_key d =? date_key e)%Z then l
      else e :: insert_date d rest
  end.

(** the group keys of [groupby("Date")]: the distinct dates, ascending,
    NaT left out *)
Definition group_keys (dated : list (option date * row_dict)) : list date :=
  fold_right (fun p acc => match fst p with
                           | Some d => insert_date d acc
                           | None => acc
                           end) [] dated.

Definition group_rows (d : date) (dated : list (option date * row_dict))
  : list row_dict :=
  flat_map (fun p => match fst p with
                     | Some e => if (date_key e =? date_key d)%Z then [snd p] else []
                     | None => []
                     end) dated.

(** lines 343-348 *)
Definition aggregate (dated : list (option date * row_dict)) : list daily_row :=
  map (fun d =>
         let rows := group_rows d dated in
         let temps := map (fun r => cell_float r "DryBulb") rows in
         let rhs := map (fun r => cell_float r "RH") rows in
         mk_daily d (agg_min temps) (agg_max temps) (agg_mean temps) (agg_mean rhs))
      (group_keys dated).

(** *** [sort_values] and [percentile_day] *)

(** insertion by key: [x] goes in front of the first element that is not
    below it *)
Fixpoint insert_by (key : daily_row -> pyfloat) (x : daily_row)
         (l : list daily_row) : list daily_row :=
  match l with
  | [] => [x]
  | y :: rest => if flt (key y) (key x) then y :: insert_by key x rest else x :: l
  end.

(** the rows in ascending order of their keys, rows of equal key in the
    order they are given in *)
Definition by_key (key : daily_row -> pyfloat) (l : list daily_row)
  : list daily_row :=
  fold_right (insert_by key) [] l.

(** insertion by rank of the position *)
Fixpoint insert_ranked (rank : nat -> nat) (x : nat * daily_row)
         (l : list (nat * daily_row)) : list (nat * daily_row) :=
  match l with
  | [] => [x]
  | y :: rest =>
      if (rank (fst y) <? rank (fst x))%nat then y :: insert_ranked rank x rest
      else x :: l
  end.

(** the rows in the order the sort of the library gives them when their
    keys are equal: by the rank of their positions *)
Definition by_rank (rank : nat -> nat) (l : list daily_row) : list daily_row :=
  map snd (fold_right (insert_ranked rank) []
                      (combine (seq 0 (List.length l)) l)).

(** [argsort(kind="quicksort")] of the rows without NaN: ascending, rows
    of equal key in the order of the library *)
Definition argsort (key : daily_row -> pyfloat) (l : list daily_row)
  : list daily_row :=
  by_key key (by_rank (Pandas.tie_rank (map key l)) l).

(** [daily.sort_values(col, ascending=asc)]: the rows without NaN sorted,
    a descending sort being the ascending sort of the reversed frame,
    reversed; NaN rows last, in frame order *)
Definition sort_values (col : daily_row -> pyfloat) (asc : bool)
           (daily : list daily_row) : list daily_row :=
  let nan_rows := filter (fun r => is_nan (col r)) daily in
  let non_nan := filter (fun r => negb (is_nan (col r))) daily in
  let sorted := if asc then argsort col non_nan
                else rev (argsort col (rev non_nan)) in
  sorted ++ nan_rows.

(** [int(len(sorted_df) * (pct / 100))] *)
Definition percentile_index (n : nat) (pct : pyfloat) : result Z :=
  int_of_float (fmul (of_Z (Z.of_nat n)) (fdiv pct (of_Z 100))).

(** [sorted_df.iloc[idx]] for [idx >= 0] *)
Definition iloc (df : list daily_row) (idx : Z) : result daily_row :=
  if (idx <? 0)%Z then Raise IndexError else list_index df (Z.to_nat idx).

(** lines 350-353 *)
Definition percentile_day (daily : list daily_row) (col : daily_row -> pyfloat)
           (pct : pyfloat) (asc : bool) : result daily_row :=
  let sorted_df := sort_values col asc daily in
  idx <- percentile_index (List.length sorted_df) pct ;;
  iloc sorted_df idx.

(** the float literals of lines 356-362 *)
Definition pct_0_4 : pyfloat := b64 (4 # 10).
Definition pct_1_0 : pyfloat := b64 1.
Definition pct_99_6 : pyfloat := b64 (996 # 10).
Definition pct_99_0 : pyfloat := b64 99.

(** [daily["MaxTemp"] * (daily["MeanRH"] / 100)] *)
Definition HumidIndex (r : daily_row) : pyfloat :=
  fmul (MaxTemp r) (fdiv (MeanRH r) (of_Z 100)).

(** [daily.loc[daily.HumidIndex.idxmax()]]: the first row holding the
    largest index, NaN skipped; raises when there is none *)
Definition humid_day (daily : list daily_row) : result daily_row :=
  match filter (fun r => negb (is_nan (HumidIndex r))) daily with
  | [] => Raise ValueError
  | r :: rs =>
      Ok (fold_left (fun best x => if flt (HumidIndex best) (HumidIndex x)
                                   then x else best) rs r)
  end.

(** [daily[daily.Date.dt.month == m].iloc[0]] *)
Definition first_of_month (daily : list daily_row) (m : Z) : result daily_row :=
  match filter (fun r => (month (Date r) =? m)%Z) daily with
  | [] => Raise IndexError
  | r :: _ => Ok r
  end.

Definition design_block (name : string) (r : daily_row) (temp : pyfloat)
           (humidity : Q) (humidity_type : string) : block :=
  mk_block name (month (Date r)) (day (Date r)) temp humidity humidity_type
           (25 # 10) 270.

(** lines 342-348: the daily frame of the hourly frame *)
Definition daily_frame (epw_df : list row_dict) : result (list daily_row) :=
  _ <- require_column epw_df "Year" ;;
  _ <- require_column epw_df "Month" ;;
  _ <- require_column epw_df "Day" ;;
  dated <- with_dates epw_df ;;
  _ <- require_column epw_df "DryBulb" ;;
  _ <- require_column epw_df "RH" ;;
  Ok (aggregate dated).

Definition extract_design_days (epw_df : list row_dict) : result (list block) :=
  daily <- daily_frame epw_df ;;
  heating_996 <- percentile_day daily MinTemp pct_0_4 true ;;
  heating_99 <- percentile_day daily MinTemp pct_1_0 true ;;
  cooling_04 <- percentile_day daily MaxTemp pct_99_6 false ;;
  cooling_1 <- percentile_day daily MaxTemp pct_99_0 false ;;
  humid <- humid_day daily ;;
  jan <- first_of_month daily 1 ;;
  jul <- first_of_month daily 7 ;;
  Ok [ design_block "Heating 99.6%" heating_996 (MinTemp heating_996)
                    (1 # 1000) "HumidityRatio";
       design_block "Heating 99%" heating_99 (MinTemp heating_99)
                    (1 # 1000) "HumidityRatio";
       design_block "Cooling 0.4%" cooling_04 (MaxTemp cooling_04) 21 "WetBulb";
       design_block "Cooling 1%" cooling_1 (MaxTemp cooling_1) 21 "WetBulb";
       design_block "Cooling Humid" humid (MaxTemp humid) 24 "WetBulb";
       design_block "Clear Winter" jan (MaxTemp jan) (1 # 1000) "HumidityRatio";
       design_block "Clear Summer" jul (MaxTemp jul) 21 "WetBulb" ].

End Library.

End DesignDays.

(* ===================================================================== *)
(** ** The ingestion orchestrator ([process_single_zip]) *)
(* ===================================================================== *)

Module Ingest.

Import PyStr PyNum Hourly Db Epw DesignDays.

(** A zip archive: its members in [namelist()] order, each with the lines
    [readlines()] gives for it; [None] is a file [zipfile] cannot open. *)
Definition member : Type := (string * list string)%type.
Definition archive : Type := option (list member).

(** lines 233-255; the extracted file stands for its path *)
Definition extract_epw_from_zip (zip : archive) : option member :=
  match zip with
  | None => None
  | Some file_list =>
      match filter (fun f => endswith (lower (fst f)) ".epw") file_list with
      | [] => None
      | epw :: _ => Some epw
      end
  end.

(** every integer cell of the frame is one SQLite holds *)
Definition ints_fit (df : list row_dict) : bool :=
  forallb (fun row =>
             forallb (fun kv => match snd kv with
                                | VInt z => sqlite_int z
                                | _ => true
                                end) row) df.

(** column [col] has a cell that is not an integer: [None], a float, or
    no cell at all in a row that is too short *)
Definition column_has_gap (df : list row_dict) (col : string) : bool :=
  existsb (fun row => match cell row col with
                      | VInt _ => false
                      | _ => true
                      end) df.

(** every integer outside 64 bits is in a column that has a cell that is
    not an integer: a column of integers only is never read as floats *)
Definition may_read_as_float (df : list row_dict) : bool :=
  forallb (fun row =>
             forallb (fun kv => match snd kv with
                                | VInt z => sqlite_int z || column_has_gap df (fst kv)
                                | _ => true
                                end) row) df.

Section Library.

Context {L : Pandas.library}.

Local Open Scope stmt_scope.

(** [to_sql] writes the frame when SQLite is handed no integer outside 64
    bits: the frame holds none, or every column that holds one has a
    missing cell and pandas has read those columns as floats *)
Definition to_sql_stores (df : list row_dict) : bool :=
  ints_fit df || (may_read_as_float df && Pandas.reads_as_float df).

(** [insert_hourly_data]: the frame appended to [hourly_data] with its
    [location_id] column.  [to_sql] writes the rows in one transaction:
    it commits them all, or rolls back and lets the [OverflowError] of
    [sqlite3] through.  A row of [hourly_data] stands for the record of
    the frame it was written from. *)
Definition insert_hourly_data (location_id : Z) (df : list row_dict) : stmt unit :=
  fun c =>
    if to_sql_stores df then
      (Ok tt, commit (fold_left (fun c' r => execute_insert (HourlyRow location_id r) c')
                                df c))
    else (Raise OverflowError, rollback c).

(** [insert_design_days]; the integers of a block are the month and the
    day of a [Timestamp] and the literal 270 *)
Definition insert_design_days (location_id : Z) (blocks : list block) : stmt unit :=
  fun c =>
    (Ok tt, commit (fold_left (fun c' b => execute_insert (DesignDayRow location_id b) c')
                              blocks c)).

(** lines 562-581, inside the [with] blocks *)
Definition process_body (zip : archive) : stmt bool :=
  match extract_epw_from_zip zip with
  | None => ret false
  | Some (epw_filename, lines) =>
      parsed <~ lift (parse_epw_header lines) ;;
      let '(header_dict, data_start_idx) := parsed in
      location_id <~ insert_location header_dict epw_filename ;;
      parse_epw_metadata lines location_id ;;;
      df <~ lift (create_hourly_dataframe (skipn data_start_idx lines)) ;;
      insert_hourly_data location_id df ;;;
      design_day_blocks <~ lift (extract_design_days df) ;;
      insert_design_days location_id design_day_blocks ;;;
      ret true
  end.

Local Close Scope stmt_scope.

(** [process_single_zip]: leaving [with sqlite3.connect(...)] commits on a
    normal exit and rolls back on an exception, which line 582 turns into
    [False].  The result is the outcome and the database file afterwards. *)
Definition process_single_zip (zip : archive) (db : store) : bool * store :=
  match process_body zip (connect db) with
  | (Ok ok, c) => (ok, committed (commit c))
  | (Raise _, c) => (false, committed (rollback c))
  end.

(** the sequential loop of lines 628-632: success count and database *)
Fixpoint process_zip_files (zip_files : list archive) (db : store)
         (success_count : nat) : nat * store :=
  match zip_files with
  | [] => (success_count, db)
  | zip :: rest =>
      let '(ok, db') := process_single_zip zip db in
      process_zip_files rest db' (if ok then S success_count else success_count)
  end.

End Library.

End Ingest.

(* ===================================================================== *)
(** ** The wy3 to EPW transcoder ([generate_epw_from_wy3.py]) *)
(* ===================================================================== *)

Module Wy3.

Import PyStr PyNum.
Local Open Scope result_scope.

(** [wy3_var_col_info]: start column, end column and, for a flagged
    variable, the end column of its flag *)
Definition col_year : nat * nat := (9, 12)%nat.
Definition col_month : nat * nat := (13, 14)%nat.
Definition col_day : nat * nat := (15, 16)%nat.
Definition col_hour : nat * nat := (17, 18)%nat.
Definition col_ext_rad : nat * nat := (19, 22)%nat.
Definition col_tdb : nat * nat * nat := (94, 97, 98)%nat.
Definition col_tdp : nat * nat * nat := (99, 102, 103)%nat.
Definition col_p : nat * nat * nat := (88, 92, 93)%nat.
Definition col_global_hor_rad : nat * nat * nat := (23, 26, 28)%nat.
Definition col_dir_nor_rad : nat * nat * nat := (29, 32, 34)%nat.
Definition col_diff_hor_rad : nat * nat * nat := (35, 38, 40)%nat.
Definition col_global_hor_ill : nat * nat * nat := (41, 44, 45)%nat.
Definition col_dir_nor_ill : nat * nat * nat := (46, 49, 50)%nat.
Definition col_diff_hor_ill : nat * nat * nat := (51, 54, 55)%nat.
Definition col_zenith_ill : nat * nat * nat := (56, 59, 60)%nat.
Definition col_wind_dir : nat * nat * nat := (104, 106, 107)%nat.
Definition col_wind_speed : nat * nat * nat := (108, 111, 112)%nat.
Definition col_total_sky_cover : nat * nat * nat := (113, 114, 115)%nat.
Definition col_opaque_sky_cover : nat * nat * nat := (116, 117, 118)%nat.
Definition col_visibility : nat * nat * nat := (74, 77, 78)%nat.
Definition col_clg_height : nat * nat * nat := (64, 67, 68)%nat.

(** [line[info[0]-1:info[1]]] *)
Definition span (line : string) (info : nat * nat) : string :=
  slice line (fst info - 1) (snd info).

(** [line[info[0]-1:info[1]]] of a flagged variable *)
Definition value_of (line : string) (info : nat * nat * nat) : string :=
  span line (fst info).

(** [line[info[1]:info[2]]] *)
Definition flag_of (line : string) (info : nat * nat * nat) : string :=
  slice line (snd (fst info)) (snd info).

(** [wy3_to_epw_conv_f] *)
Definition conv_temperature : pyfloat := b64 (1 # 10).
Definition conv_radiation : pyfloat := fdiv (b64 1) (b64 (36 # 10)).
Definition conv_pressure : Z := 10.
Definition conv_illuminance : Z := 100.
Definition conv_height : Z := 10.
Definition conv_speed : pyfloat := b64 (1 # 10).
Definition conv_visibility : pyfloat := b64 (1 # 10).

(** One token of the output line.  An integer is printed exactly; the
    text [str] gives a float, and the relative humidity, which goes through
    [math.exp] and fractional powers, are kept as the value printed. *)
Inductive token : Type :=
| Text (s : string)
| StrFloat (f : pyfloat)
| StrRH (tdp tdb : pyfloat).

(** [round(x, 1)]: the nearest float with one decimal *)
Definition round1 (f : pyfloat) : pyfloat :=
  match f with
  | PFin q => b64 (inject_Z (round_half_even (q * 10)) / 10)
  | other => other
  end.

(** [str(round(int(s) * factor, 1))] *)
Definition tenths (s : string) (factor : pyfloat) : result pyfloat :=
  n <- py_int s ;;
  Ok (round1 (fmul (of_Z n) factor)).

(** [str(round(float(s) * factor))] *)
Definition rounded (s : string) (factor : pyfloat) : result token :=
  x <- py_float s ;;
  z <- round_float (fmul x factor) ;;
  Ok (Text (str_of_Z z)).

(** the two branches of [psat_water_vapour]: outside both the function
    reaches [return psat] with [psat] unbound *)
Definition psat_defined (temp : pyfloat) : bool :=
  (fge temp (PFin 0) && flt temp (b64 (373946 # 1000)))
  || (fge temp (b64 (- (22315 # 100))) && flt temp (PFin 0)).

(** The pressure itself is not computed: inside its domain the function
    stands for its argument, which [StrRH] carries. *)
Definition psat_water_vapour (temp : pyfloat) : result pyfloat :=
  if psat_defined temp then Ok temp else Raise UnboundLocalError.

(** [if s[0] == "0": s = s[1]] *)
Definition drop_zero (s : string) : result string :=
  first <- index s 0 ;;
  if String.eqb first "0" then index s 1 else Ok s.

(** the flag chains, one per variable, in the order of the source *)

Definition tdb_check (tdb_flag : string) : result string :=
  if String.eqb tdb_flag " " || String.eqb tdb_flag "E" then Ok "?9"
  else if String.eqb tdb_flag "T" then Ok "B9"
  else Raise (PlainException "tdb flag is not blank nor E").

Definition tdp_check (tdp_flag : string) : result string :=
  if String.eqb tdp_flag " " || String.eqb tdp_flag "E" then Ok "?9"
  else if String.eqb tdp_flag "T" then Ok "B9"
  else Raise (PlainException "tdp flag is not blank nor E").

Definition p_check (p_flag : string) : result string :=
  if String.eqb p_flag " " || String.eqb p_flag "E" then Ok "?9"
  else if String.eqb p_flag "T" then Ok "B9"
  else Raise (PlainException "p flag is not blank nor E").

Definition global_hor_rad_check (flag : string) : result string :=
  if String.eqb flag "M " || String.eqb flag "S " || String.eqb flag "N "
     || String.eqb flag "I " || String.eqb flag "9 " then Ok "?0"
  else Raise (PlainException
                "global_hor_rad_flag is not M nor S nor nor N nor I nor 9").

Definition dir_nor_rad_check (flag : string) : result string :=
  if String.eqb flag "S " || String.eqb flag "Q " || String.eqb flag "N "
     || String.eqb flag "9 " then Ok "?0"
  else Raise (PlainException "dir_nor_rad_flag is not S nor Q nor N nor 9").

(** line 207: the fourth disjunct is the flag itself, true for any
    non-empty text *)
Definition diff_hor_rad_check (flag : string) : result string :=
  if String.eqb flag "S " || String.eqb flag "M " || String.eqb flag "N "
     || truthy flag || String.eqb flag "9 " then Ok "?0"
  else Raise (PlainException
                "diff_hor_rad_flag is not S nor Q nor N nor I nor 9").

Definition global_hor_ill_check (flag : string) : result string :=
  if String.eqb flag "Q" || String.eqb flag "9" then Ok "?0"
  else Raise (PlainException "global_hor_ill_flag is not Q nor 9").

Definition dir_nor_ill_check (flag : string) : result string :=
  if String.eqb flag "Q" || String.eqb flag "9" then Ok "?0"
  else Raise (PlainException "dir_nor_ill_flag is not Q nor 9").

Definition diff_hor_ill_check (flag : string) : result string :=
  if String.eqb flag "Q" || String.eqb flag "9" then Ok "?0"
  else Raise (PlainException "diff_hor_ill_flag is not Q nor 9").

Definition zenith_ill_check (flag : string) : result string :=
  if String.eqb flag "9" then Ok "?0"
  else Raise (PlainException "zenith_ill_flag is not 9").

Definition wind_dir_check (flag : string) : result string :=
  if String.eqb flag " " || String.eqb flag "E" || String.eqb flag "9" then Ok "?9"
  else if String.eqb flag "T" then Ok "B9"
  else Raise (PlainException "wind_dir_flag is not blank nor E nor 9").

Definition wind_speed_check (flag : string) : result string :=
  if String.eqb flag " " || String.eqb flag "E" || String.eqb flag "9" then Ok "?9"
  else if String.eqb flag "T" then Ok "B9"
  else Raise (PlainException "wind_speed_flag is not blank nor E nor 9").

Definition total_sky_cover_check (flag : string) : result string :=
  if String.eqb flag " " || String.eqb flag "9" then Ok "?9"
  else Raise (PlainException "total_sky_cover_flag is not blank nor 9").

Definition opaque_sky_cover_check (flag : string) : result string :=
  if String.eqb flag " " || String.eqb flag "9" then Ok "?9"
  else Raise (PlainException "total_sky_cover_flag is not blank nor 9").

Definition visibility_check (flag : string) : result string :=
  if String.eqb flag " " || String.eqb flag "E" || String.eqb flag "9" then Ok "?9"
  else Raise (PlainException "visibility_flag is not blank nor E nor 9").

Definition clg_height_check (flag : string) : result string :=
  if String.eqb flag " " || String.eqb flag "E" || String.eqb flag "9" then Ok "?9"
  else Raise (PlainException "clg_height_flag is not blank nor 9").

(** the output of one record: the date tokens, the data source codes
    of the flagged variables, and the value tokens in line order *)
Record epw_record : Type := mk_record {
  year : string;
  month : string;
  day : string;
  hour : string;
  minute : string;
  tdb_ds : string;
  tdp_ds : string;
  p_ds : string;
  global_hor_rad_ds : string;
  dir_nor_rad_ds : string;
  diff_hor_rad_ds : string;
  global_hor_ill_ds : string;
  dir_nor_ill_ds : string;
  diff_hor_ill_ds : string;
  zenith_ill_ds : string;
  wind_dir_ds : string;
  wind_speed_ds : string;
  total_sky_cover_ds : string;
  opaque_sky_cover_ds : string;
  visibility_ds : string;
  clg_height_ds : string;
  values : list token
}.

(** lines 330-333 *)
Definition data_source (r : epw_record) : string :=
  String.concat EmptyString
    [ tdb_ds r; tdp_ds r; "?9"; p_ds r; "E0"; "?9"; "?9";
      global_hor_rad_ds r; dir_nor_rad_ds r; diff_hor_rad_ds r;
      global_hor_ill_ds r; dir_nor_ill_ds r; diff_hor_ill_ds r;
      zenith_ill_ds r; wind_dir_ds r; wind_speed_ds r;
      total_sky_cover_ds r; opaque_sky_cover_ds r;
      visibility_ds r; clg_height_ds r;
      "?9"; "?9"; "?9"; "?9"; "?9"; "?9"; "?9"; "?9"; "?9" ].

(** lines 334-340: the comma-separated tokens of [epw_line] *)
Definition epw_line (r : epw_record) : list token :=
  [ Text (year r); Text (month r); Text (day r); Text (hour r);
    Text (minute r); Text (data_source r) ] ++ values r.

(** [x_epw = default; if x != missing: x_epw = conversion] *)
Definition unless_missing (x missing default : string) (conversion : result token)
  : result token :=
  if negb (String.eqb x missing) then conversion else Ok (Text default).

(** lines 129-340: one input record *)
Definition convert_line (line : string) : result epw_record :=
  let year := span line col_year in
  month <- drop_zero (span line col_month) ;;
  day <- drop_zero (span line col_day) ;;
  hour <- drop_zero (span line col_hour) ;;
  let minute := "0" in
  tdb_epw <- tenths (value_of line col_tdb) conv_temperature ;;
  tdb_ds <- tdb_check (flag_of line col_tdb) ;;
  tdp_epw <- tenths (value_of line col_tdp) conv_temperature ;;
  tdp_ds <- tdp_check (flag_of line col_tdp) ;;
  pv <- psat_water_vapour tdp_epw ;;
  psat <- psat_water_vapour tdb_epw ;;
  let rh_epw := StrRH pv psat in
  p_ds <- p_check (flag_of line col_p) ;;
  p <- py_int (value_of line col_p) ;;
  let p_epw := Text (str_of_Z (p * conv_pressure)) in
  ext_rad_epw <- rounded (span line col_ext_rad) conv_radiation ;;
  let global_hor_rad := value_of line col_global_hor_rad in
  global_hor_rad_epw <- unless_missing global_hor_rad "9999" "9999"
                          (rounded global_hor_rad conv_radiation) ;;
  global_hor_rad_ds <- global_hor_rad_check (flag_of line col_global_hor_rad) ;;
  let dir_nor_rad := value_of line col_dir_nor_rad in
  dir_nor_rad_epw <- unless_missing dir_nor_rad "9999" "9999"
                       (rounded dir_nor_rad conv_radiation) ;;
  dir_nor_rad_ds <- dir_nor_rad_check (flag_of line col_dir_nor_rad) ;;
  let diff_hor_rad := value_of line col_diff_hor_rad in
  diff_hor_rad_epw <- unless_missing diff_hor_rad "9999" "9999"
                        (rounded diff_hor_rad conv_radiation) ;;
  diff_hor_rad_ds <- diff_hor_rad_check (flag_of line col_diff_hor_rad) ;;
  let global_hor_ill := value_of line col_global_hor_ill in
  global_hor_ill_epw <- unless_missing global_hor_ill "9999" "999999"
                          (rounded global_hor_ill (of_Z conv_illuminance)) ;;
  global_hor_ill_ds <- global_hor_ill_check (flag_of line col_global_hor_ill) ;;
  let dir_nor_ill := value_of line col_dir_nor_ill in
  dir_nor_ill_epw <- unless_missing dir_nor_ill "9999" "999999"
                       (rounded dir_nor_ill (of_Z conv_illuminance)) ;;
  dir_nor_ill_ds <- dir_nor_ill_check (flag_of line col_dir_nor_ill) ;;
  let diff_hor_ill := value_of line col_diff_hor_ill in
  diff_hor_ill_epw <- unless_missing diff_hor_ill "9999" "999999"
                        (rounded diff_hor_ill (of_Z conv_illuminance)) ;;
  diff_hor_ill_ds <- diff_hor_ill_check (flag_of line col_diff_hor_ill) ;;
  let zenith_ill := value_of line col_zenith_ill in
  zenith_ill_epw <- unless_missing zenith_ill "9999" "9999"
                      (rounded zenith_ill (of_Z conv_illuminance)) ;;
  zenith_ill_ds <- zenith_ill_check (flag_of line col_zenith_ill) ;;
  let wind_dir := value_of line col_wind_dir in
  wind_dir_epw <- unless_missing wind_dir "999" "999"
                    (rmap (fun z => Text (str_of_Z z)) (py_int wind_dir)) ;;
  wind_dir_ds <- wind_dir_check (flag_of line col_wind_dir) ;;
  let wind_speed := value_of line col_wind_speed in
  wind_speed_epw <- unless_missing wind_speed "9999" "999"
                      (rmap StrFloat (tenths wind_speed conv_speed)) ;;
  wind_speed_ds <- wind_speed_check (flag_of line col_wind_speed) ;;
  let total_sky_cover := value_of line col_total_sky_cover in
  total_sky_cover_epw <- unless_missing total_sky_cover "99" "99"
                           (Ok (Text total_sky_cover)) ;;
  total_sky_cover_ds <- total_sky_cover_check (flag_of line col_total_sky_cover) ;;
  let opaque_sky_cover := value_of line col_opaque_sky_cover in
  opaque_sky_cover_epw <- unless_missing opaque_sky_cover "99" "99"
                            (Ok (Text opaque_sky_cover)) ;;
  opaque_sky_cover_ds <- opaque_sky_cover_check (flag_of line col_opaque_sky_cover) ;;
  let visibility := value_of line col_visibility in
  visibility_epw <- unless_missing visibility "9999" "9999"
                      (rmap StrFloat (tenths visibility conv_visibility)) ;;
  visibility_ds <- visibility_check (flag_of line col_visibility) ;;
  let clg_height := value_of line col_clg_height in
  clg_height_epw <- unless_missing clg_height "9999" "99999"
                      (rmap (fun x => StrFloat (fmul x (of_Z conv_height)))
                            (py_float clg_height)) ;;
  clg_height_ds <- clg_height_check (flag_of line col_clg_height) ;;
  Ok (mk_record year month day hour minute
        tdb_ds tdp_ds p_ds global_hor_rad_ds dir_nor_rad_ds diff_hor_rad_ds
        global_hor_ill_ds dir_nor_ill_ds diff_hor_ill_ds zenith_ill_ds
        wind_dir_ds wind_speed_ds total_sky_cover_ds opaque_sky_cover_ds
        visibility_ds clg_height_ds
        [ StrFloat tdb_epw; StrFloat tdp_epw; rh_epw; p_epw; ext_rad_epw;
          Text "9999"; Text "9999"; global_hor_rad_epw; dir_nor_rad_epw;
          diff_hor_rad_epw; global_hor_ill_epw; dir_nor_ill_epw;
          diff_hor_ill_epw; zenith_ill_epw; wind_dir_epw; wind_speed_epw;
          total_sky_cover_epw; opaque_sky_cover_epw; visibility_epw;
          clg_height_epw; Text "9"; Text "0"; Text "999"; Text ".999";
          Text "999"; Text "99"; Text "0"; Text "999"; Text "99" ]).

(** lines 125-343: the loop over the input records, [line_n] counting the
    records read so far.  The result is what was written to the output
    and the exception that ended the run, if any. *)
Fixpoint convert_from (line_n : nat) (begin_line end_line : nat)
         (input : list string) : list epw_record * option exn :=
  match input with
  | [] => ([], None)
  | line :: rest =>
      let line_n := S line_n in
      if (line_n <? begin_line)%nat then convert_from line_n begin_line end_line rest
      else
        match convert_line line with
        | Raise e => ([], Some e)
        | Ok r =>
            if (line_n =? end_line)%nat then ([r], None)
            else let '(out, e) := convert_from line_n begin_line end_line rest in
                 (r :: out, e)
        end
  end.

Definition convert (begin_line end_line : nat) (input : list string)
  : list epw_record * option exn :=
  convert_from 0 begin_line end_line input.

End Wy3.

(* ===================================================================== *)
(** ** Vocabulary of the statements *)
(* ===================================================================== *)

Module Spec.

Import PyStr PyNum Db.

(** a header metadata row of location [l] *)
Definition metadata_row (l : Z) (r : row) : bool :=
  Z.eqb (row_location r) l
  && negb (is_location r) && negb (is_hourly r) && negb (is_design_day r).

(** the connection has committed the rows [added], all of kind [P],
    and holds no open transaction *)
Definition grows_by (P : row -> bool) (c c' : conn) : Prop :=
  exists added,
    committed c' = committed c ++ added /\ pending c' = [] /\
    forallb P added = true.

(** the open transaction has gained rows of kind [P]; nothing was
    committed *)
Definition holds_by (P : row -> bool) (c c' : conn) : Prop :=
  committed c' = committed c /\
  exists added, pending c' = pending c ++ added /\ forallb P added = true.

Section Library.

Context {L : Pandas.library}.

(** What one archive leaves in the connection, stage by stage: the
    outcome of [process_body] and the connection it leaves, with what
    decides the stage. *)
Inductive outcome (zip : Ingest.archive) (db : store) : result bool -> conn -> Prop :=
| NoEpwMember :
    Ingest.extract_epw_from_zip zip = None ->
    outcome zip db (Ok false) (connect db)
| NoHeader (e : exn) (name : string) (lines : list string) :
    Ingest.extract_epw_from_zip zip = Some (name, lines) ->
    Epw.parse_epw_header lines = Raise e ->
    outcome zip db (Raise e) (connect db)
| NoCatalog (name : string) (lines : list string) (meta : header) (idx : nat) :
    Ingest.extract_epw_from_zip zip = Some (name, lines) ->
    Epw.parse_epw_header lines = Ok (meta, idx) ->
    Epw.re_search_catalog name = None ->
    outcome zip db (Raise ValueError) (connect db)
| FailedAfterLocation (e : exn) (meta : header) (name catalog : string)
                      (lines : list string) (idx : nat)
                      (metadata hourly : list row) :
    let id := next_location_id db in
    let location := LocationRow id meta name catalog in
    let read := Epw.parse_epw_metadata lines id (mk_conn (db ++ [location]) []) in
    Ingest.extract_epw_from_zip zip = Some (name, lines) ->
    Epw.parse_epw_header lines = Ok (meta, idx) ->
    Epw.re_search_catalog name = Some catalog ->
    committed (snd read) = (db ++ [location]) ++ metadata ->
    forallb (metadata_row id) metadata = true ->
    (fst read = Raise e /\ hourly = []) \/
    (fst read = Ok tt /\
     Hourly.create_hourly_dataframe (skipn idx lines) = Raise e /\ hourly = []) \/
    (exists df,
        fst read = Ok tt /\
        Hourly.create_hourly_dataframe (skipn idx lines) = Ok df /\
        Ingest.to_sql_stores df = false /\ e = OverflowError /\ hourly = []) \/
    (exists df,
        fst read = Ok tt /\
        Hourly.create_hourly_dataframe (skipn idx lines) = Ok df /\
        Ingest.to_sql_stores df = true /\
        DesignDays.extract_design_days df = Raise e /\
        hourly = map (HourlyRow id) df) ->
    outcome zip db (Raise e)
            (mk_conn (db ++ location :: metadata ++ hourly) [])
| Loaded (meta : header) (name catalog : string) (lines : list string) (idx : nat)
         (metadata : list row) (df : list Hourly.row_dict) (blocks : list block) :
    let id := next_location_id db in
    let location := LocationRow id meta name catalog in
    let read := Epw.parse_epw_metadata lines id (mk_conn (db ++ [location]) []) in
    Ingest.extract_epw_from_zip zip = Some (name, lines) ->
    Epw.parse_epw_header lines = Ok (meta, idx) ->
    Epw.re_search_catalog name = Some catalog ->
    committed (snd read) = (db ++ [location]) ++ metadata ->
    forallb (metadata_row id) metadata = true ->
    fst read = Ok tt ->
    Hourly.create_hourly_dataframe (skipn idx lines) = Ok df ->
    Ingest.to_sql_stores df = true ->
    DesignDays.extract_design_days df = Ok blocks ->
    outcome zip db (Ok true)
            (mk_conn (db ++ location :: metadata ++ map (HourlyRow id) df
                         ++ map (DesignDayRow id) blocks) []).

End Library.

(** *** percentile day *)

Import DesignDays.

(** [a] may stand in front of [b] in the frame sorted by [col]: NaN rows
    last, the others in ascending or descending order of [col] *)
Definition frame_leb (col : daily_row -> pyfloat) (asc : bool)
           (a b : daily_row) : bool :=
  if is_nan (col b) then true
  else if is_nan (col a) then false
  else if asc then negb (flt (col b) (col a)) else negb (flt (col a) (col b)).

(** [sorted_df] holds the rows of [daily] in sorted order, the rows of
    equal metric in any order *)
Definition arrangement (col : daily_row -> pyfloat) (asc : bool)
           (daily sorted_df : list daily_row) : Prop :=
  Permutation daily sorted_df /\
  StronglySorted (fun a b => frame_leb col asc a b = true) sorted_df.

(** equal metric values, two NaN counting as equal *)
Definition same_metric (x y : pyfloat) : Prop :=
  (is_nan x = true /\ is_nan y = true) \/ feq x y = true.

(** *** wy3 flags *)

Import Wy3.

(** every step of a successful conversion has succeeded *)
Record steps (line : string) (r : epw_record) : Prop := mk_steps {
  step_year : year r = span line col_year;
  step_month : drop_zero (span line col_month) = Ok (month r);
  step_day : drop_zero (span line col_day) = Ok (day r);
  step_hour : drop_zero (span line col_hour) = Ok (hour r);
  step_minute : minute r = "0";
  step_tdb : tdb_check (flag_of line col_tdb) = Ok (tdb_ds r);
  step_tdp : tdp_check (flag_of line col_tdp) = Ok (tdp_ds r);
  step_p : p_check (flag_of line col_p) = Ok (p_ds r);
  step_global_hor_rad :
    global_hor_rad_check (flag_of line col_global_hor_rad) = Ok (global_hor_rad_ds r);
  step_dir_nor_rad :
    dir_nor_rad_check (flag_of line col_dir_nor_rad) = Ok (dir_nor_rad_ds r);
  step_diff_hor_rad :
    diff_hor_rad_check (flag_of line col_diff_hor_rad) = Ok (diff_hor_rad_ds r);
  step_global_hor_ill :
    global_hor_ill_check (flag_of line col_global_hor_ill) = Ok (global_hor_ill_ds r);
  step_dir_nor_ill :
    dir_nor_ill_check (flag_of line col_dir_nor_ill) = Ok (dir_nor_ill_ds r);
  step_diff_hor_ill :
    diff_hor_ill_check (flag_of line col_diff_hor_ill) = Ok (diff_hor_ill_ds r);
  step_zenith_ill :
    zenith_ill_check (flag_of line col_zenith_ill) = Ok (zenith_ill_ds r);
  step_wind_dir : wind_dir_check (flag_of line col_wind_dir) = Ok (wind_dir_ds r);
  step_wind_speed :
    wind_speed_check (flag_of line col_wind_speed) = Ok (wind_speed_ds r);
  step_total_sky_cover :
    total_sky_cover_check (flag_of line col_total_sky_cover)
    = Ok (total_sky_cover_ds r);
  step_opaque_sky_cover :
    opaque_sky_cover_check (flag_of line col_opaque_sky_cover)
    = Ok (opaque_sky_cover_ds r);
  step_visibility :
    visibility_check (flag_of line col_visibility) = Ok (visibility_ds r);
  step_clg_height :
    clg_height_check (flag_of line col_clg_height) = Ok (clg_height_ds r)
}.








(** [t] is the two-character text [s] without its leading zero, if any *)
Definition leading_zero_removed (s t : string) : Prop :=
  exists a b,
    s = String a (String b EmptyString) /\
    t = if Ascii.eqb a "0" then String b EmptyString else s.

End Spec.

(* ===================================================================== *)
(** ** Sample inputs *)
(* ===================================================================== *)

Module Samples.

Import PyStr PyNum.

Definition nl : string := String Epw.newline EmptyString.

(** an hourly line of 35 fields *)
Definition hour_line (year month day hour : string) : string :=
  String.concat ","
    [ year; month; day; hour; "60";
      "C9C9C9C9*0?9?9?9?9?9?9?9*0C8C8C8*0*0E8*0*0";
      "-12.8"; "-15.6"; "80"; "101000"; "0"; "0"; "220"; "0"; "0"; "0"; "0";
      "0"; "0"; "0"; "270"; "4.1"; "10"; "10"; "24.1"; "2000"; "9";
      "999999999"; "0"; "0.0000"; "0"; "88"; "0.000"; "0.0";
      String.append "0.0" nl ].

(** two hourly lines, the second with an infinite year *)
Definition lines_infinite_year : list string :=
  [ hour_line "1998" "1" "1" "1"; hour_line "inf" "1" "1" "2" ].

(** an over-long hourly line (36 fields) with a dry-bulb token that is
    not a number *)
Definition line_malformed : string :=
  String.concat ","
    [ "1998"; "1"; "1"; "1"; "60";
      "C9C9C9C9*0?9?9?9?9?9?9?9*0C8C8C8*0*0E8*0*0";
      "12.8C"; "-15.6"; "80"; "101000"; "0"; "0"; "220"; "0"; "0"; "0"; "0";
      "0"; "0"; "0"; "270"; "4.1"; "10"; "10"; "24.1"; "2000"; "9";
      "999999999"; "0"; "0.0000"; "0"; "88"; "0.000"; "0.0";
      String.append "extra" nl ].

(** an over-long hourly line (36 fields) whose wind direction overflows
    binary64 *)
Definition line_overflowing_wind : string :=
  String.concat ","
    [ "1998"; "1"; "1"; "1"; "60";
      "C9C9C9C9*0?9?9?9?9?9?9?9*0C8C8C8*0*0E8*0*0";
      "-12.8"; "-15.6"; "80"; "101000"; "0"; "0"; "220"; "0"; "0"; "0"; "0";
      "0"; "0"; "0"; "1e999"; "4.1"; "10"; "10"; "24.1"; "2000"; "9";
      "999999999"; "0"; "0.0000"; "0"; "88"; "0.000"; "0.0"; "0.0";
      String.append "extra" nl ].

(** the eight header lines of an EPW file *)
Definition header_lines : list string :=
  map (fun l => String.append l nl)
    [ "LOCATION,Toronto Intl AP,ON,CAN,CWEC,716240,43.67,-79.63,-5.0,173.0";
      "DESIGN CONDITIONS,0";
      "TYPICAL/EXTREME PERIODS,1,Summer - Week Nearest Max Temperature For Period,Extreme,7/13,7/19";
      "GROUND TEMPERATURES,1,.5,,,,1.0,2.0,3.0,4.0,5.0,6.0,7.0,8.0,9.0,10.0,11.0,12.0";
      "HOLIDAYS/DAYLIGHT SAVINGS,No,0,0,0";
      "COMMENTS 1,Custom/User Format";
      "COMMENTS 2, -- Ground temps produced with a standard soil diffusivity";
      "DATA PERIODS,1,1,Data,Sunday, 1/ 1,12/31" ].

(** a file whose hours all fall in February *)
Definition epw_february : list string :=
  header_lines
  ++ [ hour_line "2016" "2" "1" "1"; hour_line "2016" "2" "1" "2";
       hour_line "2016" "2" "2" "1" ].

(** a file with hours in January and in July *)
Definition epw_january_july : list string :=
  header_lines
  ++ [ hour_line "2016" "1" "1" "1"; hour_line "2016" "1" "1" "2";
       hour_line "2016" "7" "1" "1" ].

Definition readme : string * list string :=
  ("README.txt", [String.append "Toronto weather" nl]).

Definition archive_february : Ingest.archive :=
  Some [ readme; ("CAN_ON_Toronto.Intl.AP.716240_CWEC2016.epw", epw_february) ].

Definition archive_january_july : Ingest.archive :=
  Some [ readme; ("CAN_ON_Toronto.Intl.AP.716240_CWEC2016.epw", epw_january_july) ].

(** a file whose second hour carries a year outside 64 bits *)
Definition epw_huge_year : list string :=
  header_lines
  ++ [ hour_line "2016" "1" "1" "1"; hour_line "99999999999999999999" "1" "1" "2";
       hour_line "2016" "7" "1" "1" ].

Definition archive_huge_year : Ingest.archive :=
  Some [ readme; ("CAN_ON_Toronto.Intl.AP.716240_CWEC2016.epw", epw_huge_year) ].

Definition archive_without_epw : Ingest.archive :=
  Some [ readme; ("CAN_ON_Toronto.Intl.AP.716240_CWEC2016.stat", header_lines) ].

Definition archive_without_tag : Ingest.archive :=
  Some [ readme; ("CAN_ON_Toronto.Intl.AP.716240.epw", epw_january_july) ].

(** a wy3 record of 118 columns; the flags of visibility (column 78) and
    of diffuse horizontal radiation (columns 39-40) are parameters *)
Definition wy3_line (diff_hor_rad_flag visibility_flag : string) : string :=
  String.concat EmptyString
    [ "CAN71624"; "1998"; "07"; "15"; "12"; "4500";
      "2500"; "M "; "1800"; "S "; "0700"; diff_hor_rad_flag;
      "0850"; "Q"; "0600"; "Q"; "0250"; "Q"; "9999"; "9";
      "   "; "0300"; " "; "     "; "0241"; visibility_flag; "         ";
      "10050"; " "; "0256"; " "; "0178"; "E";
      "270"; " "; "0041"; "T"; "05"; " "; "03"; " "; nl ].

Definition wy3_record : string := wy3_line "S " " ".

Definition wy3_visibility_T : string := wy3_line "S " "T".

Definition wy3_diff_hor_rad_X : string := wy3_line "X " " ".

(** ten days of January; the two coldest, the 3rd and the 4th, tie *)
Definition january_day (d : Z) (min_temp max_temp : Q) : DesignDays.daily_row :=
  DesignDays.mk_daily (DesignDays.mk_date 2016 1 d) (PFin min_temp) (PFin max_temp)
                      (PFin ((min_temp + max_temp) / 2)) (PFin 80).

Definition ten_days : list DesignDays.daily_row :=
  [ january_day 1 (-12) (-5); january_day 2 (-15) (-7);
    january_day 3 (-20) (-11); january_day 4 (-20) (-9);
    january_day 5 (-18) (-8); january_day 6 (-10) (-2);
    january_day 7 (-8) 1; january_day 8 (-11) (-3);
    january_day 9 (-14) (-6); january_day 10 (-9) 0 ].

(** a hundred days, one in each of a hundred years, with the minima 0,
    1, ..., 99 *)
Definition hundred_days : list DesignDays.daily_row :=
  map (fun k => DesignDays.mk_daily (DesignDays.mk_date (2000 + Z.of_nat k) 1 1)
                                    (PFin (inject_Z (Z.of_nat k)))
                                    (PFin (inject_Z (Z.of_nat k) + 5))
                                    (PFin (inject_Z (Z.of_nat k) + 2)) (PFin 80))
      (seq 0 100).

Definition toronto : Db.header :=
  Db.mk_header "Toronto Intl AP" "ON" "CAN" (b64 (4367 # 100)) (b64 (- (7963 # 100)))
               (b64 173) (b64 (- (5))) "CWEC" "716240"
               "Custom/User Format"
               " -- Ground temps produced with a standard soil diffusivity".

End Samples.

(* ===================================================================== *)
(** ** Further vocabulary *)
(* ===================================================================== *)

Module Terms.

Import PyStr PyNum Db.

(** the characters of a text *)
Definition chars (s : string) : list ascii := list_ascii_of_string s.

(** no comma among the characters of [s] *)
Definition comma_free (s : string) : bool :=
  negb (existsb (Ascii.eqb ",") (chars s)).

(** the first character is white space *)
Definition starts_with_space (s : string) : bool :=
  match s with
  | String c _ => isspace c
  | EmptyString => false
  end.

(** the last character is white space *)
Fixpoint ends_with_space (s : string) : bool :=
  match s with
  | EmptyString => false
  | String c EmptyString => isspace c
  | String _ t => ends_with_space t
  end.

(** a text without white space at either end *)
Definition trimmed (s : string) : Prop :=
  starts_with_space s = false /\ ends_with_space s = false.

(** the first character of a text *)
Definition first_char (s : string) : option ascii :=
  match s with
  | String c _ => Some c
  | EmptyString => None
  end.

(** a character a text that [float()] accepts can begin with, once the
    white space in front of it is gone: a sign, a digit, a point, or the
    first letter of [inf] and [nan] *)
Definition float_start (c : ascii) : bool :=
  is_digit c
  || mem_nat (code c) [43; 45; 46; 73; 105; 78; 110]%nat.

(** *** Header metadata *)

(** the labels the handlers of [parse_epw_metadata] look for themselves,
    each without the comma the dispatcher adds *)
Definition checked_labels : list string :=
  [ "TYPICAL/EXTREME PERIODS"; "GROUND TEMPERATURES";
    "HOLIDAYS/DAYLIGHT SAVINGS"; "DATA PERIODS" ].

(** The rows a TYPICAL/EXTREME PERIODS line stands for: one row for each
    of the first [count] groups of four fields whose two dates read as
    [M/D] with integers that SQLite holds, in the order of the line. *)
Definition typical_period_rows (parts : list string) (location_id : Z)
           (count : nat) : list row :=
  flat_map
    (fun i =>
       let idx := (2 + 4 * i)%nat in
       match Epw.typical_dates (strip (nth (idx + 2) parts EmptyString))
                               (strip (nth (idx + 3) parts EmptyString)) with
       | Ok (Some (sm, sd, em, ed)) =>
           if forallb sqlite_int [sm; sd; em; ed] then
             [ TypicalPeriodRow location_id
                 (strip (nth (idx + 1) parts EmptyString))
                 (strip (nth idx parts EmptyString)) sm sd em ed ]
           else []
       | _ => []
       end)
    (seq 0 count).

(** The rows one depth group of a GROUND TEMPERATURES line stands for:
    the row read from the 16 fields that start at the field of index
    [base_idx], when the 16 fields are there, the depth is a number and
    each of the other 15 is blank (read as 0.0) or a number; no row
    otherwise. *)
Definition ground_group_rows (parts : list string) (location_id : Z)
           (base_idx : nat) : list row :=
  match rbind (list_index parts base_idx) py_float,
        Epw.float_field parts (base_idx + 1),
        Epw.float_field parts (base_idx + 2),
        Epw.float_field parts (base_idx + 3),
        Epw.float_fields parts (base_idx + 4) 12 with
  | Ok depth, Ok conductivity, Ok density, Ok specific_heat, Ok monthly =>
      [ GroundTempRow location_id depth conductivity density specific_heat monthly ]
  | _, _, _, _, _ => []
  end.

(** the rows of the first [count] depth groups, in the order of the line *)
Definition ground_rows (parts : list string) (location_id : Z) (count : nat)
  : list row :=
  flat_map (fun i => ground_group_rows parts location_id (2 + i * 16)) (seq 0 count).

(** *** The store *)

(** every row of the store belongs to a location the store holds *)
Definition references_known (db : store) : Prop :=
  forall r, In r db -> In (row_location r) (location_ids db).

(** a row of location [l] other than its [locations_metadata] row *)
Definition belongs_to (l : Z) (r : row) : bool :=
  Z.eqb (row_location r) l && negb (is_location r).

(** *** The transcoder *)

(** every line converted in turn, up to the first that raises *)
Fixpoint convert_all (lines : list string) : list Wy3.epw_record * option exn :=
  match lines with
  | [] => ([], None)
  | line :: rest =>
      match Wy3.convert_line line with
      | Raise e => ([], Some e)
      | Ok r => let '(out, e) := convert_all rest in (r :: out, e)
      end
  end.

(** The variables with a missing value text: the columns of the variable,
    the text that stands for a missing value in the input, the text
    written for it, and the place of the variable among the value tokens
    of the output line. *)
Definition missing_values : list (nat * nat * nat * string * string * nat) :=
  [ (Wy3.col_global_hor_rad, "9999", "9999", 7%nat);
    (Wy3.col_dir_nor_rad, "9999", "9999", 8%nat);
    (Wy3.col_diff_hor_rad, "9999", "9999", 9%nat);
    (Wy3.col_global_hor_ill, "9999", "999999", 10%nat);
    (Wy3.col_dir_nor_ill, "9999", "999999", 11%nat);
    (Wy3.col_diff_hor_ill, "9999", "999999", 12%nat);
    (Wy3.col_zenith_ill, "9999", "9999", 13%nat);
    (Wy3.col_wind_dir, "999", "999", 14%nat);
    (Wy3.col_wind_speed, "9999", "999", 15%nat);
    (Wy3.col_total_sky_cover, "99", "99", 16%nat);
    (Wy3.col_opaque_sky_cover, "99", "99", 17%nat);
    (Wy3.col_visibility, "9999", "9999", 18%nat);
    (Wy3.col_clg_height, "9999", "99999", 19%nat) ].

End Terms.

(* ===================================================================== *)
(** ** Further sample inputs *)
(* ===================================================================== *)

Module Inputs.

(** a wy3 record of 118 columns whose dry-bulb temperature (columns 94 to
    97) is [9999], and one whose ceiling height (columns 64 to 67), wind
    speed (columns 108 to 111) and total sky cover (columns 113 and 114)
    are missing *)
Definition wy3_fields (clg_height tdb wind_speed total_sky_cover : string) : string :=
  String.concat EmptyString
    [ "CAN71624"; "1998"; "07"; "15"; "12"; "4500";
      "2500"; "M "; "1800"; "S "; "0700"; "S ";
      "0850"; "Q"; "0600"; "Q"; "0250"; "Q"; "9999"; "9";
      "   "; clg_height; " "; "     "; "0241"; " "; "         ";
      "10050"; " "; tdb; " "; "0178"; "E";
      "270"; " "; wind_speed; "T"; total_sky_cover; " "; "03"; " "; Samples.nl ].

Definition wy3_missing_dry_bulb : string := wy3_fields "0300" "9999" "0041" "05".

Definition wy3_missing_values : string := wy3_fields "9999" "0256" "9999" "99".

(** the hourly frame of the sample file with hours in January and July *)
Definition frame_january_july : list Hourly.row_dict :=
  match Hourly.create_hourly_dataframe (skipn 8 Samples.epw_january_july) with
  | Ok df => df
  | Raise _ => []
  end.

End Inputs.

(* ===================================================================== *)
(** * Properties *)
(* ===================================================================== *)

Lemma Ok_inj {A : Type} (a b : A) : Ok a = Ok b -> a = b.
Proof. intros H. congruence. Qed.

Lemma rbind_Ok {A B : Type} (r : result A) (k : A -> result B) (b : B) :
  rbind r k = Ok b -> exists a, r = Ok a /\ k a = Ok b.
Proof.
  destruct r as [a|e]; simpl; intros H; [|discriminate].
  exists a. split; [reflexivity | assumption].
Qed.

(** split a successful chain of binds at its first step *)
Ltac bind_ok H :=
  match type of H with
  | rbind _ _ = Ok _ =>
      let a := fresh "v" in
      let E := fresh "E" in
      apply rbind_Ok in H; destruct H as [a [E H]]; cbv beta in H
  end.

(** ** Rounding to binary64 *)

Module PyNumFacts.

Import PyNum.
Local Open Scope Q_scope.

Lemma pow2_Qpower (e : Z) : pow2 e == 2 ^ e.
Proof.
  unfold pow2. destruct (Z.leb_spec 0 e) as [H|H].
  - apply (Zpower_Qpower 2 e H).
  - replace e with (- (- e))%Z at 2 by lia.
    rewrite Qpower_opp. rewrite <- (Zpower_Qpower 2 (- e)) by lia.
    assert (Hp : (0 < 2 ^ (- e))%Z) by (apply Z.pow_pos_nonneg; lia).
    destruct (2 ^ (- e))%Z as [|p|p] eqn:E; try lia.
    reflexivity.
Qed.

Lemma pow2_pos (e : Z) : 0 < pow2 e.
Proof. rewrite pow2_Qpower. apply Qpower_0_lt. reflexivity. Qed.

Lemma pow2_add (a b : Z) : pow2 (a + b) == pow2 a * pow2 b.
Proof. rewrite !pow2_Qpower. apply Qpower_plus. discriminate. Qed.

Lemma pow2_le (a b : Z) : (a <= b)%Z -> pow2 a <= pow2 b.
Proof. intros H. rewrite !pow2_Qpower. apply Qpower_le_compat_l; [assumption|discriminate]. Qed.

Lemma pow2_lt_inv (a b : Z) : pow2 a < pow2 b -> (a < b)%Z.
Proof. rewrite !pow2_Qpower. intros H. apply (Qpower_lt_compat_l_inv 2); [assumption|reflexivity]. Qed.

Lemma pow2_nonneg_Z (e : Z) : (0 <= e)%Z -> pow2 e = inject_Z (2 ^ e).
Proof. intros H. unfold pow2. destruct (Z.leb_spec 0 e); [reflexivity|lia]. Qed.

Lemma pow2_inv (e : Z) : / pow2 e == pow2 (- e).
Proof.
  assert (H := pow2_add e (- e)). rewrite Z.add_opp_diag_r in H.
  assert (Hp := pow2_pos e). assert (H1 : pow2 0 == 1) by reflexivity.
  rewrite H1 in H. field_simplify_eq; [|lra]. rewrite H. ring.
Qed.

Lemma ilog2_spec (q : Q) : 0 < q -> pow2 (ilog2 q) <= q /\ q < pow2 (ilog2 q + 1).
Proof.
  intros Hq. destruct q as [a b]. unfold ilog2. cbn [Qnum Qden].
  assert (Ha : (0 < a)%Z) by (unfold Qlt in Hq; simpl in Hq; lia).
  set (la := Z.log2 a). set (lb := Z.log2 (Z.pos b)).
  assert (Hla : (2 ^ la <= a < 2 ^ (la + 1))%Z).
  { unfold la. replace (Z.log2 a + 1)%Z with (Z.succ (Z.log2 a)) by lia.
    apply Z.log2_spec. assumption. }
  assert (Hlb : (2 ^ lb <= Z.pos b < 2 ^ (lb + 1))%Z).
  { unfold lb. replace (Z.log2 (Z.pos b) + 1)%Z with (Z.succ (Z.log2 (Z.pos b))) by lia.
    apply Z.log2_spec. lia. }
  assert (Hla0 : (0 <= la)%Z) by apply Z.log2_nonneg.
  assert (Hlb0 : (0 <= lb)%Z) by apply Z.log2_nonneg.
  assert (Hq' : a # b == inject_Z a / inject_Z (Z.pos b)) by apply Qmake_Qdiv.
  assert (Hbpos : 0 < inject_Z (Z.pos b)) by reflexivity.
  assert (Hmul : (a # b) * inject_Z (Z.pos b) == inject_Z a).
  { rewrite Hq'. field. intros H. rewrite H in Hbpos. discriminate. }
  (* bounds of the terms, in Q *)
  assert (A1 : pow2 la <= inject_Z a).
  { rewrite pow2_nonneg_Z by assumption. rewrite <- Zle_Qle. lia. }
  assert (A2 : inject_Z a < pow2 (la + 1)).
  { rewrite pow2_nonneg_Z by lia. rewrite <- Zlt_Qlt. lia. }
  assert (B1 : pow2 lb <= inject_Z (Z.pos b)).
  { rewrite pow2_nonneg_Z by assumption. rewrite <- Zle_Qle. lia. }
  assert (B2 : inject_Z (Z.pos b) < pow2 (lb + 1)).
  { rewrite pow2_nonneg_Z by lia. rewrite <- Zlt_Qlt. lia. }
  assert (E1 : pow2 (la + 1) == pow2 (la - lb + 1) * pow2 lb).
  { rewrite <- pow2_add. replace (la - lb + 1 + lb)%Z with (la + 1)%Z by lia. reflexivity. }
  assert (E2 : pow2 la == pow2 (la - lb - 1) * pow2 (lb + 1)).
  { rewrite <- pow2_add. replace (la - lb - 1 + (lb + 1))%Z with la by lia. reflexivity. }
  assert (P1 := pow2_pos (la - lb + 1)). assert (P2 := pow2_pos (la - lb - 1)).
  assert (P3 := pow2_pos lb). assert (P4 := pow2_pos (lb + 1)).
  assert (Up : a # b < pow2 (la - lb + 1)).
  { destruct (Qlt_le_dec (a # b) (pow2 (la - lb + 1))) as [H|H]; [assumption|exfalso].
    assert (pow2 (la - lb + 1) * pow2 lb <= (a # b) * inject_Z (Z.pos b)).
    { apply Qmult_le_compat_nonneg; split; try assumption; apply Qlt_le_weak; assumption. }
    rewrite Hmul, <- E1 in H0. lra. }
  assert (Lo : pow2 (la - lb - 1) <= a # b).
  { destruct (Qlt_le_dec (a # b) (pow2 (la - lb - 1))) as [H|H]; [exfalso|assumption].
    assert ((a # b) * inject_Z (Z.pos b) < pow2 (la - lb - 1) * pow2 (lb + 1)).
    { apply Qmult_lt_compat_nonneg; split; try assumption; apply Qlt_le_weak; assumption. }
    rewrite Hmul, <- E2 in H0. lra. }
  destruct (Qle_bool (pow2 (la - lb)) (a # b)) eqn:E.
  - apply Qle_bool_iff in E. split; assumption.
  - replace (la - lb - 1 + 1)%Z with (la - lb)%Z by lia. split; [assumption|].
    apply Qnot_le_lt. intros H. apply Qle_bool_iff in H. congruence.
Qed.

Lemma round_half_even_near (q : Q) :
  2 * inject_Z (round_half_even q) - 1 <= 2 * q /\
  2 * q <= 2 * inject_Z (round_half_even q) + 1.
Proof.
  destruct q as [a b]. unfold round_half_even. cbn [Qnum Qden].
  assert (Hdiv := Z_div_mod a (Z.pos b) eq_refl).
  destruct (Z.div_eucl a (Z.pos b)) as [fl r]. destruct Hdiv as [Ha Hr].
  assert (Hcases : forall m, (2 * (m * Z.pos b - a) <= Z.pos b)%Z ->
                             (2 * (a - m * Z.pos b) <= Z.pos b)%Z ->
            2 * inject_Z m - 1 <= 2 * (a # b) /\ 2 * (a # b) <= 2 * inject_Z m + 1).
  { intros m H1 H2. unfold Qle, Qmult, Qminus, Qplus, Qopp, inject_Z. cbn [Qnum Qden].
    rewrite !Pos.mul_1_l, ?Pos.mul_1_r. split; nia. }
  destruct (Z.compare_spec (2 * r) (Z.pos b)) as [E|E|E].
  - destruct (Z.even fl); apply Hcases; nia.
  - apply Hcases; nia.
  - apply Hcases; nia.
Qed.

Lemma trailing_zeros_nonneg (p : positive) : (0 <= trailing_zeros p)%Z.
Proof. induction p; cbn [trailing_zeros]; lia. Qed.

Lemma trailing_zeros_divide (p : positive) (t : Z) :
  (0 <= t <= trailing_zeros p)%Z -> (Z.pos p / 2 ^ t * 2 ^ t = Z.pos p)%Z.
Proof.
  revert t. induction p as [p IH|p IH|]; intros t Ht; cbn [trailing_zeros] in Ht.
  - replace t with 0%Z by lia. rewrite Z.pow_0_r, Z.div_1_r. lia.
  - destruct (Z.eq_dec t 0) as [->|Hne].
    + rewrite Z.pow_0_r, Z.div_1_r. lia.
    + assert (H := IH (t - 1)%Z ltac:(lia)).
      replace (2 ^ t)%Z with (2 * 2 ^ (t - 1))%Z
        by (rewrite <- Z.pow_succ_r by lia; f_equal; lia).
      change (Z.pos p~0) with (2 * Z.pos p)%Z.
      rewrite Z.div_mul_cancel_l by (try lia; apply Z.pow_nonzero; lia).
      lia.
  - replace t with 0%Z by lia. rewrite Z.pow_0_r, Z.div_1_r. lia.
Qed.

Lemma cancel_twos_eq (q : Q) : cancel_twos q == q.
Proof.
  destruct q as [a b]. unfold cancel_twos. cbn [Qnum Qden].
  assert (Hgen : forall p, (Z.abs a = Z.pos p)%Z ->
    let t := Z.min (trailing_zeros p) (trailing_zeros b) in
    Z.shiftr a t # Z.to_pos (Z.shiftr (Z.pos b) t) == a # b).
  { intros p Hp t.
    assert (Ht0 : (0 <= t)%Z).
    { unfold t. pose proof (trailing_zeros_nonneg p). pose proof (trailing_zeros_nonneg b). lia. }
    rewrite !Z.shiftr_div_pow2 by assumption.
    assert (Hb := trailing_zeros_divide b t ltac:(unfold t; lia)).
    assert (Hpp := trailing_zeros_divide p t ltac:(unfold t; lia)).
    assert (H2 : (0 < 2 ^ t)%Z) by (apply Z.pow_pos_nonneg; lia).
    assert (Hbq : (0 < Z.pos b / 2 ^ t)%Z) by nia.
    assert (Haq : (a / 2 ^ t * 2 ^ t = a)%Z).
    { destruct a as [|a'|a']; try discriminate.
      - injection Hp as ->. exact Hpp.
      - injection Hp as ->.
        change (Z.neg p) with (- Z.pos p)%Z. rewrite <- Hpp at 1.
        rewrite Z.div_opp_l_z; try lia.
        + rewrite Z.div_mul by lia. rewrite <- Hpp at 2. lia.
        + rewrite Z.mod_mul; lia. }
    unfold Qeq. cbn [Qnum Qden]. rewrite Z2Pos.id by assumption. nia. }
  destruct a as [|p|p]; [reflexivity| |]; apply Hgen; reflexivity.
Qed.

Lemma dyadic_eq (m e : Z) : dyadic m e == inject_Z m * pow2 e.
Proof.
  unfold dyadic. destruct (Z.leb_spec 0 e) as [He|He].
  - rewrite pow2_nonneg_Z by assumption. rewrite inject_Z_mult. reflexivity.
  - assert (Hgen : forall p, (Z.abs m = Z.pos p)%Z ->
      let t := Z.min (trailing_zeros p) (- e) in
      (m / 2 ^ t) # Z.to_pos (2 ^ (- e - t)) == inject_Z m * pow2 e).
    { intros p Hp t.
      assert (Ht0 : (0 <= t <= - e)%Z).
      { unfold t. pose proof (trailing_zeros_nonneg p). lia. }
      assert (Hpp := trailing_zeros_divide p t ltac:(unfold t; lia)).
      assert (H2 : (0 < 2 ^ t)%Z) by (apply Z.pow_pos_nonneg; lia).
      assert (Hmq : (m / 2 ^ t * 2 ^ t = m)%Z).
      { destruct m as [|a'|a']; try discriminate.
        - injection Hp as ->. exact Hpp.
        - injection Hp as ->.
          change (Z.neg p) with (- Z.pos p)%Z. rewrite <- Hpp at 1.
          rewrite Z.div_opp_l_z; try lia.
          + rewrite Z.div_mul by lia. rewrite <- Hpp at 2. lia.
          + rewrite Z.mod_mul; lia. }
      assert (H3 : (0 < 2 ^ (- e - t))%Z) by (apply Z.pow_pos_nonneg; lia).
      assert (Hsplit : (2 ^ (- e) = 2 ^ (- e - t) * 2 ^ t)%Z).
      { rewrite <- Z.pow_add_r by lia. f_equal. lia. }
      rewrite Qmake_Qdiv. rewrite Z2Pos.id by assumption.
      assert (Hpe : pow2 e == / inject_Z (2 ^ (- e))).
      { rewrite <- (pow2_nonneg_Z (- e)) by lia. rewrite pow2_inv.
        rewrite Z.opp_involutive. reflexivity. }
      rewrite Hpe, Hsplit. rewrite <- Hmq at 2. rewrite !inject_Z_mult.
      assert (~ inject_Z (2 ^ t) == 0).
      { intros H. apply (Qlt_irrefl 0). rewrite <- H at 2. rewrite <- (Zlt_Qlt 0). assumption. }
      assert (~ inject_Z (2 ^ (- e - t)) == 0).
      { intros H'. apply (Qlt_irrefl 0). rewrite <- H' at 2. rewrite <- (Zlt_Qlt 0). assumption. }
      field. split; assumption. }
    destruct m as [|p|p].
    + rewrite Qmult_0_l. reflexivity.
    + apply Hgen. reflexivity.
    + apply Hgen. reflexivity.
Qed.

Lemma Qfloor_unique (x : Q) (k : Z) :
  inject_Z k <= x -> x < inject_Z (k + 1) -> Qfloor x = k.
Proof.
  intros H1 H2.
  assert (A := Qfloor_le x). assert (B := Qlt_floor x).
  assert (inject_Z k < inject_Z (Qfloor x + 1)) by (eapply Qle_lt_trans; eassumption).
  assert (inject_Z (Qfloor x) < inject_Z (k + 1)) by (eapply Qle_lt_trans; eassumption).
  rewrite <- Zlt_Qlt in *. lia.
Qed.

Lemma half_step_le (m P : Z) : 2 * inject_Z m - 1 < 2 * inject_Z P -> (m <= P)%Z.
Proof.
  unfold Qlt, Qmult, Qminus, Qplus, Qopp, inject_Z. cbn [Qnum Qden]. lia.
Qed.

Lemma half_step_ge (m P : Z) : 2 * inject_Z P - 1 < 2 * inject_Z m + 1 -> (P <= m)%Z.
Proof.
  unfold Qlt, Qmult, Qminus, Qplus, Qopp, inject_Z. cbn [Qnum Qden]. lia.
Qed.

Lemma half_step_lt (m P : Z) : 2 * inject_Z m - 1 < 2 * inject_Z P - 1 -> (m < P)%Z.
Proof.
  unfold Qlt, Qmult, Qminus, Qplus, Qopp, inject_Z. cbn [Qnum Qden]. lia.
Qed.

Lemma half_le (m P : Z) : 2 * inject_Z m - 1 <= 2 * inject_Z P -> (m <= P)%Z.
Proof.
  unfold Qle, Qmult, Qminus, Qplus, Qopp, inject_Z. cbn [Qnum Qden]. lia.
Qed.

Lemma half_ge (m P : Z) : 2 * inject_Z P <= 2 * inject_Z m + 1 -> (P <= m)%Z.
Proof.
  unfold Qle, Qmult, Qminus, Qplus, Qopp, inject_Z. cbn [Qnum Qden]. lia.
Qed.

(** a positive rational below [2 ^ 31] rounds to a finite float: the
    nearest multiple of the unit [2 ^ ue] *)
Lemma b64_pos (q : Q) :
  0 < q -> q < pow2 31 ->
  exists m ue,
    b64 q = PFin (dyadic m ue) /\
    (ilog2 q - 52 <= ue <= -21)%Z /\
    2 * inject_Z m - 1 <= 2 * (q * pow2 (- ue)) /\
    2 * (q * pow2 (- ue)) <= 2 * inject_Z m + 1.
Proof.
  intros Hq Hlt.
  destruct (ilog2_spec q Hq) as [Hlo Hup].
  assert (He : (ilog2 q < 31)%Z).
  { apply pow2_lt_inv. eapply Qle_lt_trans; eassumption. }
  unfold b64.
  assert (Hz : Qeq_bool q 0 = false).
  { destruct (Qeq_bool q 0) eqn:E; [|reflexivity].
    apply Qeq_bool_eq in E. rewrite E in Hq. discriminate. }
  assert (Habs : Qabs q = q).
  { destruct q as [[|a|a] b]; try reflexivity; discriminate. }
  assert (Hpos : Qle_bool 0 q = true) by (apply Qle_bool_iff, Qlt_le_weak, Hq).
  rewrite Hz, Habs, Hpos.
  set (ue := Z.max (ilog2 q - 52) (-1074)).
  set (x := cancel_twos (/ pow2 ue * q)).
  set (m := round_half_even x).
  assert (Hue : (ilog2 q - 52 <= ue <= -21)%Z) by (unfold ue; lia).
  assert (Hx : x == q * pow2 (- ue)).
  { unfold x. rewrite cancel_twos_eq, pow2_inv. ring. }
  destruct (round_half_even_near x) as [N1 N2]. fold m in N1, N2.
  rewrite Hx in N1, N2.
  assert (Hm : (m <= 2 ^ (31 - ue))%Z).
  { apply half_step_le. rewrite <- pow2_nonneg_Z by lia.
    assert (E : pow2 (31 - ue) == pow2 31 * pow2 (- ue)).
    { rewrite <- pow2_add. reflexivity. }
    assert (P := pow2_pos (- ue)).
    assert (q * pow2 (- ue) < pow2 31 * pow2 (- ue)).
    { apply Qmult_lt_compat_r; assumption. }
    rewrite E. lra. }
  assert (Hov : (1024 <=? Z.log2 m + ue)%Z = false).
  { apply Z.leb_gt.
    destruct (Z.leb_spec m 0) as [Hm0|Hm0].
    - rewrite Z.log2_nonpos by assumption. lia.
    - assert (Z.log2 m < 32 - ue)%Z; [|lia].
      apply Z.log2_lt_pow2; [assumption|].
      replace (32 - ue)%Z with (Z.succ (31 - ue)) by lia.
      rewrite Z.pow_succ_r by lia.
      assert (0 < 2 ^ (31 - ue))%Z by (apply Z.pow_pos_nonneg; lia). lia. }
  rewrite Hov. exists m, ue. repeat split; try assumption; lia.
Qed.

(** [float(n)] is exact for an integer below [2 ^ 31] *)
Lemma of_Z_exact (n : Z) :
  (1 <= n < 2 ^ 31)%Z -> exists r, of_Z n = PFin r /\ r == inject_Z n.
Proof.
  intros Hn. unfold of_Z.
  assert (Hq : 0 < inject_Z n) by (rewrite <- (Zlt_Qlt 0); lia).
  assert (Hlt : inject_Z n < pow2 31).
  { rewrite pow2_nonneg_Z by lia. rewrite <- Zlt_Qlt. lia. }
  destruct (b64_pos _ Hq Hlt) as (m & ue & Hb & Hue & N1 & N2).
  exists (dyadic m ue). split; [assumption|].
  rewrite dyadic_eq.
  rewrite pow2_nonneg_Z in N1, N2 by lia.
  rewrite <- inject_Z_mult in N1, N2.
  assert (Hm : m = (n * 2 ^ (- ue))%Z).
  { assert (m <= n * 2 ^ (- ue))%Z by (apply half_le; assumption).
    assert (n * 2 ^ (- ue) <= m)%Z by (apply half_ge; assumption).
    lia. }
  rewrite Hm, inject_Z_mult, <- pow2_nonneg_Z by lia.
  rewrite <- Qmult_assoc, <- pow2_add.
  replace (- ue + ue)%Z with 0%Z by lia. change (pow2 0) with 1. ring.
Qed.

(** truncation of the rounded value of [q], when [q] is not within half a
    unit below an integer *)
Lemma b64_trunc (q : Q) (k : Z) :
  0 < q -> q < pow2 31 -> (0 <= k)%Z ->
  inject_Z k - q <= q * (1 # 18014398509481984) ->
  q + (1 # 1000000) <= inject_Z (k + 1) ->
  int_of_float (b64 q) = Ok k.
Proof.
  intros Hq Hlt Hk HA HB.
  destruct (b64_pos q Hq Hlt) as (m & ue & Hb & Hue & N1 & N2).
  destruct (ilog2_spec q Hq) as [Hlo Hup].
  rewrite Hb. cbn [int_of_float]. f_equal.
  set (T := pow2 (- ue)) in *.
  assert (HT : 0 < T) by apply pow2_pos.
  assert (HTZ : T = inject_Z (2 ^ (- ue))) by (apply pow2_nonneg_Z; lia).
  (* half a unit *)
  set (U := pow2 (ue - 1)).
  assert (HUT : U * T == 1 # 2).
  { unfold U, T. rewrite <- pow2_add. replace (ue - 1 + - ue)%Z with (-1)%Z by lia.
    reflexivity. }
  assert (HU1 : q * (1 # 18014398509481984) < U).
  { assert (E : pow2 (ilog2 q + 1) * (1 # 18014398509481984) == pow2 (ilog2 q - 53)).
    { change (1 # 18014398509481984) with (pow2 (-54)). rewrite <- pow2_add.
      replace (ilog2 q + 1 + -54)%Z with (ilog2 q - 53)%Z by lia. reflexivity. }
    assert (pow2 (ilog2 q - 53) <= U) by (apply pow2_le; lia).
    assert (q * (1 # 18014398509481984) < pow2 (ilog2 q + 1) * (1 # 18014398509481984)).
    { apply Qmult_lt_compat_r; [reflexivity|assumption]. }
    lra. }
  assert (HU2 : U < 1 # 1000000).
  { assert (U <= pow2 (-22)) by (apply pow2_le; lia).
    assert (pow2 (-22) < 1 # 1000000) by reflexivity. lra. }
  assert (L1 : (inject_Z k - q) * T < U * T).
  { apply Qmult_lt_compat_r; [assumption|lra]. }
  assert (L2 : (q + U) * T < inject_Z (k + 1) * T).
  { apply Qmult_lt_compat_r; [assumption|lra]. }
  rewrite inject_Z_plus in L2. change (inject_Z 1) with 1 in L2.
  assert (Hlow : (k * 2 ^ (- ue) <= m)%Z).
  { apply half_step_ge. rewrite inject_Z_mult, <- HTZ. lra. }
  assert (Hhigh : (m < (k + 1) * 2 ^ (- ue))%Z).
  { apply half_step_lt. rewrite inject_Z_mult, <- HTZ, inject_Z_plus.
    change (inject_Z 1) with 1. lra. }
  assert (Hval : dyadic m ue == inject_Z m * pow2 ue) by apply dyadic_eq.
  assert (HTi : pow2 ue * T == 1).
  { unfold T. rewrite <- pow2_add. replace (ue + - ue)%Z with 0%Z by lia. reflexivity. }
  assert (Pu := pow2_pos ue).
  assert (Hlow' : inject_Z k <= dyadic m ue).
  { rewrite Hval. rewrite Zle_Qle in Hlow. rewrite inject_Z_mult, <- HTZ in Hlow.
    assert (inject_Z k * T * pow2 ue <= inject_Z m * pow2 ue).
    { apply Qmult_le_compat_r; [assumption|lra]. }
    assert (E : inject_Z k * T * pow2 ue == inject_Z k * (pow2 ue * T)) by ring.
    rewrite E, HTi in H. lra. }
  assert (Hhigh' : dyadic m ue < inject_Z (k + 1)).
  { rewrite Hval. rewrite Zlt_Qlt in Hhigh. rewrite inject_Z_mult, <- HTZ in Hhigh.
    assert (inject_Z m * pow2 ue < inject_Z (k + 1) * T * pow2 ue).
    { apply Qmult_lt_compat_r; assumption. }
    assert (E : inject_Z (k + 1) * T * pow2 ue == inject_Z (k + 1) * (pow2 ue * T)) by ring.
    rewrite E, HTi in H. lra. }
  unfold Qtrunc.
  assert (Hnn : Qle_bool 0 (dyadic m ue) = true).
  { apply Qle_bool_iff. apply Qle_trans with (inject_Z k); [|assumption].
    rewrite <- (Zle_Qle 0). assumption. }
  rewrite Hnn. apply Qfloor_unique; assumption.
Qed.

Lemma Qmult_le_l' (x y z : Q) : 0 <= z -> x <= y -> z * x <= z * y.
Proof.
  intros Hz Hxy. rewrite !(Qmult_comm z). apply Qmult_le_compat_r; assumption.
Qed.

Lemma product_index (cq : Q) (P Q0 n : Z) :
  (1 <= n < 2 ^ 31)%Z -> (0 <= P)%Z -> (0 < Q0)%Z ->
  0 < cq -> cq <= 1 ->
  inject_Z P / inject_Z Q0 - cq <= cq * (1 # 18014398509481984) ->
  (cq - inject_Z P / inject_Z Q0) * inject_Z (2 ^ 31) + (1 # 1000000)
    <= 1 / inject_Z Q0 ->
  (1 # 1000000) <= 1 / inject_Z Q0 ->
  int_of_float (fmul (of_Z n) (PFin cq)) = Ok (n * P / Q0)%Z.
Proof.
  intros Hn HP HQ0 Hc0 Hc1 HA HB HB0.
  destruct (of_Z_exact n Hn) as (r & -> & Hr).
  cbn [fmul].
  assert (Hdm := Z_div_mod (n * P) Q0 ltac:(lia)).
  unfold Z.div. destruct (Z.div_eucl (n * P) Q0) as [k rem]. destruct Hdm as [Hk Hrem].
  assert (Hn1 : 1 <= inject_Z n) by (rewrite <- (Zle_Qle 1); lia).
  assert (Hn2 : inject_Z n < inject_Z (2 ^ 31)) by (rewrite <- Zlt_Qlt; lia).
  assert (HQ : 0 < inject_Z Q0) by (rewrite <- (Zlt_Qlt 0); lia).
  assert (Hk0 : (0 <= k)%Z) by nia.
  assert (E : inject_Z n * (inject_Z P / inject_Z Q0) ==
              inject_Z k + inject_Z rem / inject_Z Q0).
  { assert (Hk' : inject_Z n * inject_Z P == inject_Z Q0 * inject_Z k + inject_Z rem).
    { rewrite <- !inject_Z_mult, <- inject_Z_plus, Hk. reflexivity. }
    transitivity ((inject_Z n * inject_Z P) / inject_Z Q0); [field; lra|].
    rewrite Hk'. field. lra. }
  assert (R0 : 0 <= inject_Z rem / inject_Z Q0).
  { apply Qle_shift_div_l; [assumption|]. rewrite Qmult_0_l, <- (Zle_Qle 0). lia. }
  assert (R1 : inject_Z rem / inject_Z Q0 + 1 / inject_Z Q0 <= 1).
  { assert (inject_Z rem + 1 <= inject_Z Q0).
    { change 1 with (inject_Z 1). rewrite <- inject_Z_plus, <- Zle_Qle. lia. }
    assert (E' : inject_Z rem / inject_Z Q0 + 1 / inject_Z Q0 ==
                 (inject_Z rem + 1) / inject_Z Q0) by (field; lra).
    rewrite E'. apply Qle_shift_div_r; [assumption|]. rewrite Qmult_1_l. assumption. }
  set (f := inject_Z P / inject_Z Q0) in *.
  set (g := inject_Z rem / inject_Z Q0) in *.
  set (h := 1 / inject_Z Q0) in *.
  apply b64_trunc; try assumption; rewrite Hr.
  - apply Qmult_lt_0_compat; [lra|assumption].
  - change (pow2 31) with (inject_Z (2 ^ 31)).
    assert (inject_Z n * cq <= inject_Z n * 1) by (apply Qmult_le_l'; lra).
    lra.
  - assert (M : inject_Z n * (f - cq) <= inject_Z n * (cq * (1 # 18014398509481984)))
      by (apply Qmult_le_l'; lra).
    lra.
  - rewrite inject_Z_plus. change (inject_Z 1) with 1.
    destruct (Qlt_le_dec cq f) as [Hlt|Hge].
    + assert (M : inject_Z n * (cq - f) <= inject_Z n * 0) by (apply Qmult_le_l'; lra).
      lra.
    + assert (M : (cq - f) * inject_Z n <= (cq - f) * inject_Z (2 ^ 31))
        by (apply Qmult_le_l'; lra).
      lra.
Qed.

End PyNumFacts.

(** ** The hourly record decoder *)

Module HourlyFacts.

Import PyStr PyNum Hourly.

Ltac case_if :=
  match goal with
  | |- context [if ?b then _ else _] => destruct b eqn:?
  end.

Lemma column_5_only (j : nat) : j <> 5%nat -> mem_nat j [5]%nat = false.
Proof.
  intros Hj. unfold mem_nat. simpl.
  destruct (Nat.eqb_spec j 5); [contradiction | reflexivity].
Qed.

Lemma mem_In (s : string) (l : list string) : In s l -> mem s l = true.
Proof.
  intros H. unfold mem. apply existsb_exists. exists s. split; [assumption|].
  apply String.eqb_refl.
Qed.

Lemma In_mem (s : string) (l : list string) : mem s l = true -> In s l.
Proof.
  unfold mem. intros H. apply existsb_exists in H. destruct H as [x [Hx He]].
  apply String.eqb_eq in He. subst. assumption.
Qed.

(** The only exception a cell can raise is the [OverflowError] of [int()]
    on an infinite float, in an integer column. *)
Lemma decode_field_raises (j : nat) (part : string) (e : exn) :
  decode_field j part = Raise e ->
  e = OverflowError /\ int_column j = true /\
  exists negative, parse_float part = Some (PInf negative).
Proof.
  unfold decode_field, decode_numeric, py_float.
  destruct (negb (mem_nat j [5]%nat)); [|discriminate].
  destruct (mem (strip part) missing_markers); [discriminate|].
  destruct (truthy (strip part)).
  - destruct (parse_float part) as [f|]; simpl; [|discriminate].
    destruct (int_column j); simpl; [|discriminate].
    destruct f as [q|s|]; simpl; try discriminate.
    intros H. inversion H. repeat split. exists s. reflexivity.
  - simpl. destruct (int_column j); discriminate.
Qed.

(** A token that is not blank and not a number reads as [None]. *)
Lemma decode_field_not_a_number (j : nat) (part : string) :
  j <> 5%nat -> strip part <> EmptyString -> parse_float part = None ->
  decode_field j part = Ok VNone.
Proof.
  intros Hj Hs Hp. unfold decode_field, decode_numeric, py_float.
  rewrite (column_5_only j Hj).
  destruct (mem (strip part) missing_markers); [reflexivity|].
  rewrite Hp. destruct (strip part); [contradiction|]. reflexivity.
Qed.

(** Tokens past the schema are skipped. *)
Lemma decode_parts_past_schema (parts : list string) (j : nat) :
  (List.length columns <= j)%nat -> decode_parts j parts = Ok [].
Proof.
  revert j. induction parts as [|p rest IH]; intros j Hj; simpl; [reflexivity|].
  destruct (Nat.ltb_spec j 35).
  - simpl in Hj. lia.
  - apply IH. simpl in *. lia.
Qed.

Lemma decode_parts_app (front back : list string) (j : nat) :
  (List.length columns <= j + List.length front)%nat ->
  decode_parts j (front ++ back) = decode_parts j front.
Proof.
  revert j. induction front as [|p rest IH]; intros j Hj; simpl.
  - apply decode_parts_past_schema. simpl in *. lia.
  - destruct (Nat.ltb_spec j 35).
    + rewrite IH; [reflexivity|]. simpl in *. lia.
    + apply IH. simpl in *. lia.
Qed.

Lemma cell_after_columns (cols : list string) (vals : list value)
      (k : string) (v : value) :
  existsb (String.eqb k) cols = false ->
  cell (combine cols vals ++ [(k, v)]) k = v.
Proof.
  revert vals. induction cols as [|c cols IH]; intros vals Hk; simpl.
  - rewrite String.eqb_refl. reflexivity.
  - simpl in Hk. apply orb_false_iff in Hk. destruct Hk as [Hc Hrest].
    destruct vals as [|w vals]; simpl.
    + rewrite String.eqb_refl. reflexivity.
    + rewrite String.eqb_sym, Hc. apply IH. assumption.
Qed.

Lemma decode_line_hour_index (i : nat) (line : string) (row : row_dict) :
  decode_line i line = Ok row -> hour_index row = VInt (Z.of_nat i + 1).
Proof.
  unfold decode_line, hour_index.
  destruct (decode_parts 0 (split "," (strip line))) as [vals|e];
    unfold rbind; [|discriminate].
  intros H. apply Ok_inj in H. subst row.
  apply cell_after_columns. reflexivity.
Qed.

(** When the decoder returns, it returns one record per line, in line
    order, the record of position [k] numbered [k + 1]. *)
Lemma decode_lines_rows (data_lines : list string) :
  forall (i : nat) (rows : list row_dict),
    decode_lines i data_lines = Ok rows ->
    List.length rows = List.length data_lines /\
    forall (k : nat) (line : string),
      nth_error data_lines k = Some line ->
      exists row, nth_error rows k = Some row /\
                  decode_line (i + k) line = Ok row /\
                  hour_index row = VInt (Z.of_nat (i + k) + 1).
Proof.
  induction data_lines as [|l rest IH]; intros i rows H; simpl in H.
  - inversion H. split; [reflexivity|]. intros k line Hk. destruct k; discriminate.
  - destruct (decode_line i l) as [row|e] eqn:Hrow; simpl in H; [|discriminate].
    destruct (decode_lines (S i) rest) as [rows'|e] eqn:Hrest; simpl in H; [|discriminate].
    inversion H; subst. destruct (IH _ _ Hrest) as [Hlen Hnth].
    split; [simpl; congruence|].
    intros k line Hk. destruct k as [|k]; simpl in Hk.
    + inversion Hk; subst. exists row. rewrite Nat.add_0_r.
      repeat split; try assumption. eapply decode_line_hour_index. eassumption.
    + destruct (Hnth k line Hk) as [r [Hr [Hd Hh]]].
      exists r. replace (i + S k)%nat with (S i + k)%nat by lia.
      repeat split; assumption.
Qed.

Lemma decode_parts_returns (parts : list string) :
  forall j,
    (forall (k : nat) (part : string),
        nth_error parts k = Some part -> raised (decode_field (j + k) part) = false) ->
    exists row, decode_parts j parts = Ok row.
Proof.
  induction parts as [|p rest IH]; intros j H; simpl.
  - eexists; reflexivity.
  - assert (Hrest : exists row, decode_parts (S j) rest = Ok row).
    { apply IH. intros k part Hk. replace (S j + k)%nat with (j + S k)%nat by lia.
      apply H. assumption. }
    destruct Hrest as [row Hrow]. rewrite Hrow.
    destruct (j <? 35)%nat; [|eexists; reflexivity].
    specialize (H 0%nat p eq_refl). rewrite Nat.add_0_r in H.
    destruct (decode_field j p); [|discriminate]. simpl. eexists; reflexivity.
Qed.

Lemma decode_lines_returns (data_lines : list string) :
  forall i,
    (forall line, In line data_lines -> raised (decode_line i line) = false) ->
    exists rows, decode_lines i data_lines = Ok rows.
Proof.
  induction data_lines as [|l rest IH]; intros i H; simpl.
  - eexists; reflexivity.
  - assert (Hl : raised (decode_line i l) = false) by (apply H; left; reflexivity).
    destruct (decode_line i l) as [row|e] eqn:Hrow; [|discriminate].
    assert (Hrest : forall line, In line rest ->
                                 raised (decode_line (S i) line) = false).
    { intros line Hin. specialize (H line (or_intror Hin)).
      unfold decode_line in *.
      destruct (decode_parts 0 (split "," (strip line))); [reflexivity | discriminate]. }
    destruct (IH (S i) Hrest) as [rows Hrows]. rewrite Hrows.
    eexists; reflexivity.
Qed.

(** The decoder returns, with one record per line, on every list of lines
    in which no token of an integer column reads as an infinite float. *)
Lemma create_hourly_dataframe_returns (data_lines : list string) :
  (forall line k part,
      In line data_lines ->
      nth_error (split "," (strip line)) k = Some part ->
      int_column k = true ->
      forall negative, parse_float part <> Some (PInf negative)) ->
  exists rows,
    create_hourly_dataframe data_lines = Ok rows /\
    List.length rows = List.length data_lines.
Proof.
  intros H.
  assert (Hret : exists rows, decode_lines 0 data_lines = Ok rows).
  { apply decode_lines_returns. intros line Hin. unfold decode_line.
    destruct (decode_parts_returns (split "," (strip line)) 0) as [row Hrow].
    - intros k part Hk. cbn [Nat.add].
      destruct (decode_field k part) as [v|e] eqn:Hf; [reflexivity|].
      destruct (decode_field_raises k part e Hf) as [_ [Hint [negative Hinf]]].
      exfalso. exact (H line k part Hin Hk Hint negative Hinf).
    - rewrite Hrow. reflexivity. }
  destruct Hret as [rows Hrows]. exists rows. split; [exact Hrows|].
  apply (decode_lines_rows data_lines 0 rows Hrows).
Qed.

End HourlyFacts.

(** C5. In every numeric column (every column but DataFlags, index 5) a
    token whose stripped text is one of the markers [*], [**], [***],
    [****], [*****], [******], [?], [??], [undefined] decodes to [None],
    not to a number, and a token whose stripped text is empty decodes to
    the number [0]. *)
Theorem missing_markers_and_blank_tokens (j : nat) (part : string) :
  j <> 5%nat ->
  (In (PyStr.strip part)
      ["*"; "**"; "***"; "****"; "*****"; "******"; "?"; "??"; "undefined"] ->
   Hourly.decode_field j part = Ok Hourly.VNone) /\
  (PyStr.strip part = EmptyString ->
   Hourly.decode_field j part = Ok (Hourly.VInt 0)).
Proof.
  intros Hj. unfold Hourly.decode_field, Hourly.decode_numeric.
  rewrite (HourlyFacts.column_5_only j Hj). split.
  - intros Hin. apply HourlyFacts.mem_In in Hin.
    change (PyStr.mem (PyStr.strip part) Hourly.missing_markers = true) in Hin.
    rewrite Hin. reflexivity.
  - intros Hblank. rewrite Hblank.
    destruct (Hourly.int_column j); reflexivity.
Qed.

Lemma missing_markers_and_blank_tokens_witness :
  Hourly.decode_field 6 " ** " = Ok Hourly.VNone /\
  Hourly.decode_field 20 "  " = Ok (Hourly.VInt 0).
Proof.
  split.
  - apply (proj1 (missing_markers_and_blank_tokens 6 " ** "
                    ltac:(discriminate))).
    simpl. right. left. reflexivity.
  - apply (proj2 (missing_markers_and_blank_tokens 20 "  "
                    ltac:(discriminate))).
    reflexivity.
Defined.

(** C1. On two hourly lines of which the second carries the year [inf],
    [create_hourly_dataframe] raises [OverflowError] and produces no
    record at all: [int()] of an infinite float is not a [ValueError], so
    the [except ValueError] of line 291 lets it through. *)
Theorem hourly_decoder_stops_on_infinite_year :
  Hourly.create_hourly_dataframe Samples.lines_infinite_year = Raise OverflowError.
Proof. vm_compute. reflexivity. Qed.

(** A malformed, over-long line without such a token gives one record:
    the token that is not a number reads as [None], the fields past the
    35th are dropped. *)
Example malformed_line_yields_one_record :
  rmap (map (fun row => (List.length row, Hourly.cell row "DryBulb",
                         Hourly.hour_index row)))
       (Hourly.create_hourly_dataframe [Samples.line_malformed])
  = Ok [(36%nat, Hourly.VNone, Hourly.VInt 1)].
Proof. vm_compute. reflexivity. Qed.

(** C9. On an over-long hourly line whose wind direction is [1e999],
    which [float()] reads as infinity, [create_hourly_dataframe] raises
    [OverflowError] in place of yielding one record with a missing cell. *)
Theorem hourly_decoder_not_total_on_overflowing_token :
  Hourly.create_hourly_dataframe [Samples.line_overflowing_wind]
  = Raise OverflowError.
Proof. vm_compute. reflexivity. Qed.

(** ** Header, catalog tag *)

Module EpwFacts.

Import PyStr PyNum Db Epw.

Local Notation "s +++ t" := (String.append s t) (at level 60, right associativity).

Lemma append_assoc (a b c : string) : (a +++ b) +++ c = a +++ (b +++ c).
Proof. induction a as [|x a IH]; simpl; [reflexivity | rewrite IH; reflexivity]. Qed.

Lemma after_prefix_sound (p s r : string) :
  after_prefix p s = Some r -> s = p +++ r.
Proof.
  revert s. induction p as [|a p IH]; intros s H; simpl in *.
  - congruence.
  - destruct s as [|b s]; [discriminate|].
    destruct (Ascii.eqb_spec a b); [|discriminate].
    subst. rewrite (IH s H). reflexivity.
Qed.

Lemma after_prefix_complete (p r : string) : after_prefix p (p +++ r) = Some r.
Proof.
  induction p as [|a p IH]; simpl; [reflexivity|].
  rewrite Ascii.eqb_refl. assumption.
Qed.

Lemma prefix_append (p r : string) : String.prefix p (p +++ r) = true.
Proof.
  induction p as [|a p IH]; simpl.
  - destruct r; reflexivity.
  - destruct (ascii_dec a a); [assumption | contradiction].
Qed.

Lemma dotstar_ext_sound (s run : string) :
  dotstar_ext s = Some run ->
  exists tail, s = run +++ tail /\ ext_here tail = true
               /\ free_of_newline run = true.
Proof.
  revert run. induction s as [|c s IH]; intros run H; simpl in H; [discriminate|].
  destruct (Ascii.eqb c newline) eqn:Hc.
  - destruct (ext_here (String c s)) eqn:He; [|discriminate].
    inversion H; subst. exists (String c s). auto.
  - destruct (dotstar_ext s) as [run'|] eqn:Hs.
    + inversion H; subst. destruct (IH run' eq_refl) as [tail [Hs' [He Hn]]].
      exists tail. simpl. rewrite Hc, Hn, <- Hs'. auto.
    + destruct (ext_here (String c s)) eqn:He; [|discriminate].
      inversion H; subst. exists (String c s). auto.
Qed.

Lemma dotstar_ext_complete (body : string) :
  free_of_newline body = true ->
  exists run, dotstar_ext (body +++ ".epw") = Some run.
Proof.
  induction body as [|c body IH]; intros H.
  - exists EmptyString. reflexivity.
  - simpl in H. apply andb_true_iff in H. destruct H as [Hc Hb].
    destruct (IH Hb) as [run Hrun].
    exists (String c run). simpl.
    apply negb_true_iff in Hc. rewrite Hc, Hrun. reflexivity.
Qed.

Lemma tag_then_rest_sound (tags : list string) (s g : string) :
  tag_then_rest tags s = Some g ->
  exists tag run tail,
    In tag tags /\ g = tag +++ run /\ s = g +++ tail /\ ext_here tail = true
    /\ free_of_newline run = true.
Proof.
  induction tags as [|t tags IH]; intros H; simpl in H; [discriminate|].
  assert (Hlater : tag_then_rest tags s = Some g ->
                   exists tag run tail,
                     In tag (t :: tags) /\ g = tag +++ run /\ s = g +++ tail
                     /\ ext_here tail = true /\ free_of_newline run = true).
  { intros H'. destruct (IH H') as [tag [run [tail [Hin Hrest]]]].
    exists tag, run, tail. split; [right; assumption | assumption]. }
  destruct (after_prefix t s) as [rest|] eqn:Hp; [|auto].
  destruct (dotstar_ext rest) as [run|] eqn:Hd; [|auto].
  inversion H; subst.
  destruct (dotstar_ext_sound _ _ Hd) as [tail [Hrest [He Hn]]].
  exists t, run, tail. repeat split; try assumption; [left; reflexivity|].
  rewrite (after_prefix_sound _ _ _ Hp), Hrest, append_assoc. reflexivity.
Qed.

Lemma re_search_catalog_cons (c : ascii) (s : string) :
  re_search_catalog (String c s)
  = match tag_then_rest catalog_tags (String c s) with
    | Some g => Some g
    | None => re_search_catalog s
    end.
Proof. reflexivity. Qed.

(** What [re.search] returns is a text that starts with one of the three
    tags and stands immediately in front of the final [.epw]. *)
Lemma re_search_catalog_sound (s g : string) :
  re_search_catalog s = Some g ->
  exists pre tag run tail,
    s = pre +++ g +++ tail /\ g = tag +++ run /\ In tag catalog_tags
    /\ free_of_newline run = true /\ ext_here tail = true.
Proof.
  induction s as [|c s IH]; intros H.
  - discriminate.
  - rewrite re_search_catalog_cons in H.
    destruct (tag_then_rest catalog_tags (String c s)) as [g'|] eqn:Ht.
    + inversion H; subst.
      destruct (tag_then_rest_sound _ _ _ Ht) as [tag [run [tail [Hin [Hg [Hs [He Hn]]]]]]].
      exists EmptyString, tag, run, tail. repeat split; assumption.
    + destruct (IH H) as [pre [tag [run [tail [Hs Hrest]]]]].
      exists (String c pre), tag, run, tail.
      split; [simpl; rewrite <- Hs; reflexivity | assumption].
Qed.

Lemma tag_then_rest_complete (tags : list string) (tag body : string) :
  In tag tags -> free_of_newline body = true ->
  tag_then_rest tags (tag +++ body +++ ".epw") <> None.
Proof.
  intros Hin Hb. induction tags as [|t tags IH]; [contradiction|].
  simpl. destruct Hin as [Heq | Hin].
  - subst t. rewrite after_prefix_complete.
    destruct (dotstar_ext_complete body Hb) as [run Hrun]. rewrite Hrun. discriminate.
  - destruct (after_prefix t (tag +++ body +++ ".epw")) as [rest|]; [|auto].
    destruct (dotstar_ext rest); [discriminate | auto].
Qed.

(** A name that holds a tag, then characters other than newline, then the
    final [.epw], is matched. *)
Lemma re_search_catalog_complete (pre tag body : string) :
  In tag catalog_tags -> free_of_newline body = true ->
  re_search_catalog (pre +++ tag +++ body +++ ".epw") <> None.
Proof.
  intros Hin Hb. induction pre as [|c pre IH].
  - change (EmptyString +++ tag +++ body +++ ".epw") with (tag +++ body +++ ".epw").
    pose proof (tag_then_rest_complete catalog_tags tag body Hin Hb) as Ht.
    destruct (tag +++ body +++ ".epw") as [|c s] eqn:Hs.
    + exfalso. apply Ht. reflexivity.
    + rewrite re_search_catalog_cons.
      destruct (tag_then_rest catalog_tags (String c s)); [discriminate | contradiction].
  - change (String c pre +++ tag +++ body +++ ".epw")
      with (String c (pre +++ tag +++ body +++ ".epw")).
    rewrite re_search_catalog_cons.
    destruct (tag_then_rest catalog_tags _); [discriminate | assumption].
Qed.

(** *** data start *)

Lemma find_data_start_some (lines : list string) :
  forall k idx,
    find_data_start k lines = Some idx ->
    exists i line,
      nth_error lines i = Some line /\
      startswith (strip line) "DATA PERIODS," = true /\
      (forall j l, (j < i)%nat -> nth_error lines j = Some l ->
                   startswith (strip l) "DATA PERIODS," = false) /\
      idx = (k + i + 1)%nat.
Proof.
  induction lines as [|l rest IH]; intros k idx H; simpl in H; [discriminate|].
  destruct (startswith (strip l) "DATA PERIODS,") eqn:Hl.
  - inversion H; subst. exists 0%nat, l.
    split; [reflexivity|]. split; [assumption|].
    split; [intros j l' Hj; lia | lia].
  - destruct (IH _ _ H) as [i [line [Hn [Hs [Hbefore Hidx]]]]].
    exists (S i), line.
    split; [assumption|]. split; [assumption|]. split; [|lia].
    intros j l' Hj Hl'. destruct j as [|j]; simpl in Hl'.
    + inversion Hl'; subst. assumption.
    + apply (Hbefore j l'); [lia | assumption].
Qed.

Lemma find_data_start_none (lines : list string) :
  forall k,
    find_data_start k lines = None ->
    forall l, In l lines -> startswith (strip l) "DATA PERIODS," = false.
Proof.
  induction lines as [|l rest IH]; intros k H l' Hin; simpl in *; [contradiction|].
  destruct (startswith (strip l) "DATA PERIODS,") eqn:Hl; [discriminate|].
  destruct Hin as [<- | Hin]; [assumption | eauto].
Qed.


Lemma parse_epw_header_index (lines : list string) (meta : header) (idx : nat) :
  parse_epw_header lines = Ok (meta, idx) -> idx = data_start_idx lines.
Proof.
  unfold parse_epw_header. intros H.
  repeat bind_ok H.
  apply Ok_inj in H. congruence.
Qed.

(** [parse_epw_header] returns for every file whose first line has ten
    comma-separated fields, the seventh to tenth blank or numeric. *)
Lemma parse_epw_header_returns (lines : list string) (line0 : string) :
  nth_error lines 0 = Some line0 ->
  (10 <= List.length (split "," line0))%nat ->
  (forall k, (6 <= k <= 9)%nat -> raised (float_field (split "," line0) k) = false) ->
  exists meta, parse_epw_header lines = Ok (meta, data_start_idx lines).
Proof.
  intros H0 Hlen Hnum. unfold parse_epw_header, list_index. rewrite H0.
  unfold rbind at 1.
  assert (Hfield : forall k, (k < 10)%nat ->
                             exists f, stripped_field (split "," line0) k = Ok f).
  { intros k Hk. unfold stripped_field, list_index.
    destruct (nth_error (split "," line0) k) eqn:Hn.
    - eexists; reflexivity.
    - apply nth_error_None in Hn. lia. }
  assert (Hfloat : forall k, (6 <= k <= 9)%nat ->
                             exists f, float_field (split "," line0) k = Ok f).
  { intros k Hk. specialize (Hnum k Hk).
    destruct (float_field (split "," line0) k); [eexists; reflexivity | discriminate]. }
  destruct (Hfield 1%nat ltac:(lia)) as [f1 ->].
  destruct (Hfield 2%nat ltac:(lia)) as [f2 ->].
  destruct (Hfield 3%nat ltac:(lia)) as [f3 ->].
  destruct (Hfloat 6%nat ltac:(lia)) as [f6 ->].
  destruct (Hfloat 7%nat ltac:(lia)) as [f7 ->].
  destruct (Hfloat 9%nat ltac:(lia)) as [f9 ->].
  destruct (Hfloat 8%nat ltac:(lia)) as [f8 ->].
  destruct (Hfield 4%nat ltac:(lia)) as [f4 ->].
  destruct (Hfield 5%nat ltac:(lia)) as [f5 ->].
  unfold rbind. eexists. reflexivity.
Qed.

End EpwFacts.

(** ** The store and the orchestrator *)

Module IngestFacts.

Import PyStr PyNum Hourly Db Epw DesignDays Ingest Spec.

Lemma holds_by_refl (P : row -> bool) (c : conn) : holds_by P c c.
Proof.
  split; [reflexivity|]. exists []. rewrite app_nil_r. split; reflexivity.
Qed.

Lemma holds_by_trans (P : row -> bool) (c1 c2 c3 : conn) :
  holds_by P c1 c2 -> holds_by P c2 c3 -> holds_by P c1 c3.
Proof.
  intros [Hc1 [a1 [Hp1 Ha1]]] [Hc2 [a2 [Hp2 Ha2]]].
  split; [congruence|]. exists (a1 ++ a2).
  rewrite Hp2, Hp1, app_assoc, forallb_app, Ha1, Ha2. split; reflexivity.
Qed.

Lemma holds_by_insert (P : row -> bool) (r : row) (c : conn) :
  P r = true -> holds_by P c (execute_insert r c).
Proof.
  intros H. split; [reflexivity|]. exists [r]. simpl. rewrite H. split; reflexivity.
Qed.

Lemma grows_by_refl (P : row -> bool) (c : conn) :
  pending c = [] -> grows_by P c c.
Proof.
  intros H. exists []. rewrite app_nil_r. repeat split; assumption.
Qed.

Lemma grows_by_trans (P : row -> bool) (c1 c2 c3 : conn) :
  grows_by P c1 c2 -> grows_by P c2 c3 -> grows_by P c1 c3.
Proof.
  intros [a1 [Hc1 [Hp1 Ha1]]] [a2 [Hc2 [Hp2 Ha2]]].
  exists (a1 ++ a2). rewrite Hc2, Hc1, app_assoc, forallb_app, Ha1, Ha2.
  repeat split; assumption.
Qed.

Lemma holds_then_commit (P : row -> bool) (c c' : conn) :
  pending c = [] -> holds_by P c c' -> grows_by P c (commit c').
Proof.
  intros Hp [Hc [added [Ha HP]]]. exists added. unfold commit. simpl.
  rewrite Hc, Ha, Hp. repeat split; assumption.
Qed.

(** *** The metadata parsers commit metadata rows only *)

Section Metadata.

Variable location_id : Z.

Let P : row -> bool := metadata_row location_id.

Lemma metadata_row_kinds :
  (forall raw, P (DesignConditionsRow location_id raw) = true) /\
  (forall a b c d e f, P (TypicalPeriodRow location_id a b c d e f) = true) /\
  (forall a b c d m, P (GroundTempRow location_id a b c d m) = true) /\
  (forall a b c d, P (HolidaysDstRow location_id a b c d) = true) /\
  (forall a b c d e f g h, P (DataPeriodRow location_id a b c d e f g h) = true).
Proof.
  unfold P, metadata_row. simpl. rewrite Z.eqb_refl. repeat split.
Qed.

Lemma typical_loop_holds (parts : list string) :
  forall n current_idx c,
  exists c', typical_loop n current_idx parts location_id c = (Ok tt, c')
             /\ holds_by P c c'.
Proof.
  induction n as [|n IH]; intros current_idx c.
  - exists c. split; [reflexivity | apply holds_by_refl].
  - cbn [typical_loop].
    destruct (List.length parts <=? current_idx + 3)%nat.
    + exists c. split; [reflexivity | apply holds_by_refl].
    + unfold bind at 1. unfold try_except, bind, lift.
      destruct (typical_dates _ _) as [[[[[sm sd] em] ed]|]|e].
      * unfold do_insert.
        destruct (forallb sqlite_int _).
        -- destruct (IH (current_idx + 4)%nat (execute_insert
                      (TypicalPeriodRow location_id
                         (strip (nth (current_idx + 1) parts EmptyString))
                         (strip (nth current_idx parts EmptyString)) sm sd em ed) c))
             as [c' [Hrun Hc']].
           exists c'. split; [exact Hrun|].
           eapply holds_by_trans; [|exact Hc'].
           apply holds_by_insert. apply metadata_row_kinds.
        -- unfold ret. destruct (IH (current_idx + 4)%nat c) as [c' [Hrun Hc']].
           exists c'. split; assumption.
      * unfold ret. destruct (IH (current_idx + 4)%nat c) as [c' [Hrun Hc']].
        exists c'. split; assumption.
      * unfold ret. destruct (IH (current_idx + 4)%nat c) as [c' [Hrun Hc']].
        exists c'. split; assumption.
Qed.

Lemma parse_typical_periods_grows (line : string) (c : conn) :
  pending c = [] ->
  grows_by P c (snd (parse_typical_periods line location_id c)).
Proof.
  intros Hp. unfold parse_typical_periods.
  destruct (negb (startswith line "TYPICAL/EXTREME PERIODS"));
    [apply grows_by_refl; assumption|].
  destruct (List.length (split "," line) <? 3)%nat;
    [apply grows_by_refl; assumption|].
  unfold bind at 1. unfold lift.
  destruct (py_int _) as [num|e]; [|apply grows_by_refl; assumption].
  unfold bind.
  destruct (typical_loop_holds (split "," line) (Z.to_nat num) 2%nat c)
    as [c' [Hrun Hc']].
  rewrite Hrun. unfold do_commit. simpl.
  apply holds_then_commit; assumption.
Qed.

Lemma ground_group_holds (parts : list string) (base_idx : nat) (c : conn) :
  exists c', try_except (ground_group parts base_idx location_id)
                        (fun _ => ret tt) c = (Ok tt, c')
             /\ holds_by P c c'.
Proof.
  unfold try_except, ground_group, bind, lift, ret, do_insert.
  destruct (rbind (list_index parts base_idx) py_float);
    [|exists c; split; [reflexivity | apply holds_by_refl]].
  destruct (float_field parts (base_idx + 1));
    [|exists c; split; [reflexivity | apply holds_by_refl]].
  destruct (float_field parts (base_idx + 2));
    [|exists c; split; [reflexivity | apply holds_by_refl]].
  destruct (float_field parts (base_idx + 3));
    [|exists c; split; [reflexivity | apply holds_by_refl]].
  destruct (float_fields parts (base_idx + 4) 12);
    [|exists c; split; [reflexivity | apply holds_by_refl]].
  eexists. split; [reflexivity|].
  apply holds_by_insert. apply metadata_row_kinds.
Qed.

Lemma ground_loop_holds (parts : list string) :
  forall n i c,
  exists c', ground_loop n i parts location_id c = (Ok tt, c')
             /\ holds_by P c c'.
Proof.
  induction n as [|n IH]; intros i c.
  - exists c. split; [reflexivity | apply holds_by_refl].
  - cbn [ground_loop].
    destruct (List.length parts <=? 2 + i * 16)%nat.
    + exists c. split; [reflexivity | apply holds_by_refl].
    + unfold bind at 1.
      destruct (ground_group_holds parts (2 + i * 16)%nat c) as [c1 [Hrun1 Hc1]].
      rewrite Hrun1.
      destruct (IH (S i) c1) as [c' [Hrun Hc']].
      exists c'. split; [exact Hrun|].
      eapply holds_by_trans; eassumption.
Qed.

Lemma parse_ground_temps_grows (line : string) (c : conn) :
  pending c = [] ->
  grows_by P c (snd (parse_ground_temps line location_id c)).
Proof.
  intros Hp. unfold parse_ground_temps.
  destruct (negb (startswith line "GROUND TEMPERATURES"));
    [apply grows_by_refl; assumption|].
  destruct (List.length (split "," line) <? 3)%nat;
    [apply grows_by_refl; assumption|].
  unfold bind at 1. unfold lift.
  destruct (py_int _) as [num|e]; [|apply grows_by_refl; assumption].
  unfold bind.
  destruct (ground_loop_holds (split "," line) (Z.to_nat num) 0%nat c)
    as [c' [Hrun Hc']].
  rewrite Hrun. unfold do_commit. simpl.
  apply holds_then_commit; assumption.
Qed.

Lemma insert_commit_grows (r : row) (c : conn) :
  pending c = [] -> P r = true -> grows_by P c (commit (execute_insert r c)).
Proof.
  intros Hp Hr. apply holds_then_commit; [assumption|].
  apply holds_by_insert. assumption.
Qed.

Lemma parse_design_conditions_grows (line : string) (c : conn) :
  pending c = [] ->
  grows_by P c (snd (parse_design_conditions line location_id c)).
Proof.
  intros Hp. unfold parse_design_conditions, bind, do_insert, do_commit. simpl.
  apply insert_commit_grows; [assumption | apply metadata_row_kinds].
Qed.

Lemma parse_holidays_dst_grows (line : string) (c : conn) :
  pending c = [] ->
  grows_by P c (snd (parse_holidays_dst line location_id c)).
Proof.
  intros Hp. unfold parse_holidays_dst.
  destruct (negb (startswith line "HOLIDAYS/DAYLIGHT SAVINGS"));
    [apply grows_by_refl; assumption|].
  destruct (List.length (split "," line) <? 5)%nat;
    [apply grows_by_refl; assumption|].
  unfold bind, lift, do_insert, do_commit.
  destruct (int_field _ 2); [|apply grows_by_refl; assumption].
  destruct (int_field _ 3); [|apply grows_by_refl; assumption].
  destruct (int_field _ 4); [|apply grows_by_refl; assumption].
  destruct (forallb sqlite_int _); [|apply grows_by_refl; assumption].
  simpl. apply insert_commit_grows; [assumption | apply metadata_row_kinds].
Qed.

Lemma parse_data_periods_grows (line : string) (c : conn) :
  pending c = [] ->
  grows_by P c (snd (parse_data_periods line location_id c)).
Proof.
  intros Hp. unfold parse_data_periods.
  destruct (negb (startswith line "DATA PERIODS"));
    [apply grows_by_refl; assumption|].
  destruct (List.length (split "," line) <? 6)%nat;
    [apply grows_by_refl; assumption|].
  unfold try_except, bind, lift, do_insert, do_commit, ret.
  repeat match goal with
         | |- context [match ?r with Ok _ => _ | Raise _ => _ end] =>
             destruct r; [|apply grows_by_refl; assumption]
         end.
  destruct (forallb sqlite_int _); [|apply grows_by_refl; assumption].
  simpl. apply insert_commit_grows; [assumption | apply metadata_row_kinds].
Qed.

Lemma dispatch_grows (line : string) (c : conn) :
  pending c = [] ->
  grows_by P c (snd (dispatch metadata_handlers line location_id c)).
Proof.
  intros Hp. unfold metadata_handlers. cbn [dispatch].
  destruct (startswith (strip line) "DESIGN CONDITIONS,");
    [apply parse_design_conditions_grows; assumption|].
  destruct (startswith (strip line) "TYPICAL/EXTREME PERIODS,");
    [apply parse_typical_periods_grows; assumption|].
  destruct (startswith (strip line) "GROUND TEMPERATURES,");
    [apply parse_ground_temps_grows; assumption|].
  destruct (startswith (strip line) "HOLIDAYS/DAYLIGHT SAVINGS,");
    [apply parse_holidays_dst_grows; assumption|].
  destruct (startswith (strip line) "DATA PERIODS,");
    [apply parse_data_periods_grows; assumption|].
  apply grows_by_refl. assumption.
Qed.

Lemma metadata_loop_grows (lines : list string) :
  forall c, pending c = [] ->
            grows_by P c (snd (metadata_loop lines location_id c)).
Proof.
  induction lines as [|line rest IH]; intros c Hp.
  - apply grows_by_refl. assumption.
  - cbn [metadata_loop]. unfold bind.
    pose proof (dispatch_grows line c Hp) as Hd.
    destruct (dispatch metadata_handlers line location_id c) as [[u|e] c1];
      simpl in Hd; [|exact Hd].
    eapply grows_by_trans; [exact Hd|].
    apply IH. destruct Hd as [a [_ [Hp1 _]]]. exact Hp1.
Qed.

Lemma parse_epw_metadata_grows (lines : list string) (c : conn) :
  pending c = [] ->
  grows_by P c (snd (parse_epw_metadata lines location_id c)).
Proof. intros Hp. apply metadata_loop_grows. assumption. Qed.

End Metadata.

(** *** The stages of one archive *)

Lemma fold_insert {A : Type} (f : A -> row) (l : list A) :
  forall c,
    fold_left (fun c' r => execute_insert (f r) c') l c
    = mk_conn (committed c) (pending c ++ map f l).
Proof.
  induction l as [|a l IH]; intros c; simpl.
  - rewrite app_nil_r. destruct c; reflexivity.
  - rewrite IH. unfold execute_insert. simpl. rewrite <- app_assoc. reflexivity.
Qed.

Lemma insert_design_days_run (id : Z) (blocks : list block) (c : conn) :
  pending c = [] ->
  insert_design_days id blocks c
  = (Ok tt, mk_conn (committed c ++ map (DesignDayRow id) blocks) []).
Proof.
  intros Hp. unfold insert_design_days. rewrite fold_insert. unfold commit.
  simpl. rewrite Hp. reflexivity.
Qed.

Lemma insert_location_run (meta : header) (name : string) (c : conn) :
  pending c = [] ->
  match re_search_catalog name with
  | Some catalog =>
      insert_location meta name c
      = (Ok (next_location_id (committed c)),
         mk_conn (committed c
                  ++ [LocationRow (next_location_id (committed c)) meta name catalog])
                 [])
  | None => insert_location meta name c = (Raise ValueError, c)
  end.
Proof.
  intros Hp. unfold insert_location.
  destruct (re_search_catalog name) as [catalog|]; [|reflexivity].
  unfold visible, commit, execute_insert. simpl. rewrite Hp, app_nil_r.
  reflexivity.
Qed.

Lemma forallb_hourly (id : Z) (df : list row_dict) :
  forallb is_hourly (map (HourlyRow id) df) = true.
Proof. induction df; simpl; auto. Qed.

Lemma no_epw_member (file_list : list member) :
  (forall name lines, In (name, lines) file_list ->
                      endswith (lower name) ".epw" = false) ->
  extract_epw_from_zip (Some file_list) = None.
Proof.
  intros H. unfold extract_epw_from_zip.
  replace (filter (fun f => endswith (lower (fst f)) ".epw") file_list)
    with (@nil member); [reflexivity|].
  induction file_list as [|[name lines] rest IH]; [reflexivity|].
  cbn [filter fst]. rewrite (H name lines (or_introl eq_refl)).
  apply IH. intros n l Hin. apply (H n l). right. assumption.
Qed.

Section Library.

Context {L : Pandas.library}.

(** [to_sql] stores the whole frame or nothing *)
Lemma insert_hourly_data_run (id : Z) (df : list row_dict) (c : conn) :
  pending c = [] ->
  insert_hourly_data id df c
  = if to_sql_stores df
    then (Ok tt, mk_conn (committed c ++ map (HourlyRow id) df) [])
    else (Raise OverflowError, mk_conn (committed c) []).
Proof.
  intros Hp. unfold insert_hourly_data.
  destruct (to_sql_stores df); [|reflexivity].
  rewrite fold_insert. unfold commit. simpl. rewrite Hp. reflexivity.
Qed.

(** a frame whose integers fit is stored by every library *)
Lemma ints_fit_stores (df : list row_dict) :
  ints_fit df = true -> to_sql_stores df = true.
Proof. intros H. unfold to_sql_stores. rewrite H. reflexivity. Qed.

Lemma seven_blocks (df : list row_dict) (blocks : list block) :
  extract_design_days df = Ok blocks -> List.length blocks = 7%nat.
Proof.
  unfold extract_design_days. intros H. repeat bind_ok H.
  apply Ok_inj in H. subst blocks. reflexivity.
Qed.

Lemma process_body_outcome (zip : archive) (db : store)
      (r : result bool) (c : conn) :
  process_body zip (connect db) = (r, c) -> outcome zip db r c.
Proof.
  unfold process_body. intros H.
  destruct (extract_epw_from_zip zip) as [[name lines]|] eqn:Hextract;
    [|inversion H; apply NoEpwMember; assumption].
  unfold bind at 1 in H. unfold lift at 1 in H.
  destruct (parse_epw_header lines) as [[meta idx]|e] eqn:Hheader;
    [|inversion H; subst; eapply NoHeader; eassumption].
  unfold bind at 1 in H.
  pose proof (insert_location_run meta name (connect db) eq_refl) as Hloc.
  destruct (re_search_catalog name) as [catalog|] eqn:Hcat;
    rewrite Hloc in H; [|inversion H; subst; eapply NoCatalog; eassumption].
  clear Hloc. cbn [committed connect] in H.
  unfold bind at 1 in H.
  pose proof (parse_epw_metadata_grows (next_location_id db) lines
                (mk_conn (db ++ [LocationRow (next_location_id db) meta name catalog]) [])
                eq_refl) as Hmeta.
  destruct (parse_epw_metadata lines (next_location_id db)
              (mk_conn (db ++ [LocationRow (next_location_id db) meta name catalog]) []))
    as [[u|e] c2] eqn:Hread;
    destruct Hmeta as [metadata [Hc2 [Hp2 Hm]]]; cbn [snd fst committed] in *.
  - destruct u.
    unfold bind at 1 in H. unfold lift at 1 in H.
    destruct (create_hourly_dataframe (skipn idx lines)) as [df|e] eqn:Hdf.
    + unfold bind at 1 in H. rewrite (insert_hourly_data_run _ df c2 Hp2) in H.
      destruct (to_sql_stores df) eqn:Hstore.
      * unfold bind at 1 in H. unfold lift at 1 in H.
        destruct (extract_design_days df) as [blocks|e] eqn:Hblocks.
        -- unfold bind in H. rewrite insert_design_days_run in H by reflexivity.
           cbn [committed ret] in H. inversion H; subst r c.
           rewrite Hc2. repeat rewrite <- app_assoc. cbn [app].
           eapply Loaded; try eassumption;
             cbv zeta; rewrite Hread; cbn [fst snd]; [exact Hc2 | reflexivity].
        -- inversion H; subst r c. rewrite Hc2.
           repeat rewrite <- app_assoc. cbn [app].
           eapply FailedAfterLocation; try eassumption; cbv zeta; rewrite Hread;
             cbn [fst snd]; [exact Hc2|].
           right. right. right. exists df. repeat split; assumption.
      * inversion H; subst r c. rewrite Hc2.
        repeat rewrite <- app_assoc. cbn [app].
        rewrite <- (app_nil_r metadata) at 1.
        eapply FailedAfterLocation; try eassumption; cbv zeta; rewrite Hread;
          cbn [fst snd]; [exact Hc2|].
        right. right. left. exists df. repeat split; assumption.
    + inversion H; subst r c.
      destruct c2 as [com pen]. cbn [committed pending] in *. subst pen com.
      repeat rewrite <- app_assoc. cbn [app].
      rewrite <- (app_nil_r metadata) at 1.
      eapply FailedAfterLocation; try eassumption; cbv zeta; rewrite Hread;
        cbn [fst snd committed]; [rewrite <- app_assoc; reflexivity|].
      right. left. repeat split; assumption.
  - inversion H; subst r c.
    destruct c2 as [com pen]. cbn [committed pending] in *. subst pen com.
    repeat rewrite <- app_assoc. cbn [app].
    rewrite <- (app_nil_r metadata) at 1.
    eapply FailedAfterLocation; try eassumption; cbv zeta; rewrite Hread;
      cbn [fst snd committed]; [rewrite <- app_assoc; reflexivity|].
    left. split; reflexivity.
Qed.

Lemma process_single_zip_store (zip : archive) (db : store)
      (r : result bool) (c : conn) :
  process_body zip (connect db) = (r, c) ->
  process_single_zip zip db
  = (match r with Ok ok => ok | Raise _ => false end, committed c).
Proof.
  intros H. pose proof (process_body_outcome zip db r c H) as Ho.
  unfold process_single_zip. rewrite H.
  destruct r as [ok|e]; [|reflexivity].
  inversion Ho; subst; unfold commit, connect; cbn [committed pending];
    rewrite app_nil_r; reflexivity.
Qed.

(** An archive that fails before the location insert leaves the store
    as it was. *)
Lemma process_single_zip_no_member (zip : archive) (db : store) :
  extract_epw_from_zip zip = None -> process_single_zip zip db = (false, db).
Proof.
  intros H. unfold process_single_zip, process_body. rewrite H.
  unfold ret, commit, connect. simpl. rewrite app_nil_r. reflexivity.
Qed.

Lemma process_single_zip_no_catalog (zip : archive) (db : store)
      (name : string) (lines : list string) :
  extract_epw_from_zip zip = Some (name, lines) ->
  re_search_catalog name = None ->
  process_single_zip zip db = (false, db).
Proof.
  intros Hx Hc. unfold process_single_zip, process_body. rewrite Hx.
  unfold bind at 1. unfold lift.
  destruct (parse_epw_header lines) as [[meta idx]|e]; [|reflexivity].
  unfold bind at 1. unfold insert_location. rewrite Hc. reflexivity.
Qed.

(** the batch over two lists in a row *)
Lemma process_zip_files_app (before after : list archive) :
  forall db n,
    process_zip_files (before ++ after) db n
    = process_zip_files after (snd (process_zip_files before db n))
                        (fst (process_zip_files before db n)).
Proof.
  induction before as [|z before IH]; intros db n; [reflexivity|].
  cbn [app process_zip_files].
  destruct (process_single_zip z db) as [ok db']. apply IH.
Qed.

(** The batch goes on past an archive that fails without a trace. *)
Lemma process_zip_files_skip (zip : archive) :
  (forall db, process_single_zip zip db = (false, db)) ->
  forall before after db n,
    process_zip_files (before ++ zip :: after) db n
    = process_zip_files (before ++ after) db n.
Proof.
  intros Hzip before after db n.
  rewrite !process_zip_files_app. cbn [process_zip_files].
  rewrite Hzip. reflexivity.
Qed.

(** The archive behind one that fails without a trace is handed to
    [process_single_zip] with the store and the count the archives in
    front have left. *)
Lemma process_zip_files_next (zip : archive) :
  (forall db, process_single_zip zip db = (false, db)) ->
  forall before next after db n,
    process_zip_files (before ++ zip :: next :: after) db n
    = process_zip_files after
        (snd (process_single_zip next (snd (process_zip_files before db n))))
        (if fst (process_single_zip next (snd (process_zip_files before db n)))
         then S (fst (process_zip_files before db n))
         else fst (process_zip_files before db n)).
Proof.
  intros Hzip before next after db n.
  rewrite process_zip_files_app. cbn [process_zip_files].
  rewrite Hzip.
  destruct (process_single_zip next (snd (process_zip_files before db n)))
    as [ok db']. reflexivity.
Qed.

End Library.

End IngestFacts.

(** C8. Whenever [parse_epw_header] returns, the index of the first
    hourly line it returns is [i + 1] for the first line of index [i]
    that starts, once stripped, with [DATA PERIODS,], and the fixed
    default 8 when no line does. *)
Theorem first_hourly_line_index (lines : list string) (meta : Db.header) (idx : nat) :
  Epw.parse_epw_header lines = Ok (meta, idx) ->
  (exists i line,
      nth_error lines i = Some line /\
      PyStr.startswith (PyStr.strip line) "DATA PERIODS," = true /\
      (forall j l, (j < i)%nat -> nth_error lines j = Some l ->
                   PyStr.startswith (PyStr.strip l) "DATA PERIODS," = false) /\
      idx = (i + 1)%nat)
  \/ ((forall l, In l lines ->
                 PyStr.startswith (PyStr.strip l) "DATA PERIODS," = false)
      /\ idx = 8%nat).
Proof.
  intros H. apply EpwFacts.parse_epw_header_index in H. subst idx.
  unfold Epw.data_start_idx.
  destruct (Epw.find_data_start 0 lines) as [idx|] eqn:Hfind.
  - left. destruct (EpwFacts.find_data_start_some lines 0 idx Hfind)
      as [i [line [Hn [Hs [Hb Hi]]]]].
    exists i, line. repeat split; assumption.
  - right. split; [|reflexivity].
    apply (EpwFacts.find_data_start_none lines 0 Hfind).
Qed.

Lemma first_hourly_line_index_witness :
  (exists i line,
      nth_error Samples.epw_february i = Some line /\
      PyStr.startswith (PyStr.strip line) "DATA PERIODS," = true /\
      (forall j l, (j < i)%nat -> nth_error Samples.epw_february j = Some l ->
                   PyStr.startswith (PyStr.strip l) "DATA PERIODS," = false) /\
      8%nat = (i + 1)%nat)
  \/ ((forall l, In l Samples.epw_february ->
                 PyStr.startswith (PyStr.strip l) "DATA PERIODS," = false)
      /\ 8%nat = 8%nat).
Proof.
  apply (first_hourly_line_index Samples.epw_february Samples.toronto 8).
  vm_compute. reflexivity.
Defined.

(** C7. An archive none of whose members has a name ending in [.epw]
    (compared in lower case) makes [process_single_zip] return [False] and
    leaves the store unchanged, no location row and no other row added.
    The batch goes on: it gives the result it gives without that archive,
    and the archive behind it is handed to [process_single_zip] with the
    store and the count the archives in front have left, its rows stored
    and its success counted. *)
Theorem archive_without_epw_member {L : Pandas.library}
        (file_list : list Ingest.member) (db : Db.store) :
  (forall name lines, In (name, lines) file_list ->
                      PyStr.endswith (PyStr.lower name) ".epw" = false) ->
  Ingest.process_single_zip (Some file_list) db = (false, db) /\
  (forall before after db0 n,
      Ingest.process_zip_files (before ++ Some file_list :: after) db0 n
      = Ingest.process_zip_files (before ++ after) db0 n) /\
  (forall before next after db0 n,
      Ingest.process_zip_files (before ++ Some file_list :: next :: after) db0 n
      = Ingest.process_zip_files after
          (snd (Ingest.process_single_zip
                  next (snd (Ingest.process_zip_files before db0 n))))
          (if fst (Ingest.process_single_zip
                     next (snd (Ingest.process_zip_files before db0 n)))
           then S (fst (Ingest.process_zip_files before db0 n))
           else fst (Ingest.process_zip_files before db0 n))).
Proof.
  intros H. pose proof (IngestFacts.no_epw_member file_list H) as Hnone.
  assert (Hfail : forall db', Ingest.process_single_zip (Some file_list) db'
                              = (false, db')).
  { intros db'. apply IngestFacts.process_single_zip_no_member. assumption. }
  split; [apply Hfail|]. split.
  - apply IngestFacts.process_zip_files_skip. exact Hfail.
  - apply IngestFacts.process_zip_files_next. exact Hfail.
Qed.

Lemma archive_without_epw_member_witness :
  Ingest.process_single_zip (L := Pandas.in_frame_order)
                            Samples.archive_without_epw [] = (false, []) /\
  Ingest.process_zip_files (L := Pandas.in_frame_order)
    [Samples.archive_without_epw; Samples.archive_january_july] [] 0
  = (1%nat,
     snd (Ingest.process_single_zip (L := Pandas.in_frame_order)
                                    Samples.archive_january_july [])) /\
  Db.location_ids
    (snd (Ingest.process_zip_files (L := Pandas.in_frame_order)
            [Samples.archive_without_epw; Samples.archive_january_july] [] 0))
  = [1%Z].
Proof.
  destruct (archive_without_epw_member (L := Pandas.in_frame_order)
              [ Samples.readme;
                ("CAN_ON_Toronto.Intl.AP.716240_CWEC2016.stat", Samples.header_lines) ]
              [])
    as [Hfail [_ Hnext]].
  - intros name lines Hin. simpl in Hin.
    destruct Hin as [Heq | [Heq | Hfalse]]; [| |contradiction];
      inversion Heq; subst; reflexivity.
  - split; [exact Hfail|].
    pose proof (Hnext [] Samples.archive_january_july [] [] 0%nat) as Hrun.
    cbn [app] in Hrun. split.
    + etransitivity; [exact Hrun|]. vm_compute. reflexivity.
    + vm_compute. reflexivity.
Defined.

(** C6. [insert_location] on a connection with no open transaction: when
    the file name holds one of TMY, TRY, CWEC followed by characters other
    than newline and then the final [.epw], a location row is committed
    whose catalog is the text [re.search] matched, which starts with a tag
    and stands immediately in front of the extension; when the pattern
    matches nowhere, [insert_location] raises [ValueError] with the
    connection untouched, [process_single_zip] returns [False] with the
    store unchanged, and the batch goes on: the archive behind is handed
    to [process_single_zip] with the store and the count the archives in
    front have left. *)
Theorem catalog_from_filename {L : Pandas.library}
        (meta : Db.header) (epw_filename : string) (c : Db.conn) :
  Db.pending c = [] ->
  (forall pre tag body,
      In tag ["TMY"; "TRY"; "CWEC"] -> Epw.free_of_newline body = true ->
      epw_filename
      = String.append pre (String.append tag (String.append body ".epw")) ->
      exists catalog before tag' run tail,
        Epw.re_search_catalog epw_filename = Some catalog /\
        epw_filename = String.append before (String.append catalog tail) /\
        (tail = ".epw" \/ tail = String.append ".epw" Samples.nl) /\
        catalog = String.append tag' run /\ In tag' ["TMY"; "TRY"; "CWEC"] /\
        Epw.insert_location meta epw_filename c
        = (Ok (Db.next_location_id (Db.committed c)),
           Db.mk_conn (Db.committed c
                       ++ [Db.LocationRow (Db.next_location_id (Db.committed c))
                                          meta epw_filename catalog])
                      [])) /\
  (Epw.re_search_catalog epw_filename = None ->
   Epw.insert_location meta epw_filename c = (Raise ValueError, c) /\
   forall zip lines,
     Ingest.extract_epw_from_zip zip = Some (epw_filename, lines) ->
     (forall db, Ingest.process_single_zip zip db = (false, db)) /\
     (forall before after db n,
         Ingest.process_zip_files (before ++ zip :: after) db n
         = Ingest.process_zip_files (before ++ after) db n) /\
     (forall before next after db n,
         Ingest.process_zip_files (before ++ zip :: next :: after) db n
         = Ingest.process_zip_files after
             (snd (Ingest.process_single_zip
                     next (snd (Ingest.process_zip_files before db n))))
             (if fst (Ingest.process_single_zip
                        next (snd (Ingest.process_zip_files before db n)))
              then S (fst (Ingest.process_zip_files before db n))
              else fst (Ingest.process_zip_files before db n)))).
Proof.
  intros Hp. pose proof (IngestFacts.insert_location_run meta epw_filename c Hp) as Hrun.
  split.
  - intros pre tag body Hin Hbody Hname.
    pose proof (EpwFacts.re_search_catalog_complete pre tag body Hin Hbody) as Hsome.
    rewrite <- Hname in Hsome.
    destruct (Epw.re_search_catalog epw_filename) as [catalog|] eqn:Hsearch;
      [|contradiction].
    destruct (EpwFacts.re_search_catalog_sound _ _ Hsearch)
      as [before [tag' [run [tail [Hs [Hg [Hin' [Hfree Hext]]]]]]]].
    exists catalog, before, tag', run, tail.
    repeat split; try assumption.
    unfold Epw.ext_here in Hext. apply orb_true_iff in Hext.
    destruct Hext as [He | He]; apply String.eqb_eq in He; [left | right]; exact He.
  - intros Hnone. rewrite Hnone in Hrun. split; [assumption|].
    intros zip lines Hx.
    assert (Hfail : forall db, Ingest.process_single_zip zip db = (false, db)).
    { intros db. eapply IngestFacts.process_single_zip_no_catalog; eassumption. }
    split; [assumption|]. split.
    + apply IngestFacts.process_zip_files_skip. assumption.
    + apply IngestFacts.process_zip_files_next. assumption.
Qed.

Lemma catalog_from_filename_witness :
  (exists catalog before tag' run tail,
      Epw.re_search_catalog "CAN_ON_Toronto.Intl.AP.716240_CWEC2016.epw"
      = Some catalog /\
      "CAN_ON_Toronto.Intl.AP.716240_CWEC2016.epw"
      = String.append before (String.append catalog tail) /\
      (tail = ".epw" \/ tail = String.append ".epw" Samples.nl) /\
      catalog = String.append tag' run /\ In tag' ["TMY"; "TRY"; "CWEC"] /\
      Epw.insert_location Samples.toronto
                          "CAN_ON_Toronto.Intl.AP.716240_CWEC2016.epw"
                          (Db.connect [])
      = (Ok (Db.next_location_id []),
         Db.mk_conn ([] ++ [Db.LocationRow (Db.next_location_id [])
                              Samples.toronto
                              "CAN_ON_Toronto.Intl.AP.716240_CWEC2016.epw"
                              catalog])
                    [])) /\
  Epw.insert_location Samples.toronto "CAN_ON_Toronto.Intl.AP.716240.epw"
                      (Db.connect [])
  = (Raise ValueError, Db.connect []) /\
  Ingest.process_zip_files (L := Pandas.in_frame_order)
    [Samples.archive_without_tag; Samples.archive_january_july] [] 0
  = (1%nat,
     snd (Ingest.process_single_zip (L := Pandas.in_frame_order)
                                    Samples.archive_january_july [])) /\
  map (fun r => match r with
                | Db.LocationRow _ _ epw_file catalog => (epw_file, catalog)
                | _ => (EmptyString, EmptyString)
                end)
      (filter Db.is_location
         (snd (Ingest.process_zip_files (L := Pandas.in_frame_order)
                 [Samples.archive_without_tag; Samples.archive_january_july] [] 0)))
  = [("CAN_ON_Toronto.Intl.AP.716240_CWEC2016.epw", "CWEC2016")].
Proof.
  split.
  - apply (proj1 (catalog_from_filename (L := Pandas.in_frame_order) Samples.toronto
                    "CAN_ON_Toronto.Intl.AP.716240_CWEC2016.epw"
                    (Db.connect []) eq_refl)
             "CAN_ON_Toronto.Intl.AP.716240_" "CWEC" "2016").
    + simpl. right. right. left. reflexivity.
    + reflexivity.
    + reflexivity.
  - destruct (proj2 (catalog_from_filename (L := Pandas.in_frame_order) Samples.toronto
                       "CAN_ON_Toronto.Intl.AP.716240.epw"
                       (Db.connect []) eq_refl) eq_refl)
      as [Hraise Hbatch].
    split; [exact Hraise|].
    destruct (Hbatch Samples.archive_without_tag Samples.epw_january_july eq_refl)
      as [_ [_ Hnext]].
    pose proof (Hnext [] Samples.archive_january_july [] [] 0%nat) as Hrun.
    cbn [app] in Hrun. split.
    + etransitivity; [exact Hrun|]. vm_compute. reflexivity.
    + vm_compute. reflexivity.
Defined.

(** The design-day derivation of the February file raises [IndexError]:
    the daily frame has no date in January. *)
Example february_has_no_design_days :
  rbind (Hourly.create_hourly_dataframe (skipn 8 Samples.epw_february))
        (DesignDays.extract_design_days (L := Pandas.in_frame_order))
  = Raise IndexError.
Proof. vm_compute. reflexivity. Qed.

(** C3, as stated, fails: for the archive whose EPW file holds February
    hours only, [process_single_zip] returns [False] and the store, empty
    before, afterwards holds the location row, five metadata rows and the
    three hourly rows of that archive, and no design-day row. *)
Lemma failed_archive_leaves_rows :
  fst (Ingest.process_single_zip (L := Pandas.in_frame_order)
                                 Samples.archive_february []) = false /\
  List.length (filter Db.is_location
                 (snd (Ingest.process_single_zip (L := Pandas.in_frame_order)
                                                 Samples.archive_february []))) = 1%nat /\
  List.length (filter (Spec.metadata_row 1)
                 (snd (Ingest.process_single_zip (L := Pandas.in_frame_order)
                                                 Samples.archive_february []))) = 5%nat /\
  List.length (filter Db.is_hourly
                 (snd (Ingest.process_single_zip (L := Pandas.in_frame_order)
                                                 Samples.archive_february []))) = 3%nat /\
  filter Db.is_design_day
         (snd (Ingest.process_single_zip (L := Pandas.in_frame_order)
                                         Samples.archive_february [])) = [].
Proof. vm_compute. repeat split. Qed.

(** A frame [to_sql] refuses leaves the location and the metadata rows
    and no hourly row: the year of the second hour of the file is outside
    64 bits, in a column of integers, whatever the library. *)
Example refused_frame_leaves_no_hourly_row :
  Ingest.process_single_zip (L := Pandas.in_frame_order)
                            Samples.archive_huge_year []
  = (false,
     filter (fun r => negb (Db.is_hourly r) && negb (Db.is_design_day r))
            (snd (Ingest.process_single_zip (L := Pandas.in_frame_order)
                                            Samples.archive_january_july []))) /\
  forall L : Pandas.library,
    rmap (Ingest.to_sql_stores (L := L))
         (Hourly.create_hourly_dataframe (skipn 8 Samples.epw_huge_year))
    = Ok false.
Proof.
  split; [vm_compute; reflexivity|].
  intros L. unfold Ingest.to_sql_stores.
  assert (H : rmap (fun df => (Ingest.ints_fit df, Ingest.may_read_as_float df))
                   (Hourly.create_hourly_dataframe (skipn 8 Samples.epw_huge_year))
              = Ok (false, false)) by (vm_compute; reflexivity).
  destruct (Hourly.create_hourly_dataframe (skipn 8 Samples.epw_huge_year))
    as [df|e]; [|discriminate H].
  cbn [rmap rbind] in *. injection H as -> ->. reflexivity.
Qed.

(** C3, amended. Every stage of [process_single_zip] commits its own
    rows, and a failure takes back nothing that an earlier stage has
    committed: what the store has gained is decided by the stage that
    fails.
    - No member to read, a header that cannot be parsed, or a file name
      without catalog tag: [False], and the store is as it was.
    - Otherwise the location row is in the store, followed by the rows
      [metadata] that the header lines have committed: all of them, or
      those committed before the line that raises.
    - A header line that raises, a hourly record the decoder raises on,
      or a frame that [to_sql] does not store (it stores all of its rows
      or none): [False], the location and the metadata rows and nothing
      else.
    - A frame that is stored but gives no design days: [False], the
      location, the metadata and one hourly row for each record.
    - Else [True], and seven design-day rows behind the hourly rows. *)
Theorem archive_rows_follow_stages {L : Pandas.library}
        (zip : Ingest.archive) (db : Db.store) (ok : bool) (db' : Db.store) :
  Ingest.process_single_zip zip db = (ok, db') ->
  match Ingest.extract_epw_from_zip zip with
  | None => ok = false /\ db' = db
  | Some (name, lines) =>
      match Epw.parse_epw_header lines, Epw.re_search_catalog name with
      | Ok (meta, idx), Some catalog =>
          let id := Db.next_location_id db in
          let location := Db.LocationRow id meta name catalog in
          let read :=
            Epw.parse_epw_metadata lines id (Db.mk_conn (db ++ [location]) []) in
          exists metadata,
            Db.committed (snd read) = (db ++ [location]) ++ metadata /\
            forallb (Spec.metadata_row id) metadata = true /\
            match fst read, Hourly.create_hourly_dataframe (skipn idx lines) with
            | Ok _, Ok df =>
                if Ingest.to_sql_stores df then
                  match DesignDays.extract_design_days df with
                  | Ok blocks =>
                      ok = true /\ List.length blocks = 7%nat /\
                      db' = db ++ location :: metadata
                               ++ map (Db.HourlyRow id) df
                               ++ map (Db.DesignDayRow id) blocks
                  | Raise _ =>
                      ok = false /\
                      db' = db ++ location :: metadata ++ map (Db.HourlyRow id) df
                  end
                else ok = false /\ db' = db ++ location :: metadata
            | _, _ => ok = false /\ db' = db ++ location :: metadata
            end
      | _, _ => ok = false /\ db' = db
      end
  end.
Proof.
  intros H.
  destruct (Ingest.process_body zip (Db.connect db)) as [r c] eqn:Hbody.
  rewrite (IngestFacts.process_single_zip_store zip db r c Hbody) in H.
  pose proof (IngestFacts.process_body_outcome zip db r c Hbody) as Ho.
  inversion H; subst ok db'. clear H.
  inversion Ho as [Hx | e name lines Hx Hh | name lines meta idx Hx Hh Hc
                   | e meta name catalog lines idx metadata hourly id location read
                       Hx Hh Hc Hcom Hm Hstage
                   | meta name catalog lines idx metadata df blocks id location read
                       Hx Hh Hc Hcom Hm Hread Hdf Hstore Hblocks];
    subst; cbn [Db.committed Db.connect]; rewrite Hx.
  - split; reflexivity.
  - rewrite Hh. split; reflexivity.
  - rewrite Hh, Hc. split; reflexivity.
  - rewrite Hh, Hc. cbv zeta. fold id. fold location. fold read.
    exists metadata. split; [exact Hcom|]. split; [exact Hm|].
    destruct Hstage as [[Hr ->] | [[Hr [Hdf ->]] | [[df [Hr [Hdf [Hs [-> ->]]]]]
                                                  | [df [Hr [Hdf [Hs [Hb ->]]]]]]]];
      rewrite Hr; try rewrite Hdf; try rewrite Hs; try rewrite Hb;
      try rewrite app_nil_r; split; reflexivity.
  - rewrite Hh, Hc. cbv zeta. fold id. fold location. fold read.
    exists metadata. split; [exact Hcom|]. split; [exact Hm|].
    rewrite Hread, Hdf, Hstore, Hblocks.
    split; [reflexivity|]. split; [|reflexivity].
    eapply IngestFacts.seven_blocks. eassumption.
Qed.

Lemma archive_rows_follow_stages_witness :
  exists metadata,
    Db.committed
      (snd (Epw.parse_epw_metadata Samples.epw_january_july 1
              (Db.mk_conn [Db.LocationRow 1 Samples.toronto
                             "CAN_ON_Toronto.Intl.AP.716240_CWEC2016.epw" "CWEC2016"]
                          [])))
    = [Db.LocationRow 1 Samples.toronto
         "CAN_ON_Toronto.Intl.AP.716240_CWEC2016.epw" "CWEC2016"] ++ metadata /\
    List.length metadata = 5%nat /\
    exists blocks,
      DesignDays.extract_design_days (L := Pandas.in_frame_order)
                                     Inputs.frame_january_july = Ok blocks /\
      snd (Ingest.process_single_zip (L := Pandas.in_frame_order)
                                     Samples.archive_january_july [])
      = Db.LocationRow 1 Samples.toronto
          "CAN_ON_Toronto.Intl.AP.716240_CWEC2016.epw" "CWEC2016"
        :: metadata
        ++ map (Db.HourlyRow 1) Inputs.frame_january_july
        ++ map (Db.DesignDayRow 1) blocks.
Proof.
  pose proof (archive_rows_follow_stages (L := Pandas.in_frame_order)
                Samples.archive_january_july [] true
                (snd (Ingest.process_single_zip (L := Pandas.in_frame_order)
                                                Samples.archive_january_july []))
                ltac:(vm_compute; reflexivity)) as H.
  vm_compute in H. destruct H as [metadata [Hcom [_ [_ [_ Hrows]]]]].
  exists metadata. split; [vm_compute; exact Hcom|].
  split.
  - apply (f_equal (@List.length Db.row)) in Hcom. cbn [List.length] in Hcom.
    vm_compute in Hcom. injection Hcom as Hcom. symmetry. exact Hcom.
  - eexists. split; [vm_compute; reflexivity|]. vm_compute. exact Hrows.
Defined.

(** ** The wy3 transcoder *)

Module Wy3Facts.

Import PyStr PyNum Wy3 Spec.

Lemma substring_length (s : string) :
  forall n m, String.length (substring n m s) = Nat.min m (String.length s - n).
Proof.
  induction s as [|c s IH]; intros n m.
  - destruct n, m; reflexivity.
  - destruct n as [|n].
    + destruct m as [|m]; [reflexivity|]. simpl. rewrite IH.
      rewrite Nat.sub_0_r. reflexivity.
    + simpl. apply IH.
Qed.

Lemma two_characters (s : string) :
  String.length s = 2%nat -> exists a b, s = String a (String b EmptyString).
Proof.
  destruct s as [|a [|b [|c s]]]; simpl; intros H; try discriminate.
  exists a, b. reflexivity.
Qed.

Lemma convert_line_steps (line : string) (r : epw_record) :
  convert_line line = Ok r -> steps line r.
Proof.
  unfold convert_line. intros H. repeat bind_ok H.
  apply Ok_inj in H. subst r. constructor; cbn [year month day hour minute
    tdb_ds tdp_ds p_ds global_hor_rad_ds dir_nor_rad_ds diff_hor_rad_ds
    global_hor_ill_ds dir_nor_ill_ds diff_hor_ill_ds zenith_ill_ds wind_dir_ds
    wind_speed_ds total_sky_cover_ds opaque_sky_cover_ds visibility_ds
    clg_height_ds]; try assumption; reflexivity.
Qed.

(** a conversion that succeeds has read a record of sixty columns at
    least: the zenith flag in column 60 is [9] *)
Lemma converted_line_length (line : string) (r : epw_record) :
  convert_line line = Ok r -> (60 <= String.length line)%nat.
Proof.
  intros H. pose proof (step_zenith_ill _ _ (convert_line_steps _ _ H)) as Hz.
  unfold zenith_ill_check in Hz.
  destruct (String.eqb_spec (flag_of line col_zenith_ill) "9") as [Hflag|];
    [|discriminate].
  assert (Hlen : String.length (flag_of line col_zenith_ill) = 1%nat)
    by (rewrite Hflag; reflexivity).
  unfold flag_of, slice, col_zenith_ill in Hlen. cbn [fst snd] in Hlen.
  rewrite substring_length in Hlen. lia.
Qed.

Lemma drop_zero_two (a b : ascii) :
  drop_zero (String a (String b EmptyString))
  = Ok (if Ascii.eqb a "0" then String b EmptyString
        else String a (String b EmptyString)).
Proof.
  unfold drop_zero, index. cbn. destruct (Ascii.eqb a "0"); reflexivity.
Qed.

Lemma leading_zero (line : string) (i : nat) (t : string) :
  (i + 2 <= String.length line)%nat ->
  drop_zero (slice line i (i + 2)) = Ok t ->
  leading_zero_removed (slice line i (i + 2)) t.
Proof.
  intros Hlen H.
  assert (H2 : String.length (slice line i (i + 2)) = 2%nat).
  { unfold slice. rewrite substring_length. lia. }
  destruct (two_characters _ H2) as [a [b Hab]].
  exists a, b. split; [assumption|].
  rewrite Hab in H. rewrite drop_zero_two in H. apply Ok_inj in H.
  rewrite <- H. rewrite Hab. reflexivity.
Qed.





End Wy3Facts.

(** C10. For every wy3 record that is transcoded, the output line
    [epw_line] begins with the five tokens year, month, day, hour and
    minute: the year token is the substring of columns 9-12 unchanged; the
    month, day and hour tokens are the two-character substrings of columns
    13-14, 15-16 and 17-18 with a leading [0] removed (when the first
    character is [0] the second character alone is emitted, otherwise the
    substring as it is); the minute token is [0]. *)
Theorem date_tokens (line : string) (r : Wy3.epw_record) :
  Wy3.convert_line line = Ok r ->
  exists month day hour rest,
    Wy3.epw_line r
    = Wy3.Text (PyStr.slice line 8 12) :: Wy3.Text month :: Wy3.Text day
        :: Wy3.Text hour :: Wy3.Text "0" :: rest /\
    Spec.leading_zero_removed (PyStr.slice line 12 14) month /\
    Spec.leading_zero_removed (PyStr.slice line 14 16) day /\
    Spec.leading_zero_removed (PyStr.slice line 16 18) hour.
Proof.
  intros H. pose proof (Wy3Facts.converted_line_length line r H) as Hlen.
  destruct (Wy3Facts.convert_line_steps line r H).
  exists (Wy3.month r), (Wy3.day r), (Wy3.hour r),
    (Wy3.Text (Wy3.data_source r) :: Wy3.values r).
  split.
  - unfold Wy3.epw_line. cbn [app].
    repeat f_equal; assumption.
  - split; [apply (Wy3Facts.leading_zero line 12); [lia | assumption]|].
    split; [apply (Wy3Facts.leading_zero line 14); [lia | assumption]|].
    apply (Wy3Facts.leading_zero line 16); [lia | assumption].
Qed.

Lemma date_tokens_witness :
  exists month day hour rest,
    rmap Wy3.epw_line (Wy3.convert_line Samples.wy3_record)
    = Ok (Wy3.Text (PyStr.slice Samples.wy3_record 8 12) :: Wy3.Text month
            :: Wy3.Text day :: Wy3.Text hour :: Wy3.Text "0" :: rest) /\
    Spec.leading_zero_removed (PyStr.slice Samples.wy3_record 12 14) month /\
    Spec.leading_zero_removed (PyStr.slice Samples.wy3_record 14 16) day /\
    Spec.leading_zero_removed (PyStr.slice Samples.wy3_record 16 18) hour.
Proof.
  destruct (Wy3.convert_line Samples.wy3_record) as [r|e] eqn:H.
  - destruct (date_tokens Samples.wy3_record r H)
      as [month [day [hour [rest [Hline Hrest]]]]].
    exists month, day, hour, rest. cbn [rmap rbind]. rewrite Hline.
    split; [reflexivity | exact Hrest].
  - vm_compute in H. discriminate H.
Defined.

(** the first five tokens of the line written for the sample record *)
Example date_tokens_of_the_sample :
  rmap (fun r => firstn 5 (Wy3.epw_line r)) (Wy3.convert_line Samples.wy3_record)
  = Ok [ Wy3.Text "1998"; Wy3.Text "7"; Wy3.Text "15"; Wy3.Text "12"; Wy3.Text "0" ].
Proof. vm_compute. reflexivity. Qed.

(** With the flag [X ] on diffuse horizontal radiation, a flag outside
    the set the error message of line 212 names, the record is converted
    all the same, with the code [?0]: the fourth disjunct of line 207 is
    the flag itself. *)
Example diff_hor_rad_flag_goes_unchecked :
  rmap Wy3.diff_hor_rad_ds (Wy3.convert_line Samples.wy3_diff_hor_rad_X) = Ok "?0".
Proof. vm_compute. reflexivity. Qed.




(** ** Design days *)

Module DesignDayFacts.

Import PyStr PyNum DesignDays Spec.

(** *** Two sorted arrangements of the same rows agree rank by rank *)

Section SortedPerm.

Variable A : Type.
Variable leb : A -> A -> bool.
Hypothesis leb_total : forall a b, leb a b = true \/ leb b a = true.
Hypothesis leb_trans :
  forall a b c, leb a b = true -> leb b c = true -> leb a c = true.

Let R (a b : A) : Prop := leb a b = true.

Lemma leb_refl (a : A) : leb a a = true.
Proof. destruct (leb_total a a); assumption. Qed.

Lemma filter_length_le (f : A -> bool) (l : list A) :
  (List.length (filter f l) <= List.length l)%nat.
Proof.
  induction l as [|a l IH]; simpl; [lia|]. destruct (f a); simpl; lia.
Qed.

Lemma filter_length_mono (f g : A -> bool) (l : list A) :
  (forall z, f z = true -> g z = true) ->
  (List.length (filter f l) <= List.length (filter g l))%nat.
Proof.
  intros H. induction l as [|a l IH]; simpl; [lia|].
  destruct (f a) eqn:Hf.
  - rewrite (H a Hf). simpl. lia.
  - destruct (g a); simpl; lia.
Qed.

Lemma filter_length_perm (f : A -> bool) (l l' : list A) :
  Permutation l l' -> List.length (filter f l) = List.length (filter f l').
Proof.
  intros H. induction H; simpl.
  - reflexivity.
  - destruct (f x); simpl; congruence.
  - destruct (f x), (f y); reflexivity.
  - congruence.
Qed.

Lemma filter_none (f : A -> bool) (l : list A) :
  Forall (fun z => f z = false) l -> filter f l = [].
Proof.
  induction 1 as [|a l Ha _ IH]; simpl; [reflexivity|]. rewrite Ha. assumption.
Qed.

(** the rows up to rank [i] are not above the row of rank [i] *)
Lemma rank_below (l : list A) :
  StronglySorted R l ->
  forall i x, nth_error l i = Some x ->
              (i < List.length (filter (fun y => leb y x) l))%nat.
Proof.
  induction 1 as [|a l Hs IH Ha]; intros i x Hx.
  - destruct i; discriminate.
  - destruct i as [|i]; simpl in Hx.
    + inversion Hx; subst. simpl. rewrite leb_refl. simpl. lia.
    + assert (Hax : leb a x = true).
      { apply nth_error_In in Hx. rewrite Forall_forall in Ha. apply Ha, Hx. }
      simpl. rewrite Hax. simpl. specialize (IH i x Hx). lia.
Qed.

(** the rows strictly below the row of rank [i] number [i] at most *)
Lemma rank_above (l : list A) :
  StronglySorted R l ->
  forall i x, nth_error l i = Some x ->
              (List.length (filter (fun y => negb (leb x y)) l) <= i)%nat.
Proof.
  induction 1 as [|a l Hs IH Ha]; intros i x Hx.
  - destruct i; discriminate.
  - destruct i as [|i]; simpl in Hx.
    + inversion Hx; subst. rewrite filter_none; [simpl; lia|].
      constructor.
      * rewrite leb_refl. reflexivity.
      * rewrite Forall_forall in *. intros z Hz.
        unfold R in Ha. rewrite (Ha z Hz). reflexivity.
    + simpl. specialize (IH i x Hx).
      destruct (negb (leb x a)); simpl; lia.
Qed.

Lemma same_rank (l1 l2 : list A) (i : nat) (x y : A) :
  StronglySorted R l1 -> StronglySorted R l2 -> Permutation l1 l2 ->
  nth_error l1 i = Some x -> nth_error l2 i = Some y ->
  leb x y = true.
Proof.
  intros S1 S2 Hperm Hx Hy.
  destruct (leb x y) eqn:Hxy; [reflexivity | exfalso].
  pose proof (rank_below l2 S2 i y Hy) as Hbelow.
  pose proof (rank_above l1 S1 i x Hx) as Habove.
  rewrite (filter_length_perm _ l1 l2 Hperm) in Habove.
  assert (Hmono : (List.length (filter (fun z => leb z y) l2)
                   <= List.length (filter (fun z => negb (leb x z)) l2))%nat).
  { apply filter_length_mono. intros z Hz.
    destruct (leb x z) eqn:Hxz; [|reflexivity].
    rewrite (leb_trans x z y Hxz Hz) in Hxy. discriminate. }
  lia.
Qed.

End SortedPerm.

(** *** The order of the frame *)

Lemma flt_asym (x y : pyfloat) : flt x y = true -> flt y x = false.
Proof.
  destruct x as [a|[|]|], y as [b|[|]|]; simpl; try reflexivity; try discriminate.
  intros H. apply negb_true_iff in H. apply negb_false_iff.
  apply Qle_bool_iff. destruct (Qlt_le_dec a b) as [Hlt | Hle].
  - apply Qlt_le_weak. assumption.
  - apply Qle_bool_iff in Hle. congruence.
Qed.

Lemma fle_trans (x y z : pyfloat) :
  is_nan x = false -> is_nan y = false -> is_nan z = false ->
  flt y x = false -> flt z y = false -> flt z x = false.
Proof.
  destruct x as [a|[|]|], y as [b|[|]|], z as [c|[|]|]; simpl;
    try reflexivity; try discriminate.
  intros _ _ _ Hab Hbc.
  apply negb_false_iff in Hab. apply negb_false_iff in Hbc.
  apply negb_false_iff. apply Qle_bool_iff.
  apply Qle_bool_iff in Hab. apply Qle_bool_iff in Hbc.
  eapply Qle_trans; eassumption.
Qed.

Section FrameOrder.

Variable col : daily_row -> pyfloat.
Variable asc : bool.

Lemma frame_leb_total (a b : daily_row) :
  frame_leb col asc a b = true \/ frame_leb col asc b a = true.
Proof.
  unfold frame_leb.
  destruct (is_nan (col b)) eqn:Hb; [left; reflexivity|].
  destruct (is_nan (col a)) eqn:Ha; [right; reflexivity|].
  destruct asc.
  - destruct (flt (col b) (col a)) eqn:H; [|left; reflexivity].
    right. rewrite (flt_asym _ _ H). reflexivity.
  - destruct (flt (col a) (col b)) eqn:H; [|left; reflexivity].
    right. rewrite (flt_asym _ _ H). reflexivity.
Qed.

Lemma frame_leb_trans (a b c : daily_row) :
  frame_leb col asc a b = true -> frame_leb col asc b c = true ->
  frame_leb col asc a c = true.
Proof.
  unfold frame_leb.
  destruct (is_nan (col c)) eqn:Hc; [reflexivity|].
  destruct (is_nan (col b)) eqn:Hb; [discriminate|].
  destruct (is_nan (col a)) eqn:Ha; [discriminate|].
  destruct asc; intros Hab Hbc;
    apply negb_true_iff in Hab; apply negb_true_iff in Hbc;
    apply negb_true_iff.
  - apply (fle_trans (col a) (col b) (col c)); assumption.
  - apply (fle_trans (col c) (col b) (col a)); assumption.
Qed.

(** rows that may stand either way round have the same metric *)
Lemma frame_leb_antisym (a b : daily_row) :
  frame_leb col asc a b = true -> frame_leb col asc b a = true ->
  same_metric (col a) (col b).
Proof.
  unfold frame_leb, same_metric, feq, fge.
  destruct (is_nan (col a)) eqn:Ha, (is_nan (col b)) eqn:Hb;
    try discriminate; [left; split; reflexivity|].
  intros Hab Hba. right. simpl.
  destruct asc; apply negb_true_iff in Hab; apply negb_true_iff in Hba;
    rewrite Hab, Hba; reflexivity.
Qed.

(** whatever the order of the tied rows, the row of a given rank has the
    same metric *)
Lemma arrangements_agree (daily s1 s2 : list daily_row) (i : nat)
      (x y : daily_row) :
  arrangement col asc daily s1 -> arrangement col asc daily s2 ->
  nth_error s1 i = Some x -> nth_error s2 i = Some y ->
  same_metric (col x) (col y).
Proof.
  intros [P1 S1] [P2 S2] Hx Hy.
  assert (P12 : Permutation s1 s2)
    by (eapply Permutation_trans; [apply Permutation_sym; exact P1 | exact P2]).
  apply frame_leb_antisym.
  - apply (same_rank _ (frame_leb col asc) frame_leb_total frame_leb_trans
                     s1 s2 i x y S1 S2 P12 Hx Hy).
  - apply (same_rank _ (frame_leb col asc) frame_leb_total frame_leb_trans
                     s2 s1 i y x S2 S1 (Permutation_sym P12) Hy Hx).
Qed.

End FrameOrder.

(** *** [sort_values] gives a sorted arrangement *)

Lemma sorted_app {A : Type} (R : A -> A -> Prop) (l1 l2 : list A) :
  StronglySorted R l1 -> StronglySorted R l2 ->
  (forall a b, In a l1 -> In b l2 -> R a b) ->
  StronglySorted R (l1 ++ l2).
Proof.
  intros S1 S2 H. induction S1 as [|a l1 S1 IH Ha]; simpl; [assumption|].
  constructor.
  - apply IH. intros x y Hx Hy. apply H; [right|]; assumption.
  - apply Forall_app. split; [assumption|].
    apply Forall_forall. intros y Hy. apply H; [left; reflexivity | assumption].
Qed.

Lemma sorted_rev {A : Type} (R : A -> A -> Prop) (l : list A) :
  StronglySorted R l -> StronglySorted (fun a b => R b a) (rev l).
Proof.
  induction 1 as [|a l S IH Ha]; simpl; [constructor|].
  apply sorted_app; [assumption | repeat constructor |].
  intros x y Hx Hy. destruct Hy as [<- | []].
  apply in_rev in Hx. rewrite Forall_forall in Ha. apply Ha. assumption.
Qed.

Lemma sorted_weaken {A : Type} (R R' : A -> A -> Prop) (l : list A) :
  (forall a b, In a l -> In b l -> R a b -> R' a b) ->
  StronglySorted R l -> StronglySorted R' l.
Proof.
  intros H S. induction S as [|a l S IH Ha]; constructor.
  - apply IH. intros x y Hx Hy. apply H; right; assumption.
  - rewrite Forall_forall in *. intros y Hy.
    apply H; [left; reflexivity | right; assumption | apply Ha; assumption].
Qed.

Lemma filter_split {A : Type} (f : A -> bool) (l : list A) :
  Permutation l (filter (fun x => negb (f x)) l ++ filter f l).
Proof.
  induction l as [|a l IH]; simpl; [constructor|].
  destruct (f a); simpl.
  - apply Permutation_cons_app. assumption.
  - constructor. assumption.
Qed.

Section SortValues.

Context {L : Pandas.library}.

Variable col : daily_row -> pyfloat.

Let number (r : daily_row) : Prop := is_nan (col r) = false.
Let up (a b : daily_row) : Prop := frame_leb col true a b = true.

Lemma insert_by_perm (x : daily_row) (l : list daily_row) :
  Permutation (x :: l) (insert_by col x l).
Proof.
  induction l as [|y l IH]; simpl; [apply Permutation_refl|].
  destruct (flt (col y) (col x)); [|apply Permutation_refl].
  eapply Permutation_trans; [apply perm_swap|]. constructor. assumption.
Qed.

Lemma by_key_perm (l : list daily_row) : Permutation l (by_key col l).
Proof.
  induction l as [|x l IH]; simpl; [constructor|].
  eapply Permutation_trans; [|apply insert_by_perm]. constructor. assumption.
Qed.

Lemma insert_ranked_perm (rank : nat -> nat) (x : nat * daily_row)
      (l : list (nat * daily_row)) :
  Permutation (x :: l) (insert_ranked rank x l).
Proof.
  induction l as [|y l IH]; simpl; [apply Permutation_refl|].
  destruct (rank (fst y) <? rank (fst x))%nat; [|apply Permutation_refl].
  eapply Permutation_trans; [apply perm_swap|]. constructor. assumption.
Qed.

Lemma map_snd_combine {A B : Type} (a : list A) (b : list B) :
  List.length a = List.length b -> map snd (combine a b) = b.
Proof.
  revert b. induction a as [|x a IH]; intros [|y b] H; try discriminate;
    [reflexivity|].
  cbn [combine map snd]. f_equal. apply IH. injection H as H. exact H.
Qed.

(** whatever the ranks, the rows are the same rows *)
Lemma by_rank_perm (rank : nat -> nat) (l : list daily_row) :
  Permutation l (by_rank rank l).
Proof.
  unfold by_rank.
  assert (H : forall pairs : list (nat * daily_row),
             Permutation pairs (fold_right (insert_ranked rank) [] pairs)).
  { induction pairs as [|x pairs IH]; simpl; [constructor|].
    eapply Permutation_trans; [|apply insert_ranked_perm]. constructor. assumption. }
  rewrite <- (map_snd_combine (seq 0 (List.length l)) l) at 1
    by apply length_seq.
  apply Permutation_map. apply H.
Qed.

Lemma argsort_perm (l : list daily_row) : Permutation l (argsort col l).
Proof.
  unfold argsort.
  eapply Permutation_trans; [apply by_rank_perm | apply by_key_perm].
Qed.

Lemma insert_by_sorted (x : daily_row) (l : list daily_row) :
  number x -> Forall number l -> StronglySorted up l ->
  StronglySorted up (insert_by col x l).
Proof.
  intros Hx Hl S. induction S as [|y l S IH Hy]; simpl.
  - constructor; constructor.
  - inversion Hl as [|? ? Hny Hnl]; subst.
    destruct (flt (col y) (col x)) eqn:Hyx.
    + constructor; [apply IH; assumption|].
      apply (Permutation_Forall (insert_by_perm x l)).
      constructor; [|assumption].
      unfold up, frame_leb. unfold number in Hx, Hny. rewrite Hx, Hny.
      rewrite (flt_asym _ _ Hyx). reflexivity.
    + assert (Hxy : up x y).
      { unfold up, frame_leb. unfold number in Hx, Hny. rewrite Hx, Hny, Hyx.
        reflexivity. }
      constructor; [constructor; assumption|].
      constructor; [assumption|].
      rewrite Forall_forall in *. intros z Hz.
      apply (frame_leb_trans col true x y z); [assumption | apply Hy; assumption].
Qed.

Lemma by_key_sorted (l : list daily_row) :
  Forall number l -> StronglySorted up (by_key col l).
Proof.
  induction 1 as [|x l Hx Hl IH]; simpl; [constructor|].
  apply insert_by_sorted; [assumption | | assumption].
  apply (Permutation_Forall (by_key_perm l)). assumption.
Qed.

(** whatever the order of the library among equal keys, the result is
    in ascending order *)
Lemma argsort_sorted (l : list daily_row) :
  Forall number l -> StronglySorted up (argsort col l).
Proof.
  intros H. unfold argsort. apply by_key_sorted.
  apply (Permutation_Forall (by_rank_perm _ l)). assumption.
Qed.

Lemma sort_values_arrangement (asc : bool) (daily : list daily_row) :
  arrangement col asc daily (sort_values col asc daily).
Proof.
  unfold sort_values.
  set (nan_rows := filter (fun r => is_nan (col r)) daily).
  set (non_nan := filter (fun r => negb (is_nan (col r))) daily).
  assert (Hnum : Forall number non_nan).
  { apply Forall_forall. intros r Hr. apply filter_In in Hr.
    destruct Hr as [_ Hr]. apply negb_true_iff in Hr. exact Hr. }
  assert (Hnan : Forall (fun r => is_nan (col r) = true) nan_rows).
  { apply Forall_forall. intros r Hr. apply filter_In in Hr. apply Hr. }
  assert (Hsplit : Permutation daily (non_nan ++ nan_rows))
    by apply filter_split.
  set (sorted := if asc then argsort col non_nan
                 else rev (argsort col (rev non_nan))).
  assert (Hperm : Permutation non_nan sorted).
  { unfold sorted. destruct asc; [apply argsort_perm|].
    eapply Permutation_trans; [apply Permutation_rev|].
    eapply Permutation_trans; [apply argsort_perm|]. apply Permutation_rev. }
  assert (Hnum' : Forall number sorted)
    by (apply (Permutation_Forall Hperm); assumption).
  split.
  - eapply Permutation_trans; [exact Hsplit|].
    apply Permutation_app_tail. assumption.
  - apply sorted_app.
    + unfold sorted. destruct asc.
      * apply argsort_sorted. assumption.
      * assert (Hrev : Forall number (rev non_nan))
          by (apply (Permutation_Forall (Permutation_rev non_nan)); assumption).
        pose proof (sorted_rev _ _ (argsort_sorted _ Hrev)) as S.
        eapply sorted_weaken; [|exact S].
        intros a b Ha Hb Hab. cbv beta in Hab.
        assert (Na : number a).
        { unfold sorted in Hnum'. rewrite Forall_forall in Hnum'.
          apply Hnum'. assumption. }
        assert (Nb : number b).
        { unfold sorted in Hnum'. rewrite Forall_forall in Hnum'.
          apply Hnum'. assumption. }
        unfold up, frame_leb in Hab. unfold frame_leb.
        unfold number in Na, Nb. rewrite Na, Nb in *. exact Hab.
    + clear - Hnan. induction nan_rows as [|r rest IH]; constructor.
      * apply IH. inversion Hnan; assumption.
      * inversion Hnan as [|? ? _ Hrest]; subst.
        apply Forall_forall. intros z Hz. rewrite Forall_forall in Hrest.
        unfold frame_leb. rewrite (Hrest z Hz). reflexivity.
    + intros a b _ Hb. rewrite Forall_forall in Hnan.
      unfold frame_leb. rewrite (Hnan b Hb). reflexivity.
Qed.

End SortValues.

(** *** The index *)

(** [N * p / 100], floored, for a percentile [p] written as a fraction *)
Lemma Qfloor_percent (n a : Z) (b : positive) :
  Qfloor (inject_Z n * (a # b) / 100) = (n * a / Z.pos (b * 100))%Z.
Proof.
  unfold Qfloor, Qdiv, Qmult, Qinv, inject_Z. cbn [Qnum Qden].
  rewrite Z.mul_1_r, Pos.mul_1_l. reflexivity.
Qed.

(** the four quotients [pct / 100.0] of the program *)
Lemma quotient_0_4 :
  fdiv pct_0_4 (of_Z 100) = PFin (1152921504606847 # 288230376151711744).
Proof. vm_compute. reflexivity. Qed.

Lemma quotient_1_0 :
  fdiv pct_1_0 (of_Z 100) = PFin (5764607523034235 # 576460752303423488).
Proof. vm_compute. reflexivity. Qed.

Lemma quotient_99_6 :
  fdiv pct_99_6 (of_Z 100) = PFin (2242792614430507 # 2251799813685248).
Proof. vm_compute. reflexivity. Qed.

Lemma quotient_99_0 :
  fdiv pct_99_0 (of_Z 100) = PFin (4458563631096791 # 4503599627370496).
Proof. vm_compute. reflexivity. Qed.

Ltac constant_bound := apply Qle_bool_iff; vm_compute; reflexivity.

(** For the four percentiles of the program the binary64 product,
    truncated, is the floor of the exact product, and it lies inside the
    frame. *)
Lemma percentile_index_floor (pct : pyfloat) (p : Q) (n : nat) :
  In (pct, p) [(pct_0_4, 4 # 10); (pct_1_0, 1); (pct_99_6, 996 # 10); (pct_99_0, 99)] ->
  (1 <= Z.of_nat n < 2 ^ 31)%Z ->
  percentile_index n pct = Ok (Qfloor (inject_Z (Z.of_nat n) * p / 100)) /\
  (Z.to_nat (Qfloor (inject_Z (Z.of_nat n) * p / 100)) < n)%nat /\
  (0 <= Qfloor (inject_Z (Z.of_nat n) * p / 100))%Z.
Proof.
  intros Hin Hn. unfold percentile_index.
  assert (Hgen : forall (cq : Q) (a : Z) (b : positive),
    fdiv pct (of_Z 100) = PFin cq -> p = a # b ->
    (0 <= a < Z.pos (b * 100))%Z ->
    (0 < cq)%Q -> (cq <= 1)%Q ->
    (inject_Z a / inject_Z (Z.pos (b * 100)) - cq
       <= cq * (1 # 18014398509481984))%Q ->
    ((cq - inject_Z a / inject_Z (Z.pos (b * 100))) * inject_Z (2 ^ 31)
       + (1 # 1000000) <= 1 / inject_Z (Z.pos (b * 100)))%Q ->
    ((1 # 1000000) <= 1 / inject_Z (Z.pos (b * 100)))%Q ->
    int_of_float (fmul (of_Z (Z.of_nat n)) (fdiv pct (of_Z 100)))
      = Ok (Qfloor (inject_Z (Z.of_nat n) * p / 100)) /\
    (Z.to_nat (Qfloor (inject_Z (Z.of_nat n) * p / 100)) < n)%nat /\
    (0 <= Qfloor (inject_Z (Z.of_nat n) * p / 100))%Z).
  { intros cq a b Hq -> Hab Hc0 Hc1 HA HB HB0.
    rewrite Hq, Qfloor_percent.
    split; [apply PyNumFacts.product_index; try assumption; lia|].
    assert (Hk0 : (0 <= Z.of_nat n * a / Z.pos (b * 100))%Z).
    { apply Z.div_pos; nia. }
    assert (Hk1 : (Z.of_nat n * a / Z.pos (b * 100) < Z.of_nat n)%Z).
    { apply Z.div_lt_upper_bound; nia. }
    split; [lia | assumption]. }
  simpl in Hin.
  destruct Hin as [H | [H | [H | [H | []]]]];
    apply pair_equal_spec in H; destruct H as [<- <-].
  - apply (Hgen _ 4%Z 10%positive quotient_0_4 eq_refl);
      [lia | reflexivity | constant_bound ..].
  - apply (Hgen _ 1%Z 1%positive quotient_1_0 eq_refl);
      [lia | reflexivity | constant_bound ..].
  - apply (Hgen _ 996%Z 10%positive quotient_99_6 eq_refl);
      [lia | reflexivity | constant_bound ..].
  - apply (Hgen _ 99%Z 1%positive quotient_99_0 eq_refl);
      [lia | reflexivity | constant_bound ..].
Qed.

End DesignDayFacts.

(** C2, as stated, fails for percentiles other than the four of the
    program: the index is the truncated binary64 product, which can fall
    below the exact floor.  [int(100 * (29 / 100))] is 28 where the floor
    of [100 * 29 / 100] is 29: of a hundred days with the minima 0, 1, ...,
    99 the 29th percentile pick is the day at index 28 of the sorted frame,
    not the day at index 29. *)
Lemma percentile_29_of_100_days :
  DesignDays.percentile_index 100 (PyNum.b64 29) = Ok 28%Z /\
  Qfloor (inject_Z 100 * 29 / 100) = 29%Z /\
  List.length Samples.hundred_days = 100%nat /\
  rmap DesignDays.MinTemp
       (DesignDays.percentile_day (L := Pandas.in_frame_order)
          Samples.hundred_days DesignDays.MinTemp (PyNum.b64 29) true)
  = Ok (PyNum.PFin 28) /\
  option_map DesignDays.MinTemp
       (nth_error (DesignDays.sort_values (L := Pandas.in_frame_order)
                     DesignDays.MinTemp true Samples.hundred_days) 29)
  = Some (PyNum.PFin 29).
Proof. vm_compute. repeat split. Qed.

(** At the percentile 100 the index is the length of the frame:
    [iloc] raises. *)
Example percentile_100_is_out_of_range :
  DesignDays.percentile_index 10 (PyNum.b64 100) = Ok 10%Z /\
  DesignDays.percentile_day (L := Pandas.in_frame_order)
    Samples.ten_days DesignDays.MinTemp (PyNum.b64 100) true
  = Raise IndexError.
Proof. vm_compute. split; reflexivity. Qed.

(** Which of several tied days is picked follows the library: of the ten
    days, whose two coldest, the 3rd and the 4th of January, have the same
    minimum, the 0.4 percentile pick is the 3rd when the sort leaves equal
    keys in the order of the frame and the 4th when it reverses them. *)
Example tied_days_follow_the_library :
  rmap DesignDays.Date
       (DesignDays.percentile_day (L := Pandas.in_frame_order)
          Samples.ten_days DesignDays.MinTemp DesignDays.pct_0_4 true)
  = Ok (DesignDays.mk_date 2016 1 3) /\
  rmap DesignDays.Date
       (DesignDays.percentile_day (L := Pandas.in_reverse_order)
          Samples.ten_days DesignDays.MinTemp DesignDays.pct_0_4 true)
  = Ok (DesignDays.mk_date 2016 1 4).
Proof. vm_compute. split; reflexivity. Qed.

(** C2, amended. For each percentile the program uses (0.4, 1, 99.6,
    99) and every daily frame of [N] dates, [N] at least 1 and below
    [2 ^ 31], [percentile_day] sorts the frame by the target
    metric (ascending or descending as asked, rows without a value last)
    and returns the row at index [floor (N * pct / 100)] of the sorted
    frame, the binary64 product truncated being that floor; the index lies
    inside the frame.  Whatever order the sort gives the rows of equal
    metric, the row at that index has the same metric value (which of
    several tied dates it is follows the library).  For a frame of ten dates
    the 0.4 percentile pick is the row at index 0. *)
Theorem percentile_day_selection {L : Pandas.library}
        (daily : list DesignDays.daily_row)
        (col : DesignDays.daily_row -> PyNum.pyfloat) (asc : bool)
        (pct : PyNum.pyfloat) (p : Q) :
  In (pct, p) [ (DesignDays.pct_0_4, 4 # 10); (DesignDays.pct_1_0, 1);
                (DesignDays.pct_99_6, 996 # 10); (DesignDays.pct_99_0, 99) ] ->
  (1 <= Z.of_nat (List.length daily) < 2 ^ 31)%Z ->
  exists row,
    Spec.arrangement col asc daily (DesignDays.sort_values col asc daily) /\
    DesignDays.percentile_day daily col pct asc = Ok row /\
    nth_error (DesignDays.sort_values col asc daily)
              (Z.to_nat (Qfloor (inject_Z (Z.of_nat (List.length daily)) * p / 100)))
    = Some row /\
    (forall sorted_df,
        Spec.arrangement col asc daily sorted_df ->
        exists row',
          nth_error sorted_df
                    (Z.to_nat (Qfloor (inject_Z (Z.of_nat (List.length daily))
                                       * p / 100)))
          = Some row' /\
          Spec.same_metric (col row) (col row')) /\
    (List.length daily = 10%nat -> p = 4 # 10 ->
     nth_error (DesignDays.sort_values col asc daily) 0 = Some row).
Proof.
  intros Hin Hn.
  pose proof (DesignDayFacts.sort_values_arrangement col asc daily) as Harr.
  assert (Hlen : List.length (DesignDays.sort_values col asc daily)
                 = List.length daily).
  { symmetry. apply Permutation_length. apply Harr. }
  destruct (DesignDayFacts.percentile_index_floor pct p (List.length daily) Hin Hn)
    as [Hidx [Hlt Hge]].
  set (idx := Qfloor (inject_Z (Z.of_nat (List.length daily)) * p / 100)) in *.
  destruct (nth_error (DesignDays.sort_values col asc daily) (Z.to_nat idx))
    as [row|] eqn:Hrow;
    [|apply nth_error_None in Hrow; lia].
  exists row. split; [exact Harr|]. split.
  - unfold DesignDays.percentile_day. rewrite Hlen, Hidx. unfold rbind.
    unfold DesignDays.iloc. destruct (Z.ltb_spec idx 0); [lia|].
    unfold list_index. rewrite Hrow. reflexivity.
  - split; [reflexivity|]. split.
    + intros sorted_df Hs.
      destruct (nth_error sorted_df (Z.to_nat idx)) as [row'|] eqn:Hrow'.
      * exists row'. split; [reflexivity|].
        exact (DesignDayFacts.arrangements_agree col asc daily _ _ _ _ _
                 Harr Hs Hrow Hrow').
      * apply nth_error_None in Hrow'.
        destruct Hs as [Hperm _]. apply Permutation_length in Hperm. lia.
    + intros H10 Hp. rewrite <- Hrow. f_equal.
      subst idx. rewrite H10, Hp. reflexivity.
Qed.

Lemma percentile_day_selection_witness :
  exists row,
    Spec.arrangement DesignDays.MinTemp true Samples.ten_days
      (DesignDays.sort_values (L := Pandas.in_frame_order) DesignDays.MinTemp true Samples.ten_days) /\
    DesignDays.percentile_day (L := Pandas.in_frame_order) Samples.ten_days DesignDays.MinTemp
                              DesignDays.pct_0_4 true = Ok row /\
    nth_error (DesignDays.sort_values (L := Pandas.in_frame_order) DesignDays.MinTemp true Samples.ten_days)
              (Z.to_nat (Qfloor (inject_Z (Z.of_nat (List.length Samples.ten_days))
                                 * (4 # 10) / 100)))
    = Some row /\
    (forall sorted_df,
        Spec.arrangement DesignDays.MinTemp true Samples.ten_days sorted_df ->
        exists row',
          nth_error sorted_df
                    (Z.to_nat (Qfloor (inject_Z (Z.of_nat (List.length Samples.ten_days))
                                       * (4 # 10) / 100)))
          = Some row' /\
          Spec.same_metric (DesignDays.MinTemp row) (DesignDays.MinTemp row')) /\
    (List.length Samples.ten_days = 10%nat -> 4 # 10 = 4 # 10 ->
     nth_error (DesignDays.sort_values (L := Pandas.in_frame_order) DesignDays.MinTemp true Samples.ten_days) 0
     = Some row).
Proof.
  apply (percentile_day_selection (L := Pandas.in_frame_order) Samples.ten_days DesignDays.MinTemp true
           DesignDays.pct_0_4 (4 # 10)).
  - left. reflexivity.
  - split; [discriminate | reflexivity].
Defined.

(* ===================================================================== *)
(** * Further properties of the programs *)
(* ===================================================================== *)

(** ** Text *)

Module TextFacts.

Import PyStr Terms.

Local Notation "s +++ t" := (String.append s t) (at level 60, right associativity).

Lemma chars_app (a b : string) : chars (a +++ b) = chars a ++ chars b.
Proof. induction a as [|c a IH]; simpl; [reflexivity | f_equal; exact IH]. Qed.

Lemma split_nonempty (sep : ascii) (s : string) : split sep s <> [].
Proof.
  induction s as [|c s IH]; simpl; [discriminate|].
  destruct (Ascii.eqb c sep); [discriminate|].
  destruct (split sep s); discriminate.
Qed.

Lemma join_cons (sep p q : string) (l : list string) :
  join sep (p :: q :: l) = p +++ sep +++ join sep (q :: l).
Proof. reflexivity. Qed.

(** [sep.join(s.split(sep))] is [s] *)
Lemma join_split (sep : ascii) (s : string) :
  join (String sep EmptyString) (split sep s) = s.
Proof.
  induction s as [|c s IH]; [reflexivity|].
  cbn [split]. destruct (Ascii.eqb_spec c sep) as [->|Hc].
  - pose proof (split_nonempty sep s) as Hne.
    destruct (split sep s) as [|h r]; [contradiction|].
    rewrite join_cons, IH. reflexivity.
  - destruct (split sep s) as [|h r] eqn:Hs; [exfalso; eapply split_nonempty; eassumption|].
    destruct r as [|h' r'].
    + cbn [join] in *. rewrite <- IH. reflexivity.
    + rewrite join_cons in *. rewrite <- IH. reflexivity.
Qed.

Lemma comma_free_cons (c : ascii) (s : string) :
  comma_free (String c s) = negb (Ascii.eqb "," c) && comma_free s.
Proof. unfold comma_free. cbn. rewrite negb_orb. reflexivity. Qed.

(** a label without comma is the first part of the split *)
Lemma split_label (label rest : string) :
  comma_free label = true ->
  split "," (label +++ String "," rest) = label :: split "," rest.
Proof.
  induction label as [|c label IH]; intros H.
  - reflexivity.
  - rewrite comma_free_cons in H. apply andb_true_iff in H. destruct H as [Hc Hl].
    cbn [String.append split]. rewrite Ascii.eqb_sym.
    apply negb_true_iff in Hc. rewrite Hc. rewrite (IH Hl). reflexivity.
Qed.

Lemma split_comma_free (s : string) : comma_free s = true -> split "," s = [s].
Proof.
  induction s as [|c s IH]; intros H; [reflexivity|].
  rewrite comma_free_cons in H. apply andb_true_iff in H. destruct H as [Hc Hl].
  cbn [split]. rewrite Ascii.eqb_sym. apply negb_true_iff in Hc. rewrite Hc.
  rewrite (IH Hl). reflexivity.
Qed.

Lemma split1_last_label (label rest : string) :
  comma_free label = true ->
  split1_last "," (label +++ String "," rest) = rest.
Proof.
  induction label as [|c label IH]; intros H.
  - reflexivity.
  - rewrite comma_free_cons in H. apply andb_true_iff in H. destruct H as [Hc Hl].
    cbn [String.append split1_last]. rewrite Ascii.eqb_sym.
    apply negb_true_iff in Hc. rewrite Hc.
    assert (Hex : existsb (Ascii.eqb ",")
                    (list_ascii_of_string (label +++ String "," rest)) = true).
    { change (existsb (Ascii.eqb ",") (chars (label +++ String "," rest)) = true).
      rewrite chars_app, existsb_app. cbn. apply orb_true_r. }
    rewrite Hex. apply IH. assumption.
Qed.

Lemma split1_last_comma_free (s : string) :
  comma_free s = true -> split1_last "," s = s.
Proof.
  destruct s as [|c s]; intros H; [reflexivity|].
  rewrite comma_free_cons in H. apply andb_true_iff in H. destruct H as [Hc Hl].
  cbn [split1_last]. rewrite Ascii.eqb_sym. apply negb_true_iff in Hc. rewrite Hc.
  unfold comma_free, chars in Hl. apply negb_true_iff in Hl. rewrite Hl. reflexivity.
Qed.

(** *** [strip] *)

Section Strip.

Variable sp : ascii -> bool.

Lemma lstrip_keeps (c : ascii) (s : string) :
  sp c = false -> lstrip_by sp (String c s) = String c s.
Proof. intros H. cbn. rewrite H. reflexivity. Qed.

Lemma rstrip_cons_nonspace (c : ascii) (s : string) :
  sp c = false -> exists t, rstrip_by sp (String c s) = String c t.
Proof.
  intros H. cbn [rstrip_by]. destruct (rstrip_by sp s) as [|d t].
  - rewrite H. eexists; reflexivity.
  - eexists; reflexivity.
Qed.

Lemma rstrip_cons_nonempty (x : ascii) (s : string) :
  rstrip_by sp s <> EmptyString ->
  rstrip_by sp (String x s) = String x (rstrip_by sp s).
Proof.
  intros H. cbn [rstrip_by]. destruct (rstrip_by sp s); [contradiction | reflexivity].
Qed.

Lemma rstrip_app_nonspace (a : string) (c : ascii) (s : string) :
  sp c = false ->
  rstrip_by sp (a +++ String c s) = a +++ rstrip_by sp (String c s).
Proof.
  intros H. destruct (rstrip_cons_nonspace c s H) as [t Ht].
  induction a as [|x a IH]; [reflexivity|].
  change (String x a +++ String c s) with (String x (a +++ String c s)).
  rewrite rstrip_cons_nonempty; rewrite IH; [reflexivity|].
  rewrite Ht. destruct a; discriminate.
Qed.

Lemma lstrip_head (s : string) :
  match lstrip_by sp s with String c _ => sp c = false | EmptyString => True end.
Proof.
  induction s as [|c s IH]; cbn; [exact I|].
  destruct (sp c) eqn:Hc; [exact IH | exact Hc].
Qed.

Lemma rstrip_head (s : string) :
  match s with String c _ => sp c = false | EmptyString => True end ->
  match rstrip_by sp s with String c _ => sp c = false | EmptyString => True end.
Proof.
  destruct s as [|c s]; intros H; cbn [rstrip_by]; [exact I|].
  destruct (rstrip_by sp s); [rewrite H|]; exact H.
Qed.

Lemma In_lstrip (c : ascii) (s : string) :
  In c (chars (lstrip_by sp s)) -> In c (chars s).
Proof.
  induction s as [|x s IH]; cbn; [tauto|].
  destruct (sp x); [intros H; right; apply IH; exact H | intros H; exact H].
Qed.

Lemma In_rstrip (c : ascii) (s : string) :
  In c (chars (rstrip_by sp s)) -> In c (chars s).
Proof.
  induction s as [|x s IH]; cbn [rstrip_by]; [tauto|].
  destruct (rstrip_by sp s) as [|y t].
  - destruct (sp x); cbn; [tauto|]. intros [H|[]]. left. exact H.
  - cbn. intros [H|H]; [left; exact H | right; apply IH; cbn; exact H].
Qed.

Lemma In_strip (c : ascii) (s : string) :
  In c (chars (strip_by sp s)) -> In c (chars s).
Proof. intros H. apply In_lstrip, In_rstrip. exact H. Qed.

Lemma lstrip_In (c : ascii) (s : string) :
  In c (chars s) -> sp c = true \/ In c (chars (lstrip_by sp s)).
Proof.
  induction s as [|x s IH]; cbn; [tauto|].
  intros [H|H].
  - subst x. destruct (sp c); [left; reflexivity | right; left; reflexivity].
  - destruct (sp x); [apply IH; exact H | right; right; exact H].
Qed.

Lemma rstrip_In (c : ascii) (s : string) :
  In c (chars s) -> sp c = true \/ In c (chars (rstrip_by sp s)).
Proof.
  induction s as [|x s IH]; cbn [rstrip_by]; [cbn; tauto|].
  cbn [chars list_ascii_of_string]. intros [H|H].
  - subst x. destruct (rstrip_by sp s).
    + destruct (sp c); [left; reflexivity | right; left; reflexivity].
    + right. left. reflexivity.
  - destruct (IH H) as [Hs|Hin]; [left; exact Hs|].
    destruct (rstrip_by sp s) as [|y t]; [destruct Hin|].
    right. right. exact Hin.
Qed.

Lemma strip_In (c : ascii) (s : string) :
  In c (chars s) -> sp c = true \/ In c (chars (strip_by sp s)).
Proof.
  intros H. destruct (lstrip_In c s H) as [Hs|Hl]; [left; exact Hs|].
  apply rstrip_In. exact Hl.
Qed.

End Strip.

Lemma ends_with_space_rstrip (s : string) :
  ends_with_space (rstrip_by isspace s) = false.
Proof.
  induction s as [|c s IH]; [reflexivity|].
  cbn [rstrip_by]. destruct (rstrip_by isspace s) as [|d t].
  - destruct (isspace c) eqn:Hc; [reflexivity | cbn; exact Hc].
  - exact IH.
Qed.

(** what [strip] returns has no white space at either end *)
Lemma strip_trimmed (s : string) : trimmed (strip s).
Proof.
  split.
  - unfold strip, strip_by.
    pose proof (rstrip_head isspace (lstrip_by isspace s) (lstrip_head isspace s)) as H.
    destruct (rstrip_by isspace (lstrip_by isspace s)); [reflexivity | exact H].
  - apply ends_with_space_rstrip.
Qed.

(** a text that starts with characters other than white space keeps them
    when stripped *)
Lemma strip_keeps_prefix (a : string) (c : ascii) (s : string) :
  starts_with_space (a +++ String c s) = false -> isspace c = false ->
  exists t, strip (a +++ String c s) = a +++ String c t.
Proof.
  intros Hhead Hc. unfold strip, strip_by.
  assert (Hl : lstrip_by isspace (a +++ String c s) = a +++ String c s).
  { destruct a as [|x a]; cbn in Hhead |- *; rewrite Hhead; reflexivity. }
  rewrite Hl, (rstrip_app_nonspace isspace a c s Hc).
  destruct (rstrip_cons_nonspace isspace c s Hc) as [t ->].
  exists t. reflexivity.
Qed.

End TextFacts.

(** ** The EPW header *)

(** X1. A line that begins [DESIGN CONDITIONS,] is stored in
    [design_conditions_data] with, as [raw_data], everything that follows
    the first comma, unchanged up to and including the end of the line:
    [','.join(parts[1:])] of [line.split(',')] puts the text back
    together. *)
Theorem design_conditions_kept_verbatim (rest : string) (location_id : Z)
        (c : Db.conn) :
  Epw.dispatch Epw.metadata_handlers (String.append "DESIGN CONDITIONS," rest)
               location_id c
  = (Ok tt,
     Db.commit (Db.execute_insert (Db.DesignConditionsRow location_id rest) c)).
Proof.
  unfold Epw.metadata_handlers. cbn [Epw.dispatch].
  change (String.append "DESIGN CONDITIONS," rest)
    with (String.append "DESIGN CONDITIONS" (String "," rest)).
  destruct (TextFacts.strip_keeps_prefix "DESIGN CONDITIONS" "," rest
              eq_refl eq_refl) as [t Ht].
  rewrite Ht.
  change (String.append "DESIGN CONDITIONS" (String "," t))
    with (String.append "DESIGN CONDITIONS," t).
  unfold PyStr.startswith. rewrite EpwFacts.prefix_append.
  unfold Epw.parse_design_conditions.
  rewrite (TextFacts.split_label "DESIGN CONDITIONS" rest eq_refl).
  cbn [tl]. rewrite (TextFacts.join_split "," rest).
  reflexivity.
Qed.

(** X2. The comment fields of the header are read from the lines of
    index 5 and 6: each is the stripped line without its label, that is
    what follows the first comma; a line without a comma is kept whole,
    label included; a file too short to have the line gives the empty
    text. *)
Theorem comment_fields (lines : list string) (meta : Db.header) (idx : nat) :
  Epw.parse_epw_header lines = Ok (meta, idx) ->
  forall k field,
    In (k, field) [ (5%nat, Db.comment_1 meta); (6%nat, Db.comment_2 meta) ] ->
    match nth_error lines k with
    | None => field = EmptyString
    | Some line =>
        (Terms.comma_free (PyStr.strip line) = true -> field = PyStr.strip line) /\
        (forall label text,
            PyStr.strip line = String.append label (String "," text) ->
            Terms.comma_free label = true -> field = text)
    end.
Proof.
  intros H k field Hin.
  assert (Hfield : field = Epw.comment_line lines k).
  { unfold Epw.parse_epw_header in H. repeat bind_ok H. apply Ok_inj in H.
    apply pair_equal_spec in H. destruct H as [<- _].
    destruct Hin as [Hk | [Hk | []]]; apply pair_equal_spec in Hk;
      destruct Hk as [<- <-]; reflexivity. }
  subst field. unfold Epw.comment_line.
  destruct (nth_error lines k) as [line|]; [|reflexivity].
  split.
  - apply TextFacts.split1_last_comma_free.
  - intros label text Hs Hl. rewrite Hs.
    apply TextFacts.split1_last_label. assumption.
Qed.

Lemma comment_fields_witness :
  Db.comment_1 Samples.toronto = "Custom/User Format" /\
  Db.comment_2 Samples.toronto
  = " -- Ground temps produced with a standard soil diffusivity".
Proof.
  assert (H : Epw.parse_epw_header Samples.header_lines = Ok (Samples.toronto, 8%nat))
    by (vm_compute; reflexivity).
  split.
  - apply (proj2 (comment_fields Samples.header_lines Samples.toronto 8 H
                    5%nat _ (or_introl eq_refl)) "COMMENTS 1"); reflexivity.
  - apply (proj2 (comment_fields Samples.header_lines Samples.toronto 8 H
                    6%nat _ (or_intror (or_introl eq_refl))) "COMMENTS 2");
      reflexivity.
Defined.

(** X3. In every header [parse_epw_header] returns, the station name, the
    state or province, the country, the source type and the WMO station
    id carry no white space at either end. *)
Theorem header_text_is_trimmed (lines : list string) (meta : Db.header) (idx : nat) :
  Epw.parse_epw_header lines = Ok (meta, idx) ->
  Terms.trimmed (Db.station_name meta) /\
  Terms.trimmed (Db.state_province meta) /\
  Terms.trimmed (Db.country meta) /\
  Terms.trimmed (Db.source_type meta) /\
  Terms.trimmed (Db.wmo_station_id meta).
Proof.
  intros H. unfold Epw.parse_epw_header in H. repeat bind_ok H.
  apply Ok_inj in H. apply pair_equal_spec in H. destruct H as [<- _].
  cbn [Db.station_name Db.state_province Db.country Db.source_type
       Db.wmo_station_id].
  assert (Hs : forall fields k f, Epw.stripped_field fields k = Ok f -> Terms.trimmed f).
  { intros fields k f Hf. unfold Epw.stripped_field, rmap in Hf.
    bind_ok Hf. apply Ok_inj in Hf. subst f. apply TextFacts.strip_trimmed. }
  repeat split; eapply Hs; eassumption.
Qed.

Lemma header_text_is_trimmed_witness :
  Terms.trimmed (Db.station_name Samples.toronto) /\
  Terms.trimmed (Db.state_province Samples.toronto) /\
  Terms.trimmed (Db.country Samples.toronto) /\
  Terms.trimmed (Db.source_type Samples.toronto) /\
  Terms.trimmed (Db.wmo_station_id Samples.toronto).
Proof.
  apply (header_text_is_trimmed Samples.header_lines Samples.toronto 8).
  vm_compute. reflexivity.
Defined.

(** X4. [parse_epw_header] returns exactly for the files that have a first
    line of at least ten comma-separated fields in which each of the
    fields of index 6 to 9 (latitude, longitude, time zone, elevation) is
    blank or a text [float()] accepts; for every other input it raises. *)
Theorem header_is_read_exactly_when (lines : list string) :
  (exists meta idx, Epw.parse_epw_header lines = Ok (meta, idx)) <->
  (exists line0,
      nth_error lines 0 = Some line0 /\
      (10 <= List.length (PyStr.split "," line0))%nat /\
      forall k field,
        (6 <= k <= 9)%nat ->
        nth_error (PyStr.split "," line0) k = Some field ->
        PyStr.strip field = EmptyString \/ PyNum.parse_float field <> None).
Proof.
  split.
  - intros [meta [idx H]]. unfold Epw.parse_epw_header in H.
    unfold list_index at 1 in H.
    destruct (nth_error lines 0) as [line0|] eqn:H0; [|discriminate].
    unfold rbind at 1 in H. exists line0. split; [reflexivity|].
    repeat bind_ok H.
    assert (Hf : forall k f,
               Epw.float_field (PyStr.split "," line0) k = Ok f ->
               (k < List.length (PyStr.split "," line0))%nat /\
               forall field, nth_error (PyStr.split "," line0) k = Some field ->
                 PyStr.strip field = EmptyString \/ PyNum.parse_float field <> None).
    { intros k f Hk. unfold Epw.float_field, list_index in Hk.
      destruct (nth_error (PyStr.split "," line0) k) as [g|] eqn:Hg; [|discriminate].
      split; [apply nth_error_Some; congruence|].
      intros field Hfield. injection Hfield as <-.
      unfold rbind in Hk. destruct (PyStr.strip g) as [|c s]; [left; reflexivity|].
      right. cbn [PyStr.truthy] in Hk. unfold PyNum.py_float in Hk.
      destruct (PyNum.parse_float g); [discriminate | discriminate]. }
    split.
    + match goal with
      | E : Epw.float_field _ 9 = Ok _ |- _ => destruct (Hf _ _ E) as [Hlen _]; lia
      end.
    + intros k field Hk Hfield.
      assert (Hcase : k = 6%nat \/ k = 7%nat \/ k = 8%nat \/ k = 9%nat) by lia.
      destruct Hcase as [-> | [-> | [-> | ->]]];
        match goal with
        | E : Epw.float_field _ ?n = Ok _ |- _ =>
            match type of Hfield with
            | nth_error _ n = _ => exact (proj2 (Hf _ _ E) field Hfield)
            end
        end.
  - intros [line0 [H0 [Hlen Hnum]]].
    destruct (EpwFacts.parse_epw_header_returns lines line0 H0 Hlen) as [meta Hmeta].
    + intros k Hk. unfold Epw.float_field, list_index.
      destruct (nth_error (PyStr.split "," line0) k) as [field|] eqn:Hfield.
      * unfold rbind. destruct (Hnum k field Hk Hfield) as [Hb | Hp].
        -- rewrite Hb. reflexivity.
        -- destruct (PyStr.truthy (PyStr.strip field)); [|reflexivity].
           unfold PyNum.py_float. destruct (PyNum.parse_float field);
             [reflexivity | contradiction].
      * apply nth_error_None in Hfield. lia.
    + exists meta, (Epw.data_start_idx lines). exact Hmeta.
Qed.

(** ** The hourly decoder *)

Module DecoderFacts.

Import PyStr PyNum Hourly Terms.

(** a text [float()] accepts begins, behind its white space, with a sign,
    a digit, a point or one of the letters i and n *)
Lemma lower_char_start (c : ascii) :
  float_start c = false ->
  Ascii.eqb (lower_char c) "i" = false /\ Ascii.eqb (lower_char c) "n" = false /\
  is_digit c = false /\ Ascii.eqb c "." = false /\
  Ascii.eqb c "-" = false /\ Ascii.eqb c "+" = false.
Proof.
  destruct c as [[] [] [] [] [] [] [] []]; vm_compute; intros H;
    try discriminate H; repeat split.
Qed.

Lemma parse_float_start (s : string) (f : pyfloat) :
  parse_float s = Some f ->
  exists c, first_char (number_text s) = Some c /\ float_start c = true.
Proof.
  unfold parse_float. destruct (number_text s) as [|c t].
  - vm_compute. discriminate.
  - intros H. exists c. split; [reflexivity|].
    destruct (float_start c) eqn:Hc; [reflexivity | exfalso].
    destruct (lower_char_start c Hc) as [Hi [Hn [Hd [Hp [Hm Hpl]]]]].
    assert (Hsign : sign_of (String c t) = (false, String c t)).
    { unfold sign_of.
      destruct c as [[] [] [] [] [] [] [] []]; try reflexivity; discriminate. }
    rewrite Hsign in H. cbn [lower] in H.
    assert (Hinf : String.eqb (String (lower_char c) (lower t)) "inf" = false)
      by (cbn; rewrite Hi; reflexivity).
    assert (Hinfinity : String.eqb (String (lower_char c) (lower t)) "infinity" = false)
      by (cbn; rewrite Hi; reflexivity).
    assert (Hnan : String.eqb (String (lower_char c) (lower t)) "nan" = false)
      by (cbn; rewrite Hn; reflexivity).
    rewrite Hinf, Hinfinity, Hnan in H. cbn [orb] in H.
    assert (Hnone : floatnumber (String c t) = None).
    { unfold floatnumber.
      assert (Hdp : digitpart (String c t) = None).
      { unfold digitpart. cbn [digits_loop]. rewrite Hd.
        destruct (Ascii.eqb c "_"); [|reflexivity].
        destruct t as [|c2 t2]; [reflexivity|].
        rewrite andb_false_r. reflexivity. }
      rewrite Hdp.
      destruct c as [[] [] [] [] [] [] [] []]; try reflexivity; discriminate. }
    rewrite Hnone in H. discriminate.
Qed.

(** the first character [float()] looks at is the first character
    [strip] leaves, or one of the four separators (code points 28 to 31)
    that [strip] takes for white space and [float()] does not *)
Lemma first_char_number_text (s : string) :
  match first_char (number_text s) with
  | None => True
  | Some c => mem_nat (code c) [28; 29; 30; 31]%nat = true
              \/ first_char (strip s) = Some c
  end.
Proof.
  unfold number_text, strip, strip_by.
  induction s as [|x s IH]; [exact I|].
  cbn [spaces_to_ascii lstrip_by].
  destruct (mem_nat (code x) [133; 160]%nat) eqn:Hx.
  - assert (Hsp : isspace x = true).
    { destruct x as [[] [] [] [] [] [] [] []]; try discriminate Hx; reflexivity. }
    rewrite Hsp. exact IH.
  - destruct (c_isspace x) eqn:Hc.
    + assert (Hsp : isspace x = true).
      { destruct x as [[] [] [] [] [] [] [] []]; try discriminate Hc; reflexivity. }
      rewrite Hsp. exact IH.
    + destruct (TextFacts.rstrip_cons_nonspace c_isspace x
                  (lstrip_by c_isspace (spaces_to_ascii s)) Hc) as [t Ht].
      assert (Hgoal : first_char (rstrip_by c_isspace
                                    (String x (spaces_to_ascii s))) = Some x).
      { destruct (TextFacts.rstrip_cons_nonspace c_isspace x (spaces_to_ascii s) Hc)
          as [t' ->]. reflexivity. }
      rewrite Hgoal.
      destruct (isspace x) eqn:Hsp.
      * left. destruct x as [[] [] [] [] [] [] [] []];
          try discriminate Hsp; try discriminate Hc; try discriminate Hx; reflexivity.
      * right.
        destruct (TextFacts.rstrip_cons_nonspace isspace x s Hsp) as [t' ->].
        reflexivity.
Qed.

(** a token [float()] accepts is not blank and is none of the missing
    value markers *)
Lemma parsed_token_is_no_marker (part : string) (f : pyfloat) :
  parse_float part = Some f ->
  truthy (strip part) = true /\ mem (strip part) missing_markers = false.
Proof.
  intros H. destruct (parse_float_start part f H) as [c [Hc Hstart]].
  pose proof (first_char_number_text part) as Hfirst. rewrite Hc in Hfirst.
  assert (Hhead : first_char (strip part) = Some c).
  { destruct Hfirst as [Hsep | Hhead]; [exfalso | exact Hhead].
    destruct c as [[] [] [] [] [] [] [] []];
      try discriminate Hsep; discriminate Hstart. }
  split.
  - destruct (strip part); [discriminate | reflexivity].
  - destruct (mem (strip part) missing_markers) eqn:Hm; [exfalso | reflexivity].
    apply HourlyFacts.In_mem in Hm. unfold missing_markers in Hm.
    cbn [In] in Hm.
    repeat match goal with
           | Hm : _ \/ _ |- _ => destruct Hm as [Hm | Hm]
           end;
      try contradiction; rewrite <- Hm in Hhead; injection Hhead as <-;
      discriminate Hstart.
Qed.

Lemma int_column_not_5 (j : nat) : int_column j = true -> mem_nat j [5]%nat = false.
Proof.
  intros H. destruct (Nat.eqb_spec j 5) as [->|Hj]; [discriminate H|].
  apply HourlyFacts.column_5_only. assumption.
Qed.

Lemma int_column_in_schema (j : nat) : int_column j = true -> (j < 35)%nat.
Proof.
  unfold int_column, mem_nat. cbn [existsb]. intros H.
  repeat (apply orb_true_iff in H; destruct H as [H|H]);
    try (apply Nat.ltb_lt in H; lia); try (apply Nat.eqb_eq in H; lia); discriminate.
Qed.

(** an infinite token in an integer column raises [OverflowError] *)
Lemma infinite_token_raises (j : nat) (part : string) (negative : bool) :
  int_column j = true -> parse_float part = Some (PInf negative) ->
  decode_field j part = Raise OverflowError.
Proof.
  intros Hj Hp. destruct (parsed_token_is_no_marker part _ Hp) as [Ht Hm].
  unfold decode_field, decode_numeric, py_float.
  rewrite (int_column_not_5 j Hj), Hm, Ht, Hp, Hj. reflexivity.
Qed.

Lemma decode_parts_raise (parts : list string) :
  forall j e,
    decode_parts j parts = Raise e ->
    exists k part, nth_error parts k = Some part /\ decode_field (j + k) part = Raise e.
Proof.
  induction parts as [|p rest IH]; intros j e H; cbn [decode_parts] in H;
    [discriminate|].
  assert (Hlater : decode_parts (S j) rest = Raise e ->
                   exists k part, nth_error (p :: rest) k = Some part
                                  /\ decode_field (j + k) part = Raise e).
  { intros H'. destruct (IH _ _ H') as [k [part [Hk Hf]]].
    exists (S k), part. split; [exact Hk|].
    replace (j + S k)%nat with (S j + k)%nat by lia. exact Hf. }
  destruct (j <? List.length columns)%nat; [|auto].
  destruct (decode_field j p) as [v|e'] eqn:Hf.
  - unfold rbind at 1 in H.
    destruct (decode_parts (S j) rest) as [row|e'] eqn:Hrest; [discriminate|].
    unfold rbind in H. injection H as <-. auto.
  - unfold rbind in H. injection H as <-.
    exists 0%nat, p. rewrite Nat.add_0_r. split; [reflexivity | exact Hf].
Qed.

Lemma decode_parts_raises_at (parts : list string) :
  forall j k part,
    nth_error parts k = Some part -> (j + k < 35)%nat ->
    raised (decode_field (j + k) part) = true ->
    raised (decode_parts j parts) = true.
Proof.
  induction parts as [|p rest IH]; intros j k part Hk Hlt Hr.
  - destruct k; discriminate.
  - cbn [decode_parts].
    destruct (Nat.ltb_spec j (List.length columns)) as [_|Hge];
      [|unfold columns in Hge; cbn in Hge; lia].
    destruct k as [|k].
    + injection Hk as ->. rewrite Nat.add_0_r in Hr.
      destruct (decode_field j part); [discriminate | reflexivity].
    + destruct (decode_field j p); [|reflexivity].
      unfold rbind at 1.
      assert (Hrest : raised (decode_parts (S j) rest) = true).
      { apply (IH (S j) k part Hk); [lia|].
        replace (S j + k)%nat with (j + S k)%nat by lia. exact Hr. }
      destruct (decode_parts (S j) rest); [discriminate | reflexivity].
Qed.

Lemma decode_lines_raise (data_lines : list string) :
  forall i e,
    decode_lines i data_lines = Raise e ->
    exists line, In line data_lines
                 /\ decode_parts 0 (split "," (strip line)) = Raise e.
Proof.
  induction data_lines as [|l rest IH]; intros i e H; cbn [decode_lines] in H;
    [discriminate|].
  unfold decode_line in H.
  destruct (decode_parts 0 (split "," (strip l))) as [row|e'] eqn:Hrow.
  - unfold rbind at 1 2 in H.
    destruct (decode_lines (S i) rest) as [rows|e'] eqn:Hrest; [discriminate|].
    unfold rbind in H. injection H as <-.
    destruct (IH _ _ Hrest) as [line [Hin Hl]].
    exists line. split; [right; exact Hin | exact Hl].
  - unfold rbind in H. injection H as <-.
    exists l. split; [left; reflexivity | exact Hrow].
Qed.

Lemma decode_lines_raises_at (data_lines : list string) (line : string) :
  In line data_lines ->
  raised (decode_parts 0 (split "," (strip line))) = true ->
  forall i, raised (decode_lines i data_lines) = true.
Proof.
  intros Hin Hr. induction data_lines as [|l rest IH]; intros i; [contradiction|].
  cbn [decode_lines]. unfold decode_line.
  destruct Hin as [-> | Hin].
  - destruct (decode_parts 0 (split "," (strip line))); [discriminate | reflexivity].
  - destruct (decode_parts 0 (split "," (strip l))); [|reflexivity].
    unfold rbind at 1 2. specialize (IH Hin (S i)).
    destruct (decode_lines (S i) rest); [discriminate | reflexivity].
Qed.

(** *** the shape of a row *)

Lemma decode_parts_cells (parts : list string) :
  forall j vals,
    decode_parts j parts = Ok vals ->
    List.length vals = Nat.min (35 - j) (List.length parts) /\
    forall k part,
      nth_error parts k = Some part -> (j + k < 35)%nat ->
      exists v, nth_error vals k = Some v /\ decode_field (j + k) part = Ok v.
Proof.
  induction parts as [|p rest IH]; intros j vals H; cbn [decode_parts] in H.
  - apply Ok_inj in H. subst vals. split; [cbn; lia|].
    intros k part Hk. destruct k; discriminate.
  - destruct (Nat.ltb_spec j (List.length columns)) as [Hlt|Hge];
      unfold columns in *; cbn [List.length] in *.
    + bind_ok H. bind_ok H. apply Ok_inj in H. subst vals.
      match goal with
      | E : decode_parts (S j) rest = Ok ?row |- _ =>
          destruct (IH _ _ E) as [Hlen Hnth]
      end.
      split; [cbn [List.length]; rewrite Hlen; lia|].
      intros k part Hk Hjk. destruct k as [|k].
      * injection Hk as ->. rewrite Nat.add_0_r. eexists. split; [reflexivity|assumption].
      * destruct (Hnth k part Hk ltac:(lia)) as [w [Hw Hf]].
        exists w. split; [exact Hw|].
        replace (j + S k)%nat with (S j + k)%nat by lia. exact Hf.
    + destruct (IH _ _ H) as [Hlen Hnth]. split; [rewrite Hlen; lia|].
      intros k part Hk Hjk. lia.
Qed.

Lemma combine_keys {A B : Type} (l : list A) (l' : list B) :
  map fst (combine l l') = firstn (List.length l') l.
Proof.
  revert l'. induction l as [|a l IH]; intros [|b l']; cbn; try reflexivity.
  f_equal. apply IH.
Qed.

Lemma firstn_min {A : Type} (l : list A) (n : nat) :
  firstn (Nat.min (List.length l) n) l = firstn n l.
Proof.
  destruct (Nat.le_ge_cases n (List.length l)) as [H|H].
  - rewrite Nat.min_r by assumption. reflexivity.
  - rewrite Nat.min_l by assumption.
    rewrite firstn_all, firstn_all2 by assumption. reflexivity.
Qed.

Lemma columns_distinct : NoDup columns.
Proof.
  unfold columns.
  repeat (constructor; [cbv [In]; intuition discriminate|]). constructor.
Qed.

Lemma cell_combine (cols : list string) :
  forall (vals : list value) (j : nat) (col : string) (v : value)
         (rest : row_dict),
    NoDup cols -> nth_error cols j = Some col -> nth_error vals j = Some v ->
    cell (combine cols vals ++ rest) col = v.
Proof.
  induction cols as [|c cols IH]; intros vals j col v rest Hnd Hc Hv.
  - destruct j; discriminate.
  - destruct vals as [|w vals]; [destruct j; discriminate|].
    inversion Hnd as [|? ? Hnotin Hnd']; subst.
    destruct j as [|j]; cbn in Hc, Hv.
    + injection Hc as ->. injection Hv as ->. cbn. rewrite String.eqb_refl. reflexivity.
    + cbn [combine app cell].
      destruct (String.eqb_spec c col) as [->|Hne].
      * exfalso. apply Hnotin. eapply nth_error_In. eassumption.
      * eapply IH; eassumption.
Qed.

Lemma decode_field_kind (j : nat) (part : string) (v : value) :
  decode_field j part = Ok v ->
  match v with
  | VStr s => j = 5%nat /\ s = part
  | VInt z => j <> 5%nat /\ (int_column j = true \/ (z = 0%Z /\ strip part = EmptyString))
  | VFloat f => j <> 5%nat /\ int_column j = false /\ parse_float part = Some f
  | VNone => j <> 5%nat
  end.
Proof.
  unfold decode_field.
  destruct (Nat.eqb_spec j 5) as [->|Hj].
  - cbn. intros H. apply Ok_inj in H. subst v. split; reflexivity.
  - rewrite (HourlyFacts.column_5_only j Hj). cbn [negb].
    unfold decode_numeric, py_float.
    destruct (mem (strip part) missing_markers).
    + cbn. intros H. apply Ok_inj in H. subst v. exact Hj.
    + destruct (strip part) as [|c s] eqn:Hs; cbn [truthy].
      * cbn [rbind]. destruct (int_column j) eqn:Hi; cbn; intros H;
          apply Ok_inj in H; subst v; split; auto.
      * destruct (parse_float part) as [f|]; cbn [rmap rbind].
        -- destruct (int_column j) eqn:Hi.
           ++ destruct f as [q|s'|]; cbn; intros H; try discriminate H;
                apply Ok_inj in H; subst v; [split; auto | exact Hj].
           ++ cbn. intros H. apply Ok_inj in H. subst v. auto.
        -- cbn. intros H. apply Ok_inj in H. subst v. exact Hj.
Qed.

End DecoderFacts.

(** X5. [create_hourly_dataframe] raises exactly when some line holds, in
    one of the integer columns (Year, Month, Day, Hour, Minute,
    WindDirection, TotalSkyCover, OpaqueSkyCover, PresentWeatherObservation,
    PresentWeatherCodes, DaysSinceLastSnowfall), a token that [float()]
    reads as an infinity, such as [inf] or [1e999]; the exception is then
    [OverflowError], and no other exception leaves the decoder. *)
Theorem hourly_decoder_raises_exactly_when (data_lines : list string) :
  (forall e, Hourly.create_hourly_dataframe data_lines = Raise e -> e = OverflowError) /\
  (raised (Hourly.create_hourly_dataframe data_lines) = true <->
   exists line k part negative,
     In line data_lines /\
     nth_error (PyStr.split "," (PyStr.strip line)) k = Some part /\
     Hourly.int_column k = true /\
     PyNum.parse_float part = Some (PyNum.PInf negative)).
Proof.
  unfold Hourly.create_hourly_dataframe.
  assert (Hraise : forall e,
             Hourly.decode_lines 0 data_lines = Raise e ->
             e = OverflowError /\
             exists line k part negative,
               In line data_lines /\
               nth_error (PyStr.split "," (PyStr.strip line)) k = Some part /\
               Hourly.int_column k = true /\
               PyNum.parse_float part = Some (PyNum.PInf negative)).
  { intros e H.
    destruct (DecoderFacts.decode_lines_raise _ _ _ H) as [line [Hin Hl]].
    destruct (DecoderFacts.decode_parts_raise _ _ _ Hl) as [k [part [Hk Hf]]].
    cbn [Nat.add] in Hf.
    destruct (HourlyFacts.decode_field_raises k part e Hf) as [He [Hint [negative Hinf]]].
    split; [exact He|]. exists line, k, part, negative. auto. }
  split; [intros e H; apply (Hraise e H)|]. split.
  - intros H. destruct (Hourly.decode_lines 0 data_lines) as [rows|e] eqn:Hd;
      [discriminate|].
    apply (Hraise e eq_refl).
  - intros [line [k [part [negative [Hin [Hk [Hint Hinf]]]]]]].
    apply (DecoderFacts.decode_lines_raises_at data_lines line Hin).
    apply (DecoderFacts.decode_parts_raises_at _ 0 k part Hk).
    + cbn [Nat.add]. apply DecoderFacts.int_column_in_schema. exact Hint.
    + cbn [Nat.add].
      rewrite (DecoderFacts.infinite_token_raises k part negative Hint Hinf).
      reflexivity.
Qed.

(** X6. The record decoded from a line has, as keys, the first column
    names, one per comma-separated field of the stripped line and 35 at
    most, followed by [hour_index]: a line with fewer than 35 fields gives
    a record without the remaining columns.  Under each column the record
    holds what its field decodes to: the field itself, as text, under
    DataFlags; an [int] or [None] under an integer column; a [float],
    [None], or the [int] 0 of a blank field under every other column. *)
Theorem hourly_record_shape (i : nat) (line : string) (row : Hourly.row_dict) :
  Hourly.decode_line i line = Ok row ->
  map fst row
  = firstn (List.length (PyStr.split "," (PyStr.strip line))) Hourly.columns
    ++ ["hour_index"] /\
  forall j col part,
    nth_error Hourly.columns j = Some col ->
    nth_error (PyStr.split "," (PyStr.strip line)) j = Some part ->
    match Hourly.cell row col with
    | Hourly.VStr s => j = 5%nat /\ s = part
    | Hourly.VInt z =>
        j <> 5%nat /\
        (Hourly.int_column j = true \/ (z = 0%Z /\ PyStr.strip part = EmptyString))
    | Hourly.VFloat f =>
        j <> 5%nat /\ Hourly.int_column j = false /\ PyNum.parse_float part = Some f
    | Hourly.VNone => j <> 5%nat
    end.
Proof.
  unfold Hourly.decode_line. intros H. bind_ok H. apply Ok_inj in H. subst row.
  match goal with
  | E : Hourly.decode_parts 0 _ = Ok ?vals |- _ =>
      destruct (DecoderFacts.decode_parts_cells _ _ _ E) as [Hlen Hnth]
  end.
  split.
  - rewrite map_app, DecoderFacts.combine_keys, Hlen.
    change (35 - 0)%nat with (List.length Hourly.columns).
    rewrite DecoderFacts.firstn_min. reflexivity.
  - intros j col part Hcol Hpart.
    assert (Hj : (j < 35)%nat).
    { change 35%nat with (List.length Hourly.columns).
      apply nth_error_Some. congruence. }
    destruct (Hnth j part Hpart Hj) as [w [Hw Hf]]. cbn [Nat.add] in Hf.
    rewrite (DecoderFacts.cell_combine Hourly.columns _ j col w _
               DecoderFacts.columns_distinct Hcol Hw).
    apply (DecoderFacts.decode_field_kind j part w Hf).
Qed.

Lemma hourly_record_shape_witness :
  exists row,
    Hourly.decode_line 0 "1998,1,1,1,60,A7, -3.5,,*" = Ok row /\
    map fst row
    = [ "Year"; "Month"; "Day"; "Hour"; "Minute"; "DataFlags"; "DryBulb";
        "DewPoint"; "RH"; "hour_index" ].
Proof.
  destruct (Hourly.decode_line 0 "1998,1,1,1,60,A7, -3.5,,*") as [row|e] eqn:H.
  - exists row. split; [reflexivity|].
    exact (proj1 (hourly_record_shape 0 _ row H)).
  - vm_compute in H. discriminate H.
Defined.

(** ** Header metadata *)

Module MetadataFacts.

Import PyStr PyNum Db Epw Terms.

(** two labels that differ in one of their first two characters are not
    both in front of a text *)
Ltac other_label H :=
  match type of H with
  | startswith ?l _ = true =>
      let c1 := fresh "c" in
      let c2 := fresh "c" in
      let t := fresh "t" in
      unfold startswith in *;
      destruct l as [|c1 t]; [discriminate H|];
      cbn [String.prefix] in H;
      match type of H with
      | context [ascii_dec ?a c1] =>
          destruct (ascii_dec a c1) as [<-|]; [|discriminate H]
      end;
      destruct t as [|c2 t]; [discriminate H|];
      cbn [String.prefix] in H;
      match type of H with
      | context [ascii_dec ?a c2] =>
          destruct (ascii_dec a c2) as [<-|]; [|discriminate H]
      end
  end.

Lemma first_label (l : string) :
  (startswith l "TYPICAL/EXTREME PERIODS," = true ->
   startswith l "DESIGN CONDITIONS," = false) /\
  (startswith l "GROUND TEMPERATURES," = true ->
   startswith l "DESIGN CONDITIONS," = false /\
   startswith l "TYPICAL/EXTREME PERIODS," = false) /\
  (startswith l "HOLIDAYS/DAYLIGHT SAVINGS," = true ->
   startswith l "DESIGN CONDITIONS," = false /\
   startswith l "TYPICAL/EXTREME PERIODS," = false /\
   startswith l "GROUND TEMPERATURES," = false) /\
  (startswith l "DATA PERIODS," = true ->
   startswith l "DESIGN CONDITIONS," = false /\
   startswith l "TYPICAL/EXTREME PERIODS," = false /\
   startswith l "GROUND TEMPERATURES," = false /\
   startswith l "HOLIDAYS/DAYLIGHT SAVINGS," = false).
Proof.
  split; [intros H; other_label H; reflexivity|].
  split; [intros H; other_label H; repeat split; reflexivity|].
  split; [intros H; other_label H; repeat split; reflexivity|].
  intros H; other_label H; repeat split; reflexivity.
Qed.

(** [int_field] of a field the line has raises [ValueError] only, when
    the field is neither blank nor an integer *)
Lemma int_field_raise (parts : list string) (k : nat) (e : exn) :
  (k < List.length parts)%nat ->
  int_field parts k = Raise e ->
  e = ValueError /\
  strip (nth k parts EmptyString) <> EmptyString /\
  parse_int (nth k parts EmptyString) = None.
Proof.
  intros Hk. unfold int_field, list_index.
  destruct (nth_error parts k) as [p|] eqn:Hp;
    [|apply nth_error_None in Hp; lia].
  rewrite (nth_error_nth _ _ EmptyString Hp). unfold rbind.
  destruct (strip p) as [|c s]; cbn [truthy]; [discriminate|].
  unfold py_int. destruct (parse_int p); [discriminate|].
  intros H. injection H as <-. repeat split. discriminate.
Qed.

Lemma py_int_raise (s : string) (e : exn) :
  py_int s = Raise e -> e = ValueError /\ parse_int s = None.
Proof.
  unfold py_int. destruct (parse_int s); [discriminate|].
  intros H. injection H as <-. split; reflexivity.
Qed.

(** the loop over the periods returns, and leaves in the open transaction
    the rows of the periods it has gone through *)
Lemma typical_loop_rows (parts : list string) (location_id : Z) :
  forall n i c,
    typical_loop n (2 + 4 * i) parts location_id c
    = (Ok tt,
       mk_conn (committed c)
               (pending c
                ++ flat_map
                     (fun i =>
                        let idx := (2 + 4 * i)%nat in
                        match typical_dates
                                (strip (nth (idx + 2) parts EmptyString))
                                (strip (nth (idx + 3) parts EmptyString)) with
                        | Ok (Some (sm, sd, em, ed)) =>
                            if forallb sqlite_int [sm; sd; em; ed] then
                              [ TypicalPeriodRow location_id
                                  (strip (nth (idx + 1) parts EmptyString))
                                  (strip (nth idx parts EmptyString)) sm sd em ed ]
                            else []
                        | _ => []
                        end)
                     (seq i (Nat.min n ((List.length parts - 2) / 4 - i))))).
Proof.
  induction n as [|n IH]; intros i c.
  - cbn [typical_loop Nat.min seq flat_map]. rewrite app_nil_r.
    destruct c; reflexivity.
  - cbn [typical_loop].
    destruct (Nat.leb_spec (List.length parts) (2 + 4 * i + 3)) as [Hend|Hmore].
    + assert (Hz : ((List.length parts - 2) / 4 - i = 0)%nat).
      { apply Nat.sub_0_le. apply Nat.lt_succ_r. apply Nat.Div0.div_lt_upper_bound. lia. }
      rewrite Hz, Nat.min_0_r. cbn [seq flat_map]. rewrite app_nil_r.
      destruct c; reflexivity.
    + assert (Hpos : (i < (List.length parts - 2) / 4)%nat).
      { apply Nat.div_le_lower_bound; lia. }
      replace (Nat.min (S n) ((List.length parts - 2) / 4 - i))
        with (S (Nat.min n ((List.length parts - 2) / 4 - S i))) by lia.
      cbn [seq flat_map].
      unfold bind at 1.
      replace (2 + 4 * i + 4)%nat with (2 + 4 * S i)%nat by lia.
      unfold try_except, bind, lift.
      destruct (typical_dates _ _) as [[[[[sm sd] em] ed]|]|e].
      * unfold do_insert. cbn [bound_ints].
        destruct (forallb sqlite_int [sm; sd; em; ed]).
        -- rewrite IH. unfold execute_insert.
           cbn [committed pending]. rewrite <- app_assoc. reflexivity.
        -- unfold ret. rewrite IH. reflexivity.
      * unfold ret. rewrite IH. reflexivity.
      * unfold ret. rewrite IH. reflexivity.
Qed.

End MetadataFacts.

(** X7. The dispatcher of [parse_epw_metadata] looks for the labels in
    the stripped line and hands the line over as it is; the handlers of
    typical periods, ground temperatures, holidays and data periods look
    for their label in that line again.  So a header line with white
    space in front of its label is recognised and then dropped: nothing
    is stored for it and no error is raised. *)
Theorem indented_header_line_is_dropped (label line : string) (location_id : Z)
        (c : Db.conn) :
  In label Terms.checked_labels ->
  PyStr.startswith (PyStr.strip line) (String.append label ",") = true ->
  PyStr.startswith line label = false ->
  Epw.dispatch Epw.metadata_handlers line location_id c = (Ok tt, c).
Proof.
  intros Hin Hs Hl. unfold Epw.metadata_handlers. cbn [Epw.dispatch].
  destruct (MetadataFacts.first_label (PyStr.strip line))
    as [Htyp [Hground [Hhol Hdata]]].
  unfold Terms.checked_labels in Hin. cbn [In] in Hin.
  destruct Hin as [<- | [<- | [<- | [<- | []]]]];
    change (String.append ?a ",") with (a ++ ",")%string in Hs; cbn in Hs.
  - rewrite (Htyp Hs), Hs. unfold Epw.parse_typical_periods. rewrite Hl. reflexivity.
  - destruct (Hground Hs) as [-> ->]. rewrite Hs.
    unfold Epw.parse_ground_temps. rewrite Hl. reflexivity.
  - destruct (Hhol Hs) as [-> [-> ->]]. rewrite Hs.
    unfold Epw.parse_holidays_dst. rewrite Hl. reflexivity.
  - destruct (Hdata Hs) as [-> [-> [-> ->]]]. rewrite Hs.
    unfold Epw.parse_data_periods. rewrite Hl. reflexivity.
Qed.

Lemma indented_header_line_is_dropped_witness :
  Epw.dispatch Epw.metadata_handlers
    " GROUND TEMPERATURES,1,.5,,,,1.0,2.0,3.0,4.0,5.0,6.0,7.0,8.0,9.0,10.0,11.0,12.0"
    1 (Db.connect [])
  = (Ok tt, Db.connect []).
Proof.
  apply (indented_header_line_is_dropped "GROUND TEMPERATURES").
  - right. left. reflexivity.
  - reflexivity.
  - reflexivity.
Defined.

(** X8. A header line makes [parse_epw_metadata] raise in four cases
    only, each raised before the handler has written anything.  Three are
    a [ValueError] of [int()]: the count of a TYPICAL/EXTREME PERIODS line
    or of a GROUND TEMPERATURES line is not an integer, or one of the
    three day fields of a HOLIDAYS/DAYLIGHT SAVINGS line is neither blank
    nor an integer.  The fourth is the [OverflowError] of [sqlite3]: the
    three day fields of a HOLIDAYS/DAYLIGHT SAVINGS line are read, and one
    of them is an integer outside 64 bits, which the [INSERT], outside any
    [try], cannot bind.  DESIGN CONDITIONS and DATA PERIODS lines never
    raise. *)
Theorem header_line_errors (line : string) (location_id : Z) (c c' : Db.conn)
        (e : exn) :
  Epw.dispatch Epw.metadata_handlers line location_id c = (Raise e, c') ->
  c' = c /\
  (e = ValueError /\
   ((PyStr.startswith line "TYPICAL/EXTREME PERIODS" = true \/
     PyStr.startswith line "GROUND TEMPERATURES" = true) /\
    PyNum.parse_int (nth 1 (PyStr.split "," line) EmptyString) = None
    \/
    PyStr.startswith line "HOLIDAYS/DAYLIGHT SAVINGS" = true /\
    exists k, (2 <= k <= 4)%nat /\
              PyStr.strip (nth k (PyStr.split "," line) EmptyString) <> EmptyString /\
              PyNum.parse_int (nth k (PyStr.split "," line) EmptyString) = None)
   \/
   e = OverflowError /\
   PyStr.startswith line "HOLIDAYS/DAYLIGHT SAVINGS" = true /\
   (forall k, (2 <= k <= 4)%nat ->
              exists z, Epw.int_field (PyStr.split "," line) k = Ok z) /\
   exists k z, (2 <= k <= 4)%nat /\
               Epw.int_field (PyStr.split "," line) k = Ok z /\
               Db.sqlite_int z = false).
Proof.
  unfold Epw.metadata_handlers. cbn [Epw.dispatch].
  destruct (PyStr.startswith (PyStr.strip line) "DESIGN CONDITIONS,").
  { unfold Epw.parse_design_conditions, Db.bind, Db.do_insert, Db.do_commit.
    cbn [Db.bound_ints forallb]. discriminate. }
  destruct (PyStr.startswith (PyStr.strip line) "TYPICAL/EXTREME PERIODS,").
  { unfold Epw.parse_typical_periods.
    destruct (PyStr.startswith line "TYPICAL/EXTREME PERIODS") eqn:Hl;
      cbn [negb]; [|discriminate].
    destruct (List.length (PyStr.split "," line) <? 3)%nat; [discriminate|].
    unfold Db.bind at 1. unfold Db.lift.
    destruct (PyNum.py_int _) as [n|e'] eqn:Hn.
    - unfold Db.bind. rewrite (MetadataFacts.typical_loop_rows _ _ _ 0).
      unfold Db.do_commit. discriminate.
    - intros H. injection H as <- <-.
      destruct (MetadataFacts.py_int_raise _ _ Hn) as [-> Hp].
      split; [reflexivity|]. left. split; [reflexivity|].
      left. split; [left; first [exact Hl | reflexivity] | exact Hp]. }
  destruct (PyStr.startswith (PyStr.strip line) "GROUND TEMPERATURES,").
  { unfold Epw.parse_ground_temps.
    destruct (PyStr.startswith line "GROUND TEMPERATURES") eqn:Hl;
      cbn [negb]; [|discriminate].
    destruct (List.length (PyStr.split "," line) <? 3)%nat; [discriminate|].
    unfold Db.bind at 1. unfold Db.lift.
    destruct (PyNum.py_int _) as [n|e'] eqn:Hn.
    - unfold Db.bind.
      destruct (IngestFacts.ground_loop_holds location_id (PyStr.split "," line)
                  (Z.to_nat n) 0%nat c) as [c1 [-> _]].
      unfold Db.do_commit. discriminate.
    - intros H. injection H as <- <-.
      destruct (MetadataFacts.py_int_raise _ _ Hn) as [-> Hp].
      split; [reflexivity|]. left. split; [reflexivity|].
      left. split; [right; first [exact Hl | reflexivity] | exact Hp]. }
  destruct (PyStr.startswith (PyStr.strip line) "HOLIDAYS/DAYLIGHT SAVINGS,").
  { unfold Epw.parse_holidays_dst.
    destruct (PyStr.startswith line "HOLIDAYS/DAYLIGHT SAVINGS") eqn:Hl;
      cbn [negb]; [|discriminate].
    destruct (Nat.ltb_spec (List.length (PyStr.split "," line)) 5) as [|Hlen];
      [discriminate|].
    unfold Db.bind, Db.lift, Db.do_insert, Db.do_commit.
    assert (Hcase : forall k e', (2 <= k <= 4)%nat ->
               Epw.int_field (PyStr.split "," line) k = Raise e' ->
               e' = ValueError /\
               exists k, (2 <= k <= 4)%nat /\
                 PyStr.strip (nth k (PyStr.split "," line) EmptyString) <> EmptyString /\
                 PyNum.parse_int (nth k (PyStr.split "," line) EmptyString) = None).
    { intros k e' Hk He.
      assert (Hlt : (k < List.length (PyStr.split "," line))%nat) by lia.
      destruct (MetadataFacts.int_field_raise _ k e' Hlt He) as [-> [Hb Hp]].
      split; [reflexivity|]. exists k. auto. }
    destruct (Epw.int_field _ 2) as [a|e2] eqn:H2.
    - destruct (Epw.int_field _ 3) as [b|e3] eqn:H3.
      + destruct (Epw.int_field _ 4) as [d|e4] eqn:H4.
        * cbn [Db.bound_ints forallb].
          destruct (Db.sqlite_int a) eqn:Ha;
            [destruct (Db.sqlite_int b) eqn:Hb;
               [destruct (Db.sqlite_int d) eqn:Hd|]|];
            cbn [andb]; try discriminate;
            intros H; injection H as <- <-;
            (split; [reflexivity|]); right;
            (split; [reflexivity|]);
            (split; [first [exact Hl | reflexivity]|]);
            (split;
             [intros k Hk;
              assert (Hk3 : k = 2%nat \/ k = 3%nat \/ k = 4%nat) by lia;
              destruct Hk3 as [-> | [-> | ->]]; eexists; eassumption|]).
          -- exists 4%nat, d. split; [lia|]. split; assumption.
          -- exists 3%nat, b. split; [lia|]. split; assumption.
          -- exists 2%nat, a. split; [lia|]. split; assumption.
        * intros H. injection H as <- <-.
          destruct (Hcase 4%nat e4 ltac:(lia) H4) as [-> Hk].
          split; [reflexivity|]. left. split; [reflexivity|].
          right. split; [first [exact Hl | reflexivity] | exact Hk].
      + intros H. injection H as <- <-.
        destruct (Hcase 3%nat e3 ltac:(lia) H3) as [-> Hk].
        split; [reflexivity|]. left. split; [reflexivity|].
        right. split; [first [exact Hl | reflexivity] | exact Hk].
    - intros H. injection H as <- <-.
      destruct (Hcase 2%nat e2 ltac:(lia) H2) as [-> Hk].
      split; [reflexivity|]. left. split; [reflexivity|].
      right. split; [first [exact Hl | reflexivity] | exact Hk]. }
  destruct (PyStr.startswith (PyStr.strip line) "DATA PERIODS,").
  { unfold Epw.parse_data_periods.
    destruct (negb (PyStr.startswith line "DATA PERIODS")); [discriminate|].
    destruct (List.length (PyStr.split "," line) <? 6)%nat; [discriminate|].
    unfold Db.try_except.
    match goal with
    | |- context [match ?body c with _ => _ end] =>
        destruct (body c) as [[u|e'] c1]
    end; unfold Db.ret; discriminate. }
  discriminate.
Qed.

Lemma header_line_errors_witness :
  Db.connect [] = Db.connect [] /\
  (OverflowError = ValueError /\
   ((PyStr.startswith "HOLIDAYS/DAYLIGHT SAVINGS,No,99999999999999999999,0,"
                      "TYPICAL/EXTREME PERIODS" = true \/
     PyStr.startswith "HOLIDAYS/DAYLIGHT SAVINGS,No,99999999999999999999,0,"
                      "GROUND TEMPERATURES" = true) /\
    PyNum.parse_int
      (nth 1 (PyStr.split "," "HOLIDAYS/DAYLIGHT SAVINGS,No,99999999999999999999,0,")
           EmptyString)
    = None
    \/
    PyStr.startswith "HOLIDAYS/DAYLIGHT SAVINGS,No,99999999999999999999,0,"
                     "HOLIDAYS/DAYLIGHT SAVINGS" = true /\
    exists k, (2 <= k <= 4)%nat /\
              PyStr.strip
                (nth k (PyStr.split ","
                          "HOLIDAYS/DAYLIGHT SAVINGS,No,99999999999999999999,0,")
                     EmptyString) <> EmptyString /\
              PyNum.parse_int
                (nth k (PyStr.split ","
                          "HOLIDAYS/DAYLIGHT SAVINGS,No,99999999999999999999,0,")
                     EmptyString) = None)
   \/
   OverflowError = OverflowError /\
   PyStr.startswith "HOLIDAYS/DAYLIGHT SAVINGS,No,99999999999999999999,0,"
                    "HOLIDAYS/DAYLIGHT SAVINGS" = true /\
   (forall k, (2 <= k <= 4)%nat ->
              exists z,
                Epw.int_field
                  (PyStr.split "," "HOLIDAYS/DAYLIGHT SAVINGS,No,99999999999999999999,0,")
                  k = Ok z) /\
   exists k z, (2 <= k <= 4)%nat /\
               Epw.int_field
                 (PyStr.split "," "HOLIDAYS/DAYLIGHT SAVINGS,No,99999999999999999999,0,")
                 k = Ok z /\
               Db.sqlite_int z = false).
Proof.
  apply (header_line_errors "HOLIDAYS/DAYLIGHT SAVINGS,No,99999999999999999999,0," 1
           (Db.connect []) (Db.connect []) OverflowError).
  vm_compute. reflexivity.
Defined.

(** a day field that is not an integer raises [ValueError] *)
Example holidays_day_not_an_integer :
  Epw.dispatch Epw.metadata_handlers "HOLIDAYS/DAYLIGHT SAVINGS,No,3/8,11/1,0" 1
               (Db.connect [])
  = (Raise ValueError, Db.connect []).
Proof. vm_compute. reflexivity. Qed.

(** X9. For a line that starts with [TYPICAL/EXTREME PERIODS], has three
    fields at least and an integer count [n] in its second field,
    [parse_typical_periods] commits one row for each of the first
    [min (n, (fields - 2) / 4)] groups of four fields whose start and end
    dates both read as [M/D] with integer parts that fit in 64 bits, in
    the order of the line: a group with a malformed date, or with an
    integer SQLite cannot hold, is left out and the groups after it are
    still stored; groups beyond the count, and a last group that is cut
    short, are not read. *)
Theorem typical_periods_stored (line : string) (location_id n : Z) (c : Db.conn) :
  PyStr.startswith line "TYPICAL/EXTREME PERIODS" = true ->
  (3 <= List.length (PyStr.split "," line))%nat ->
  PyNum.parse_int (nth 1 (PyStr.split "," line) EmptyString) = Some n ->
  Epw.parse_typical_periods line location_id c
  = (Ok tt,
     Db.commit
       (Db.mk_conn (Db.committed c)
          (Db.pending c
           ++ Terms.typical_period_rows (PyStr.split "," line) location_id
                (Nat.min (Z.to_nat n)
                         ((List.length (PyStr.split "," line) - 2) / 4))))).
Proof.
  intros Hl Hlen Hn. unfold Epw.parse_typical_periods. rewrite Hl. cbn [negb].
  destruct (Nat.ltb_spec (List.length (PyStr.split "," line)) 3) as [|_]; [lia|].
  unfold Db.bind at 1. unfold Db.lift, PyNum.py_int. rewrite Hn.
  unfold Db.bind.
  pose proof (MetadataFacts.typical_loop_rows (PyStr.split "," line) location_id
                (Z.to_nat n) 0 c) as Hrun.
  change (2 + 4 * 0)%nat with 2%nat in Hrun. rewrite Hrun.
  rewrite Nat.sub_0_r. reflexivity.
Qed.

Lemma typical_periods_stored_witness :
  Epw.parse_typical_periods
    "TYPICAL/EXTREME PERIODS,4,Summer,Extreme,7/13,7/19,Winter,Extreme,1/x,1/9,Spring,Typical,4/1,4/7,Autumn,Typical,10/99999999999999999999,10/7,Last"
    1 (Db.connect [])
  = (Ok tt,
     Db.mk_conn [ Db.TypicalPeriodRow 1 "Extreme" "Summer" 7 13 7 19;
                  Db.TypicalPeriodRow 1 "Typical" "Spring" 4 1 4 7 ] []).
Proof.
  apply (typical_periods_stored
           "TYPICAL/EXTREME PERIODS,4,Summer,Extreme,7/13,7/19,Winter,Extreme,1/x,1/9,Spring,Typical,4/1,4/7,Autumn,Typical,10/99999999999999999999,10/7,Last"
           1 4 (Db.connect [])).
  - reflexivity.
  - vm_compute. lia.
  - reflexivity.
Defined.

(** ** The store across archives *)

Module StoreFacts.

Import PyStr PyNum Hourly Db Epw DesignDays Ingest Spec Terms.

Lemma location_ids_app (a b : list row) :
  location_ids (a ++ b) = location_ids a ++ location_ids b.
Proof. unfold location_ids. apply flat_map_app. Qed.

Lemma location_ids_none (l : Z) (rows : list row) :
  forallb (belongs_to l) rows = true -> location_ids rows = [].
Proof.
  induction rows as [|r rows IH]; [reflexivity|].
  cbn [forallb]. intros H. apply andb_true_iff in H. destruct H as [Hr Hrest].
  unfold belongs_to in Hr. apply andb_true_iff in Hr. destruct Hr as [_ Hr].
  unfold location_ids in *. cbn [flat_map]. rewrite (IH Hrest).
  destruct r; try reflexivity; discriminate.
Qed.

Lemma max_id_bound (ids : list Z) (i : Z) :
  In i ids -> (i <= fold_right Z.max 0 ids)%Z.
Proof.
  induction ids as [|x ids IH]; [contradiction|].
  cbn [fold_right]. intros [-> | H]; [lia|]. specialize (IH H). lia.
Qed.

(** the key of the next location is above every key in use *)
Lemma next_location_id_fresh (db : store) (i : Z) :
  In i (location_ids db) -> (i < next_location_id db)%Z.
Proof.
  intros H. unfold next_location_id. pose proof (max_id_bound _ _ H). lia.
Qed.

Lemma metadata_belongs (l : Z) (rows : list row) :
  forallb (metadata_row l) rows = true -> forallb (belongs_to l) rows = true.
Proof.
  induction rows as [|r rows IH]; [reflexivity|].
  cbn [forallb]. intros H. apply andb_true_iff in H. destruct H as [Hr Hrest].
  rewrite (IH Hrest), andb_true_r.
  unfold metadata_row in Hr. unfold belongs_to.
  repeat (apply andb_true_iff in Hr; destruct Hr as [Hr ?]).
  rewrite Hr. assumption.
Qed.

Lemma hourly_belongs (l : Z) (df : list row_dict) :
  forallb (belongs_to l) (map (HourlyRow l) df) = true.
Proof.
  induction df as [|r df IH]; [reflexivity|].
  cbn [map forallb]. rewrite IH. unfold belongs_to. cbn. rewrite Z.eqb_refl. reflexivity.
Qed.

Lemma design_days_belong (l : Z) (blocks : list block) :
  forallb (belongs_to l) (map (DesignDayRow l) blocks) = true.
Proof.
  induction blocks as [|b blocks IH]; [reflexivity|].
  cbn [map forallb]. rewrite IH. unfold belongs_to. cbn. rewrite Z.eqb_refl. reflexivity.
Qed.

(** What one archive adds to the store: nothing, or the row of a new
    location followed by rows of that location. *)
Lemma process_single_zip_adds {L : Pandas.library}
      (zip : archive) (db db' : store) (ok : bool) :
  process_single_zip zip db = (ok, db') ->
  (ok = false /\ db' = db) \/
  exists meta name catalog rest,
    db' = db ++ LocationRow (next_location_id db) meta name catalog :: rest /\
    forallb (belongs_to (next_location_id db)) rest = true.
Proof.
  intros H.
  destruct (process_body zip (connect db)) as [r c] eqn:Hbody.
  rewrite (IngestFacts.process_single_zip_store zip db r c Hbody) in H.
  apply pair_equal_spec in H. destruct H as [Hok <-].
  pose proof (IngestFacts.process_body_outcome zip db r c Hbody) as Ho.
  inversion Ho as [Hx | e name lines Hx Hh | name lines meta idx Hx Hh Hc
                   | e meta name catalog lines idx metadata hourly id location read
                       Hx Hh Hc Hcom Hm Hstage
                   | meta name catalog lines idx metadata df blocks id location read
                       Hx Hh Hc Hcom Hm Hread Hdf Hstore Hblocks];
    subst; cbn [committed connect].
  - left. split; reflexivity.
  - left. split; reflexivity.
  - left. split; reflexivity.
  - subst id location read.
    right. exists meta, name, catalog, (metadata ++ hourly).
    split; [reflexivity|].
    rewrite forallb_app, (metadata_belongs _ _ Hm).
    destruct Hstage as [[_ ->] | [[_ [_ ->]] | [[df [_ [_ [_ [_ ->]]]]]
                                              | [df [_ [_ [_ [_ ->]]]]]]]];
      try reflexivity.
    apply hourly_belongs.
  - subst id location read.
    right. exists meta, name, catalog,
      (metadata ++ map (HourlyRow (next_location_id db)) df
       ++ map (DesignDayRow (next_location_id db)) blocks).
    split; [reflexivity|].
    rewrite !forallb_app, (metadata_belongs _ _ Hm), hourly_belongs,
      design_days_belong. reflexivity.
Qed.

Lemma belongs_to_location (l : Z) (rows : list row) (r : row) :
  forallb (belongs_to l) rows = true -> In r rows -> row_location r = l.
Proof.
  intros H Hin. rewrite forallb_forall in H. specialize (H r Hin).
  unfold belongs_to in H. apply andb_true_iff in H. destruct H as [H _].
  apply Z.eqb_eq. exact H.
Qed.

Lemma rows_of_app (l : Z) (a b : list row) :
  rows_of l (a ++ b) = rows_of l a ++ rows_of l b.
Proof. unfold rows_of. apply filter_app. Qed.

Lemma rows_of_all (l : Z) (rows : list row) :
  (forall r, In r rows -> row_location r = l) -> rows_of l rows = rows.
Proof.
  induction rows as [|r rows IH]; intros H; [reflexivity|].
  unfold rows_of in *. cbn [filter].
  rewrite (H r (or_introl eq_refl)), Z.eqb_refl. f_equal.
  apply IH. intros r' Hr'. apply H. right. exact Hr'.
Qed.

Lemma rows_of_none (l : Z) (rows : list row) :
  (forall r, In r rows -> row_location r <> l) -> rows_of l rows = [].
Proof.
  induction rows as [|r rows IH]; intros H; [reflexivity|].
  unfold rows_of in *. cbn [filter].
  destruct (Z.eqb_spec (row_location r) l) as [He|_].
  - exfalso. exact (H r (or_introl eq_refl) He).
  - apply IH. intros r' Hr'. apply H. right. exact Hr'.
Qed.

End StoreFacts.

(** X10. The sequential batch loop never changes or removes a row the
    store holds: the store afterwards is the store before followed by the
    rows added.  The success count grows by one for an archive at most,
    and every archive counted has added the row of a location: the
    locations added are at least as many as the successes and at most as
    many as the archives (an archive that fails after its location insert
    leaves a location that is not counted). *)
Theorem batch_only_appends {L : Pandas.library}
        (zip_files : list Ingest.archive) (db : Db.store) (success_count : nat) :
  exists added,
    snd (Ingest.process_zip_files zip_files db success_count) = db ++ added /\
    (success_count <= fst (Ingest.process_zip_files zip_files db success_count))%nat /\
    (fst (Ingest.process_zip_files zip_files db success_count) - success_count
     <= List.length (Db.location_ids added))%nat /\
    (List.length (Db.location_ids added) <= List.length zip_files)%nat.
Proof.
  revert db success_count.
  induction zip_files as [|zip rest IH]; intros db n.
  - exists []. cbn. rewrite app_nil_r. repeat split; lia.
  - cbn [Ingest.process_zip_files].
    destruct (Ingest.process_single_zip zip db) as [ok db1] eqn:Hzip.
    destruct (IH db1 (if ok then S n else n)) as [added [Hdb [Hle [Hcount Hmost]]]].
    destruct (StoreFacts.process_single_zip_adds zip db db1 ok Hzip)
      as [[-> ->] | [meta [name [catalog [rows [-> Hrows]]]]]].
    + exists added. cbn [List.length]. repeat split; try assumption; lia.
    + exists (Db.LocationRow (Db.next_location_id db) meta name catalog
                :: rows ++ added).
      rewrite Hdb, <- app_assoc. cbn [app]. split; [reflexivity|].
      change (Db.LocationRow (Db.next_location_id db) meta name catalog
                :: rows ++ added)
        with ([Db.LocationRow (Db.next_location_id db) meta name catalog]
                ++ rows ++ added).
      rewrite !StoreFacts.location_ids_app,
        (StoreFacts.location_ids_none _ _ Hrows).
      cbn [Db.location_ids flat_map app List.length].
      destruct ok; repeat split; lia.
Qed.

(** X11. Two invariants of the store are kept by every archive, loaded or
    failed, and so by the batch: no two [locations_metadata] rows share a
    key, and every other row carries the key of a location that is in the
    store. *)
Theorem store_invariants_kept {L : Pandas.library}
        (zip_files : list Ingest.archive) (db : Db.store) (success_count : nat) :
  NoDup (Db.location_ids db) -> Terms.references_known db ->
  NoDup (Db.location_ids (snd (Ingest.process_zip_files zip_files db success_count)))
  /\ Terms.references_known
       (snd (Ingest.process_zip_files zip_files db success_count)).
Proof.
  revert db success_count.
  induction zip_files as [|zip rest IH]; intros db n Hnd Hrefs.
  - cbn. split; assumption.
  - cbn [Ingest.process_zip_files].
    destruct (Ingest.process_single_zip zip db) as [ok db1] eqn:Hzip.
    apply IH;
      destruct (StoreFacts.process_single_zip_adds zip db db1 ok Hzip)
        as [[_ ->] | [meta [name [catalog [rows [-> Hrows]]]]]];
      try assumption.
    + change (Db.LocationRow (Db.next_location_id db) meta name catalog :: rows)
        with ([Db.LocationRow (Db.next_location_id db) meta name catalog] ++ rows).
      rewrite !StoreFacts.location_ids_app,
        (StoreFacts.location_ids_none _ _ Hrows), app_nil_r.
      cbn [Db.location_ids flat_map app].
      apply NoDup_app; [assumption | repeat constructor; intros [] |].
      intros i Hi [<- | []].
      pose proof (StoreFacts.next_location_id_fresh db _ Hi). lia.
    + intros r Hr.
      change (Db.LocationRow (Db.next_location_id db) meta name catalog :: rows)
        with ([Db.LocationRow (Db.next_location_id db) meta name catalog] ++ rows).
      rewrite !StoreFacts.location_ids_app,
        (StoreFacts.location_ids_none _ _ Hrows), app_nil_r.
      cbn [Db.location_ids flat_map app].
      apply in_app_iff in Hr. destruct Hr as [Hr | [<- | Hr]].
      * apply in_or_app. left. apply Hrefs. exact Hr.
      * apply in_or_app. right. left. reflexivity.
      * apply in_or_app. right. left. symmetry.
        apply (StoreFacts.belongs_to_location _ rows r Hrows Hr).
Qed.

Lemma store_invariants_kept_witness :
  NoDup (Db.location_ids
           (snd (Ingest.process_zip_files (L := Pandas.in_frame_order)
                   [ Samples.archive_february; Samples.archive_without_epw;
                     Samples.archive_january_july ] [] 0)))
  /\ Terms.references_known
       (snd (Ingest.process_zip_files (L := Pandas.in_frame_order)
               [ Samples.archive_february; Samples.archive_without_epw;
                 Samples.archive_january_july ] [] 0)).
Proof.
  apply (store_invariants_kept (L := Pandas.in_frame_order)
           [ Samples.archive_february; Samples.archive_without_epw;
             Samples.archive_january_july ] [] 0).
  - constructor.
  - intros r [].
Defined.

(** X12. What an archive has loaded is read back by the key of its
    location: in a store whose rows all belong to known locations, after
    [process_single_zip] has returned [True] the rows carrying the new
    key are the location row, the header metadata rows, one hourly row
    for each line from the data start index on (the frame is one that
    [to_sql] stores), and the seven design day rows the library gives for
    the frame, in that order; the rows read back under any other key are
    the ones the store held before. *)
Theorem loaded_archive_is_read_back {L : Pandas.library}
        (zip : Ingest.archive) (db db' : Db.store) :
  Ingest.process_single_zip zip db = (true, db') ->
  Terms.references_known db ->
  exists name lines meta idx catalog metadata df blocks,
    Ingest.extract_epw_from_zip zip = Some (name, lines) /\
    Epw.parse_epw_header lines = Ok (meta, idx) /\
    Hourly.create_hourly_dataframe (skipn idx lines) = Ok df /\
    Ingest.to_sql_stores df = true /\
    DesignDays.extract_design_days df = Ok blocks /\
    List.length df = (List.length lines - idx)%nat /\
    List.length blocks = 7%nat /\
    forallb (Spec.metadata_row (Db.next_location_id db)) metadata = true /\
    Db.rows_of (Db.next_location_id db) db'
    = Db.LocationRow (Db.next_location_id db) meta name catalog
        :: metadata
        ++ map (Db.HourlyRow (Db.next_location_id db)) df
        ++ map (Db.DesignDayRow (Db.next_location_id db)) blocks /\
    forall l, l <> Db.next_location_id db -> Db.rows_of l db' = Db.rows_of l db.
Proof.
  intros H Hrefs.
  destruct (Ingest.process_body zip (Db.connect db)) as [r c] eqn:Hbody.
  rewrite (IngestFacts.process_single_zip_store zip db r c Hbody) in H.
  apply pair_equal_spec in H. destruct H as [Hok <-].
  pose proof (IngestFacts.process_body_outcome zip db r c Hbody) as Ho.
  destruct Ho as [Hx | e name lines Hx Hh | name lines meta idx Hx Hh Hc
                  | e meta name catalog lines idx metadata hourly id location read
                      Hx Hh Hc Hcom Hm Hstage
                  | meta name catalog lines idx metadata df blocks id location read
                      Hx Hh Hc Hcom Hm Hread Hdf Hstore Hb];
    try discriminate Hok.
  exists name, lines, meta, idx, catalog, metadata, df, blocks.
  fold id.
  assert (Hnew : forall r,
             In r (Db.LocationRow id meta name catalog
                     :: metadata ++ map (Db.HourlyRow id) df
                     ++ map (Db.DesignDayRow id) blocks) ->
             Db.row_location r = id).
  { intros r0 [<- | Hr]; [reflexivity|].
    apply in_app_iff in Hr. destruct Hr as [Hr | Hr].
    - apply (StoreFacts.belongs_to_location id metadata r0
               (StoreFacts.metadata_belongs _ _ Hm) Hr).
    - apply in_app_iff in Hr. destruct Hr as [Hr | Hr];
        apply in_map_iff in Hr; destruct Hr as [x [<- _]]; reflexivity. }
  assert (Hold : forall r, In r db -> Db.row_location r <> id).
  { intros r0 Hr He. pose proof (StoreFacts.next_location_id_fresh db _ (Hrefs r0 Hr)).
    unfold id in He. lia. }
  split; [exact Hx|]. split; [exact Hh|]. split; [exact Hdf|].
  split; [exact Hstore|]. split; [exact Hb|].
  split.
  { unfold Hourly.create_hourly_dataframe in Hdf.
    rewrite (proj1 (HourlyFacts.decode_lines_rows _ _ _ Hdf)).
    apply length_skipn. }
  split; [apply (IngestFacts.seven_blocks df blocks Hb)|].
  split; [exact Hm|]. split.
  - cbn [Db.committed]. rewrite StoreFacts.rows_of_app.
    rewrite (StoreFacts.rows_of_none id db Hold).
    apply StoreFacts.rows_of_all. exact Hnew.
  - intros l Hl. cbn [Db.committed]. rewrite StoreFacts.rows_of_app.
    rewrite (StoreFacts.rows_of_none l (_ :: _)); [apply app_nil_r|].
    intros r0 Hr He. apply Hl. rewrite <- He. apply Hnew. exact Hr.
Qed.

Lemma loaded_archive_is_read_back_witness :
  exists name lines meta idx catalog metadata df blocks,
    Ingest.extract_epw_from_zip Samples.archive_january_july = Some (name, lines) /\
    Epw.parse_epw_header lines = Ok (meta, idx) /\
    Hourly.create_hourly_dataframe (skipn idx lines) = Ok df /\
    Ingest.to_sql_stores (L := Pandas.in_frame_order) df = true /\
    DesignDays.extract_design_days (L := Pandas.in_frame_order) df = Ok blocks /\
    List.length df = (List.length lines - idx)%nat /\
    List.length blocks = 7%nat /\
    forallb (Spec.metadata_row (Db.next_location_id [])) metadata = true /\
    Db.rows_of (Db.next_location_id [])
               (snd (Ingest.process_single_zip (L := Pandas.in_frame_order)
                                               Samples.archive_january_july []))
    = Db.LocationRow (Db.next_location_id []) meta name catalog
        :: metadata
        ++ map (Db.HourlyRow (Db.next_location_id [])) df
        ++ map (Db.DesignDayRow (Db.next_location_id [])) blocks /\
    forall l, l <> Db.next_location_id [] ->
              Db.rows_of l (snd (Ingest.process_single_zip (L := Pandas.in_frame_order)
                                   Samples.archive_january_july []))
              = Db.rows_of l [].
Proof.
  apply (loaded_archive_is_read_back (L := Pandas.in_frame_order)
           Samples.archive_january_july []).
  - destruct (Ingest.process_single_zip (L := Pandas.in_frame_order)
                                        Samples.archive_january_july [])
      as [ok db'] eqn:H.
    assert (Hok : ok = true)
      by (apply (f_equal fst) in H; vm_compute in H; symmetry; exact H).
    rewrite Hok. reflexivity.
  - intros r [].
Defined.

(** ** Archive members and the catalog pattern *)

Module MemberFacts.

Import PyStr Epw Ingest Terms.

Local Notation "s +++ t" := (String.append s t) (at level 60, right associativity).

Lemma length_append (a b : string) :
  String.length (a +++ b) = (String.length a + String.length b)%nat.
Proof. induction a as [|c a IH]; cbn; [reflexivity | rewrite IH; reflexivity]. Qed.

Lemma substring_append (a b : string) (k m : nat) :
  substring (String.length a + k) m (a +++ b) = substring k m b.
Proof. induction a as [|c a IH]; [reflexivity | exact IH]. Qed.

Lemma endswith_append (a p : string) : endswith (a +++ p) p = true.
Proof.
  unfold endswith. rewrite length_append.
  replace (String.length a + String.length p - String.length p)%nat
    with (String.length a + 0)%nat by lia.
  rewrite substring_append.
  assert (Hall : forall s, substring 0 (String.length s) s = s).
  { induction s as [|c s IH]; [reflexivity | cbn; rewrite IH; reflexivity]. }
  rewrite Hall, String.eqb_refl.
  destruct (Nat.leb_spec (String.length p) (String.length a + String.length p));
    [reflexivity | lia].
Qed.

Lemma lower_append (a b : string) : lower (a +++ b) = lower a +++ lower b.
Proof. induction a as [|c a IH]; cbn; [reflexivity | rewrite IH; reflexivity]. Qed.

(** a name that ends with a newline does not end with [.epw], in
    whatever case *)
Lemma newline_is_no_extension (a : string) :
  endswith (lower (a +++ String.append ".epw" (String newline EmptyString))) ".epw"
  = false.
Proof.
  rewrite lower_append. unfold endswith. rewrite length_append.
  change (String.length (lower (String.append ".epw" (String newline EmptyString))))
    with 5%nat.
  change (String.length ".epw") with 4%nat.
  replace (String.length (lower a) + 5 - 4)%nat
    with (String.length (lower a) + 1)%nat by lia.
  rewrite substring_append. rewrite andb_false_r. reflexivity.
Qed.

Lemma extracted_member (zip : archive) (name : string) (lines : list string) :
  extract_epw_from_zip zip = Some (name, lines) ->
  endswith (lower name) ".epw" = true.
Proof.
  unfold extract_epw_from_zip. destruct zip as [file_list|]; [|discriminate].
  destruct (filter (fun f => endswith (lower (fst f)) ".epw") file_list)
    as [|m rest] eqn:Hf; [discriminate|].
  intros H. injection H as ->.
  assert (Hin : In (name, lines)
                   (filter (fun f => endswith (lower (fst f)) ".epw") file_list))
    by (rewrite Hf; left; reflexivity).
  apply filter_In in Hin. exact (proj2 Hin).
Qed.

End MemberFacts.

(** X13. The member of an archive is chosen without regard to case
    ([f.lower().endswith('.epw')]), and the catalog pattern asks for the
    lower-case extension: an archive whose first EPW member has its
    extension in another case, [.EPW] say, is opened, fails in
    [insert_location], and leaves the store as it was with the result
    [False]. *)
Theorem extension_in_another_case {L : Pandas.library}
        (zip : Ingest.archive) (db : Db.store)
        (name : string) (lines : list string) :
  Ingest.extract_epw_from_zip zip = Some (name, lines) ->
  PyStr.endswith name ".epw" = false ->
  Ingest.process_single_zip zip db = (false, db).
Proof.
  intros Hx Hcase.
  apply (IngestFacts.process_single_zip_no_catalog zip db name lines Hx).
  destruct (Epw.re_search_catalog name) as [g|] eqn:Hg; [exfalso | reflexivity].
  destruct (EpwFacts.re_search_catalog_sound name g Hg)
    as [pre [tag [run [tail [Hname [_ [_ [_ Htail]]]]]]]].
  pose proof (MemberFacts.extracted_member zip name lines Hx) as Hlower.
  unfold Epw.ext_here in Htail. apply orb_true_iff in Htail.
  destruct Htail as [Ht | Ht]; apply String.eqb_eq in Ht; subst tail.
  - rewrite Hname in Hcase.
    rewrite <- EpwFacts.append_assoc in Hcase.
    rewrite MemberFacts.endswith_append in Hcase. discriminate.
  - rewrite Hname in Hlower.
    rewrite <- EpwFacts.append_assoc in Hlower.
    rewrite MemberFacts.newline_is_no_extension in Hlower. discriminate.
Qed.

Lemma extension_in_another_case_witness :
  Ingest.process_single_zip (L := Pandas.in_frame_order)
    (Some [ Samples.readme;
            ("CAN_ON_Toronto.Intl.AP.716240_CWEC2016.EPW", Samples.epw_january_july) ])
    []
  = (false, []).
Proof.
  apply (extension_in_another_case (L := Pandas.in_frame_order) _ []
           "CAN_ON_Toronto.Intl.AP.716240_CWEC2016.EPW" Samples.epw_january_july).
  - reflexivity.
  - reflexivity.
Defined.

(** ** The transcoder *)

Module TranscoderFacts.

Import PyStr PyNum Wy3 Terms.

Lemma convert_in_window (begin_line end_line : nat) (input : list string) :
  forall line_n,
    (begin_line <= S line_n <= end_line)%nat ->
    convert_from line_n begin_line end_line input
    = convert_all (firstn (end_line - line_n) input).
Proof.
  induction input as [|line rest IH]; intros line_n Hn.
  - rewrite firstn_nil. reflexivity.
  - cbn [convert_from].
    destruct (Nat.ltb_spec (S line_n) begin_line) as [|_]; [lia|].
    replace (end_line - line_n)%nat with (S (end_line - S line_n)) by lia.
    cbn [firstn convert_all].
    destruct (convert_line line) as [r|e]; [|reflexivity].
    destruct (Nat.eqb_spec (S line_n) end_line) as [He|Hne].
    + rewrite He, Nat.sub_diag. reflexivity.
    + rewrite (IH (S line_n)) by lia. reflexivity.
Qed.

Lemma convert_before_window (begin_line end_line : nat) (input : list string) :
  forall line_n,
    (S line_n <= begin_line <= end_line)%nat ->
    convert_from line_n begin_line end_line input
    = convert_all (firstn (end_line - begin_line + 1)
                          (skipn (begin_line - 1 - line_n) input)).
Proof.
  induction input as [|line rest IH]; intros line_n Hn.
  - rewrite skipn_nil, firstn_nil. reflexivity.
  - destruct (Nat.eq_dec (S line_n) begin_line) as [He|Hne].
    + rewrite (convert_in_window begin_line end_line (line :: rest) line_n) by lia.
      replace (begin_line - 1 - line_n)%nat with 0%nat by lia.
      replace (end_line - begin_line + 1)%nat with (end_line - line_n)%nat by lia.
      reflexivity.
    + cbn [convert_from].
      destruct (Nat.ltb_spec (S line_n) begin_line) as [_|]; [|lia].
      rewrite (IH (S line_n)) by lia.
      replace (begin_line - 1 - line_n)%nat with (S (begin_line - 1 - S line_n)) by lia.
      reflexivity.
Qed.

Lemma convert_all_length (lines : list string) :
  (List.length (fst (convert_all lines)) <= List.length lines)%nat.
Proof.
  induction lines as [|l rest IH]; [cbn; lia|].
  cbn [convert_all]. destruct (convert_line l); [|cbn; lia].
  destruct (convert_all rest) as [out e]. cbn in *. lia.
Qed.

Lemma drop_zero_raise (s : string) (e : exn) :
  drop_zero s = Raise e -> e = IndexError.
Proof.
  unfold drop_zero, index.
  destruct (String.get 0 s); cbn [rbind]; [|intros H; injection H as <-; reflexivity].
  destruct (String.eqb _ "0"); [|discriminate].
  destruct (String.get 1 s); [discriminate|].
  intros H. injection H as <-. reflexivity.
Qed.

Lemma short_slice (line : string) (i j : nat) :
  (String.length line <= i)%nat -> slice line i j = EmptyString.
Proof.
  intros H. unfold slice.
  pose proof (Wy3Facts.substring_length line i (j - i)) as Hlen.
  replace (String.length line - i)%nat with 0%nat in Hlen by lia.
  rewrite Nat.min_0_r in Hlen.
  destruct (substring i (j - i) line); [reflexivity | discriminate].
Qed.

(** the missing value text [9999] of a temperature reads as 999.9 degrees,
    for which [psat_water_vapour] has no branch *)
Lemma missing_temperature :
  exists t, tenths "9999" conv_temperature = Ok t
            /\ psat_water_vapour t = Raise UnboundLocalError.
Proof.
  destruct (tenths "9999" conv_temperature) as [t|e] eqn:Ht.
  - exists t. split; [reflexivity|].
    vm_compute in Ht. injection Ht as <-. vm_compute. reflexivity.
  - vm_compute in Ht. discriminate Ht.
Qed.


(** one step of a chain of binds: the step raises, or it goes on *)
Ltac step :=
  match goal with
  | |- raised (rbind ?c _) = true => destruct c; [unfold rbind at 1 | reflexivity]
  end.

End TranscoderFacts.

(** X14. The loop of the transcoder reads the records from line
    [begin_line] to line [end_line] of the input, both counted from 1, and
    nothing else: the lines in front are passed over without being looked
    at, the lines behind are never reached, and an input that ends before
    [end_line] ends the loop without an error.  The records are converted
    in turn up to the first that raises; what was converted before it has
    been written.  At most [end_line - begin_line + 1] records are written
    (8760 in the program, from line 149018 on). *)
Theorem conversion_window (begin_line end_line : nat) (input : list string) :
  (1 <= begin_line <= end_line)%nat ->
  Wy3.convert begin_line end_line input
  = Terms.convert_all (firstn (end_line - begin_line + 1)
                              (skipn (begin_line - 1) input)) /\
  (List.length (fst (Wy3.convert begin_line end_line input))
   <= end_line - begin_line + 1)%nat.
Proof.
  intros H.
  assert (Heq : Wy3.convert begin_line end_line input
                = Terms.convert_all (firstn (end_line - begin_line + 1)
                                            (skipn (begin_line - 1) input))).
  { unfold Wy3.convert.
    rewrite (TranscoderFacts.convert_before_window begin_line end_line input 0) by lia.
    rewrite Nat.sub_0_r. reflexivity. }
  split; [exact Heq|]. rewrite Heq.
  eapply Nat.le_trans; [apply TranscoderFacts.convert_all_length|].
  apply firstn_le_length.
Qed.

Lemma conversion_window_witness :
  Wy3.convert 2 3 [ "header"; Samples.wy3_record; Samples.wy3_visibility_T;
                    Samples.wy3_record ]
  = Terms.convert_all
      (firstn (3 - 2 + 1)
              (skipn (2 - 1) [ "header"; Samples.wy3_record;
                               Samples.wy3_visibility_T; Samples.wy3_record ])) /\
  (List.length
     (fst (Wy3.convert 2 3 [ "header"; Samples.wy3_record;
                             Samples.wy3_visibility_T; Samples.wy3_record ]))
   <= 3 - 2 + 1)%nat.
Proof.
  apply (conversion_window 2 3). split; repeat constructor.
Defined.

(** X15. A record of fewer than 17 characters, an empty line among them,
    stops the conversion with [IndexError]: the month, the day or the hour
    is then an empty text, of which [month[0]], [day[0]] or [hour[0]] is
    asked. *)
Theorem short_record_is_fatal (line : string) :
  (String.length line <= 16)%nat -> Wy3.convert_line line = Raise IndexError.
Proof.
  intros H. unfold Wy3.convert_line.
  destruct (Wy3.drop_zero (Wy3.span line Wy3.col_month)) as [month|e] eqn:Hm;
    [|rewrite (TranscoderFacts.drop_zero_raise _ _ Hm); reflexivity].
  unfold rbind at 1.
  destruct (Wy3.drop_zero (Wy3.span line Wy3.col_day)) as [day|e] eqn:Hd;
    [|rewrite (TranscoderFacts.drop_zero_raise _ _ Hd); reflexivity].
  unfold rbind at 1.
  unfold Wy3.span, Wy3.col_hour. cbn [fst snd Nat.sub].
  rewrite (TranscoderFacts.short_slice line 16 18 H). reflexivity.
Qed.

Lemma short_record_is_fatal_witness :
  Wy3.convert_line (String Epw.newline EmptyString) = Raise IndexError.
Proof.
  apply (short_record_is_fatal (String Epw.newline EmptyString)).
  repeat constructor.
Defined.

(** X16. The transcoder has no missing value for the two temperatures: a
    record whose dry-bulb or dew-point field holds [9999], the text that
    stands for a missing value in every other four-column field, is not
    converted.  The field reads as 999.9 degrees, outside both branches of
    [psat_water_vapour], whose [return psat] then fails. *)
Theorem missing_temperature_is_fatal (line : string) :
  Wy3.value_of line Wy3.col_tdb = "9999" \/ Wy3.value_of line Wy3.col_tdp = "9999" ->
  raised (Wy3.convert_line line) = true.
Proof.
  intros H. unfold Wy3.convert_line.
  destruct (TranscoderFacts.missing_temperature) as [t [Ht Hpsat]].
  do 3 TranscoderFacts.step.
  destruct H as [H | H].
  - rewrite H, Ht. unfold rbind at 1.
    do 4 TranscoderFacts.step.
    rewrite Hpsat. reflexivity.
  - do 2 TranscoderFacts.step.
    rewrite H, Ht. unfold rbind at 1.
    TranscoderFacts.step.
    rewrite Hpsat. reflexivity.
Qed.

Lemma missing_temperature_is_fatal_witness :
  raised (Wy3.convert_line Inputs.wy3_missing_dry_bulb) = true.
Proof.
  apply (missing_temperature_is_fatal Inputs.wy3_missing_dry_bulb).
  left. reflexivity.
Defined.

(** X17. In every record that is converted, a variable whose field holds
    its missing value text is written with the missing value of the
    output, whatever the factor of the variable: [9999] stays [9999] for
    the three radiations, the zenith illuminance and the visibility,
    becomes [999999] for the three illuminances, [999] for the wind speed
    and [99999] for the ceiling height; [999] stays [999] for the wind
    direction and [99] stays [99] for the two sky covers.  The two
    radiances the input does not carry are always written [9999]. *)
Theorem missing_values_are_kept (line : string) (r : Wy3.epw_record) :
  Wy3.convert_line line = Ok r ->
  (forall col missing written place,
      In (col, missing, written, place) Terms.missing_values ->
      Wy3.value_of line col = missing ->
      nth_error (Wy3.values r) place = Some (Wy3.Text written)) /\
  nth_error (Wy3.values r) 5 = Some (Wy3.Text "9999") /\
  nth_error (Wy3.values r) 6 = Some (Wy3.Text "9999").
Proof.
  unfold Wy3.convert_line. intros H. repeat bind_ok H. apply Ok_inj in H. subst r.
  cbn [Wy3.values]. split; [|split; reflexivity].
  intros col missing written place Hin Hfield.
  unfold Terms.missing_values in Hin. cbn [In] in Hin.
  repeat match goal with
         | Hin : _ \/ _ |- _ => destruct Hin as [Hin | Hin]
         end;
    try contradiction;
    apply pair_equal_spec in Hin; destruct Hin as [Hin <-];
    apply pair_equal_spec in Hin; destruct Hin as [Hin <-];
    apply pair_equal_spec in Hin; destruct Hin as [<- <-];
    cbn [nth_error]; f_equal;
    match goal with
    | E : Wy3.unless_missing (Wy3.value_of line ?c) _ _ _ = Ok ?tok |- ?tok = _ =>
        unfold Wy3.unless_missing in E; rewrite Hfield in E;
        cbn in E; apply Ok_inj in E; symmetry; exact E
    end.
Qed.

Lemma missing_values_are_kept_witness :
  nth_error
    (match Wy3.convert_line Inputs.wy3_missing_values with
     | Ok r => Wy3.values r
     | Raise _ => []
     end) 19
  = Some (Wy3.Text "99999").
Proof.
  destruct (Wy3.convert_line Inputs.wy3_missing_values) as [r|e] eqn:H.
  - apply (proj1 (missing_values_are_kept Inputs.wy3_missing_values r H)
             Wy3.col_clg_height "9999").
    + do 12 right. left. reflexivity.
    + reflexivity.
  - vm_compute in H. discriminate H.
Defined.



(** ** Design days *)

Module DesignBlockFacts.

Import PyStr PyNum Hourly Db DesignDays Spec.

Lemma insert_date_In (x d : date) (l : list date) :
  In x (insert_date d l) -> x = d \/ In x l.
Proof.
  induction l as [|e l IH]; cbn [insert_date].
  - intros [<- | []]. left. reflexivity.
  - destruct (date_key d <? date_key e)%Z.
    + intros [<- | H]; [left; reflexivity | right; exact H].
    + destruct (date_key d =? date_key e)%Z; [intros H; right; exact H|].
      intros [<- | H]; [right; left; reflexivity|].
      destruct (IH H) as [-> | Hin]; [left; reflexivity | right; right; exact Hin].
Qed.

Lemma insert_date_length (d : date) (l : list date) :
  (List.length (insert_date d l) <= S (List.length l))%nat.
Proof.
  induction l as [|e l IH]; cbn [insert_date]; [cbn; lia|].
  destruct (date_key d <? date_key e)%Z; [cbn; lia|].
  destruct (date_key d =? date_key e)%Z; cbn [List.length]; lia.
Qed.

Lemma group_keys_In (x : date) (dated : list (option date * row_dict)) :
  In x (group_keys dated) -> exists row, In (Some x, row) dated.
Proof.
  unfold group_keys. induction dated as [|[d row] dated IH]; cbn [fold_right fst].
  - intros [].
  - destruct d as [d|].
    + intros H. destruct (insert_date_In _ _ _ H) as [-> | Hin].
      * exists row. left. reflexivity.
      * destruct (IH Hin) as [row' Hrow']. exists row'. right. exact Hrow'.
    + intros H. destruct (IH H) as [row' Hrow']. exists row'. right. exact Hrow'.
Qed.

Lemma group_keys_length (dated : list (option date * row_dict)) :
  (List.length (group_keys dated) <= List.length dated)%nat.
Proof.
  unfold group_keys. induction dated as [|[d row] dated IH]; cbn [fold_right fst];
    [cbn; lia|].
  destruct d as [d|]; cbn [List.length].
  - pose proof (insert_date_length d
                  (fold_right (fun p acc => match fst p with
                                            | Some d => insert_date d acc
                                            | None => acc
                                            end) [] dated)). lia.
  - lia.
Qed.

Lemma with_dates_rows (df : list row_dict) :
  forall dated,
    with_dates df = Ok dated ->
    List.length dated = List.length df /\
    forall d row, In (d, row) dated -> In row df /\ to_datetime row = Ok d.
Proof.
  induction df as [|r df IH]; intros dated H; cbn [with_dates] in H.
  - apply Ok_inj in H. subst dated. split; [reflexivity | intros d row []].
  - bind_ok H. bind_ok H. apply Ok_inj in H. subst dated.
    match goal with
    | E : with_dates df = Ok ?ds |- _ => destruct (IH _ E) as [Hlen Hin]
    end.
    split; [cbn; rewrite Hlen; reflexivity|].
    intros d row [Heq | Hrow].
    + injection Heq as <- <-. split; [left; reflexivity | assumption].
    + destruct (Hin d row Hrow) as [Hdf Hd]. split; [right; exact Hdf | exact Hd].
Qed.

Lemma to_datetime_cells (row : row_dict) (dt : date) :
  to_datetime row = Ok (Some dt) ->
  cell row "Year" = VInt (year dt) /\ cell row "Month" = VInt (month dt)
  /\ cell row "Day" = VInt (day dt).
Proof.
  unfold to_datetime.
  destruct (cell row "Year") as [|y|f|s]; try discriminate.
  destruct (cell row "Month") as [|m|f|s]; try discriminate.
  destruct (cell row "Day") as [|d|f|s]; try discriminate.
  destruct (timestamp_ok _); [|discriminate].
  intros H. apply Ok_inj in H. injection H as <-. repeat split.
Qed.

(** every day of the daily frame is the date of an hourly row *)
Lemma daily_frame_dates (df : list row_dict) (daily : list daily_row) :
  daily_frame df = Ok daily ->
  (List.length daily <= List.length df)%nat /\
  forall r, In r daily ->
    exists row, In row df /\
      cell row "Year" = VInt (year (Date r)) /\
      cell row "Month" = VInt (month (Date r)) /\
      cell row "Day" = VInt (day (Date r)).
Proof.
  unfold daily_frame. intros H. repeat bind_ok H. apply Ok_inj in H. subst daily.
  match goal with
  | E : with_dates df = Ok ?ds |- _ => destruct (with_dates_rows df _ E) as [Hlen Hin]
  end.
  split.
  - unfold aggregate. rewrite length_map, <- Hlen. apply group_keys_length.
  - intros r Hr. unfold aggregate in Hr. apply in_map_iff in Hr.
    destruct Hr as [d [<- Hd]]. cbn [Date].
    destruct (group_keys_In _ _ Hd) as [row Hrow].
    destruct (Hin _ _ Hrow) as [Hdf Hdate].
    exists row. split; [exact Hdf | apply to_datetime_cells; exact Hdate].
Qed.

Lemma percentile_day_row {L : Pandas.library}
      (daily : list daily_row) (col : daily_row -> pyfloat)
      (pct : pyfloat) (asc : bool) (r : daily_row) :
  percentile_day daily col pct asc = Ok r ->
  In r daily /\
  exists idx, percentile_index (List.length daily) pct = Ok idx /\
              (0 <= idx)%Z /\
              nth_error (sort_values col asc daily) (Z.to_nat idx) = Some r.
Proof.
  unfold percentile_day. intros H. bind_ok H.
  destruct (DesignDayFacts.sort_values_arrangement col asc daily) as [Hperm _].
  unfold iloc in H. destruct (Z.ltb_spec v 0); [discriminate|].
  unfold list_index in H.
  destruct (nth_error (sort_values col asc daily) (Z.to_nat v)) as [x|] eqn:Hx;
    [|discriminate].
  apply Ok_inj in H. subst x. split.
  - apply (Permutation_in _ (Permutation_sym Hperm)).
    eapply nth_error_In. exact Hx.
  - exists v. rewrite (Permutation_length Hperm). auto.
Qed.

Lemma fold_pick {A : Type} (better : A -> A -> bool) (rs : list A) :
  forall r0, In (fold_left (fun best x => if better best x then x else best) rs r0)
                (r0 :: rs).
Proof.
  induction rs as [|x rs IH]; intros r0; cbn [fold_left]; [left; reflexivity|].
  destruct (IH (if better r0 x then x else r0)) as [H | H].
  - rewrite <- H. destruct (better r0 x); [right; left | left]; reflexivity.
  - right. right. exact H.
Qed.

Lemma humid_day_row (daily : list daily_row) (r : daily_row) :
  humid_day daily = Ok r -> In r daily.
Proof.
  unfold humid_day.
  destruct (filter (fun r => negb (is_nan (HumidIndex r))) daily) as [|r0 rs] eqn:Hf;
    [discriminate|].
  intros H. apply Ok_inj in H. subst r.
  pose proof (fold_pick (fun best x => flt (HumidIndex best) (HumidIndex x)) rs r0)
    as Hin.
  rewrite <- Hf in Hin. apply filter_In in Hin. exact (proj1 Hin).
Qed.

Lemma first_of_month_row (daily : list daily_row) (m : Z) (r : daily_row) :
  first_of_month daily m = Ok r -> In r daily /\ month (Date r) = m.
Proof.
  unfold first_of_month.
  destruct (filter (fun r => (month (Date r) =? m)%Z) daily) as [|r0 rs] eqn:Hf;
    [discriminate|].
  intros H. apply Ok_inj in H. subst r0.
  assert (Hin : In r (filter (fun r => (month (Date r) =? m)%Z) daily))
    by (rewrite Hf; left; reflexivity).
  apply filter_In in Hin. destruct Hin as [Hin Hm].
  split; [exact Hin | apply Z.eqb_eq; exact Hm].
Qed.

(** in a sorted list an earlier element may stand in front of a later one *)
Lemma sorted_nth {A : Type} (R : A -> A -> Prop) (l : list A) :
  (forall a, R a a) -> StronglySorted R l ->
  forall i j a b, (i <= j)%nat -> nth_error l i = Some a -> nth_error l j = Some b ->
                  R a b.
Proof.
  intros Hrefl Hs. induction Hs as [|x l Hs IH Hall]; intros i j a b Hij Ha Hb.
  - destruct i; discriminate.
  - destruct i as [|i], j as [|j]; cbn in Ha, Hb.
    + injection Ha as <-. injection Hb as <-. apply Hrefl.
    + injection Ha as <-. rewrite Forall_forall in Hall. apply Hall.
      eapply nth_error_In. exact Hb.
    + lia.
    + apply (IH i j); [lia | assumption | assumption].
Qed.

Lemma frame_leb_refl (col : daily_row -> pyfloat) (asc : bool) (a : daily_row) :
  frame_leb col asc a a = true.
Proof.
  unfold frame_leb. destruct (is_nan (col a)) eqn:Hn; [reflexivity|].
  assert (Hirr : flt (col a) (col a) = false).
  { destruct (flt (col a) (col a)) eqn:Hf; [|reflexivity].
    rewrite (DesignDayFacts.flt_asym _ _ Hf) in Hf. discriminate. }
  rewrite Hirr. destruct asc; reflexivity.
Qed.

(** whichever way the frame is sorted, the row in front is not on the
    wrong side of the row behind *)
Lemma frame_leb_flt (col : daily_row -> pyfloat) (asc : bool) (a b : daily_row) :
  frame_leb col asc a b = true ->
  if asc then flt (col b) (col a) = false else flt (col a) (col b) = false.
Proof.
  unfold frame_leb.
  destruct (col a) as [qa|[]|], (col b) as [qb|[]|]; cbn [is_nan];
    destruct asc; intros H; try discriminate H; try reflexivity;
    apply negb_true_iff in H; exact H.
Qed.

End DesignBlockFacts.



(** X20. When [extract_design_days] returns, it returns the seven blocks
    Heating 99.6%, Heating 99%, Cooling 0.4%, Cooling 1%, Cooling Humid,
    Clear Winter and Clear Summer, in that order, each with the wind speed
    2.5 and the wind direction 270; the month and the day of every block
    are those of a date that has hours in the frame, Clear Winter being a
    day of January and Clear Summer a day of July. *)
Theorem design_day_blocks {L : Pandas.library}
        (epw_df : list Hourly.row_dict) (blocks : list Db.block) :
  DesignDays.extract_design_days epw_df = Ok blocks ->
  map Db.block_name blocks
  = [ "Heating 99.6%"; "Heating 99%"; "Cooling 0.4%"; "Cooling 1%";
      "Cooling Humid"; "Clear Winter"; "Clear Summer" ] /\
  map Db.block_month (skipn 5 blocks) = [1%Z; 7%Z] /\
  forall b, In b blocks ->
    Db.block_wind_speed b = 25 # 10 /\ Db.block_wind_direction b = 270%Z /\
    exists row y,
      In row epw_df /\ Hourly.cell row "Year" = Hourly.VInt y /\
      Hourly.cell row "Month" = Hourly.VInt (Db.block_month b) /\
      Hourly.cell row "Day" = Hourly.VInt (Db.block_day b).
Proof.
  unfold DesignDays.extract_design_days. intros H. repeat bind_ok H.
  apply Ok_inj in H. subst blocks.
  match goal with
  | E : DesignDays.daily_frame epw_df = Ok ?daily |- _ =>
      destruct (DesignBlockFacts.daily_frame_dates epw_df daily E) as [_ Hdates]
  end.
  assert (Hblock : forall name r temp humidity humidity_type,
             (exists daily, DesignDays.daily_frame epw_df = Ok daily /\ In r daily) ->
             let b := DesignDays.design_block name r temp humidity humidity_type in
             Db.block_wind_speed b = 25 # 10 /\ Db.block_wind_direction b = 270%Z /\
             exists row y,
               In row epw_df /\ Hourly.cell row "Year" = Hourly.VInt y /\
               Hourly.cell row "Month" = Hourly.VInt (Db.block_month b) /\
               Hourly.cell row "Day" = Hourly.VInt (Db.block_day b)).
  { intros name r temp humidity humidity_type [daily [Hd Hin]] b.
    split; [reflexivity|]. split; [reflexivity|].
    destruct (DesignBlockFacts.daily_frame_dates epw_df daily Hd) as [_ Hdates'].
    destruct (Hdates' r Hin) as [row [Hrow [Hy [Hmo Hday]]]].
    exists row, (DesignDays.year (DesignDays.Date r)). auto. }
  repeat match goal with
         | E : DesignDays.percentile_day _ _ _ _ = Ok _ |- _ =>
             apply DesignBlockFacts.percentile_day_row in E; destruct E as [E _]
         | E : DesignDays.humid_day _ = Ok _ |- _ =>
             apply DesignBlockFacts.humid_day_row in E
         | E : DesignDays.first_of_month _ _ = Ok _ |- _ =>
             apply DesignBlockFacts.first_of_month_row in E; destruct E as [E ?]
         end.
  split; [reflexivity|]. split.
  - cbn [skipn map DesignDays.design_block Db.block_month]. congruence.
  - intros b Hb. cbn [In] in Hb.
    repeat match goal with
           | Hb : _ \/ _ |- _ => destruct Hb as [Hb | Hb]
           end;
      try contradiction; subst b; apply Hblock; eexists; split; eassumption.
Qed.

Lemma design_day_blocks_witness :
  map Db.block_name
      (match DesignDays.extract_design_days (L := Pandas.in_frame_order)
             Inputs.frame_january_july with
       | Ok blocks => blocks
       | Raise _ => []
       end)
  = [ "Heating 99.6%"; "Heating 99%"; "Cooling 0.4%"; "Cooling 1%";
      "Cooling Humid"; "Clear Winter"; "Clear Summer" ].
Proof.
  destruct (DesignDays.extract_design_days (L := Pandas.in_frame_order)
             Inputs.frame_january_july)
    as [blocks|e] eqn:H.
  - exact (proj1 (design_day_blocks Inputs.frame_january_july blocks H)).
  - vm_compute in H. discriminate H.
Defined.

(** X21. For a frame of fewer than [2 ^ 31] hourly rows, the temperature
    of the Heating 99% block is not below that of the Heating 99.6% block,
    and the temperature of the Cooling 1% block is not below that of the
    Cooling 0.4% block: the cooling days are the days at the 99.6th and
    the 99th hundredth of the days sorted by maximum temperature from the
    hottest down. *)
Theorem design_temperatures_are_ordered {L : Pandas.library}
        (epw_df : list Hourly.row_dict) (blocks : list Db.block) :
  DesignDays.extract_design_days epw_df = Ok blocks ->
  (Z.of_nat (List.length epw_df) < 2 ^ 31)%Z ->
  exists heating_996 heating_99 cooling_04 cooling_1 others,
    blocks = heating_996 :: heating_99 :: cooling_04 :: cooling_1 :: others /\
    PyNum.flt (Db.block_temp heating_99) (Db.block_temp heating_996) = false /\
    PyNum.flt (Db.block_temp cooling_1) (Db.block_temp cooling_04) = false.
Proof.
  unfold DesignDays.extract_design_days. intros H Hsize. repeat bind_ok H.
  apply Ok_inj in H. subst blocks.
  do 5 eexists. split; [reflexivity|].
  cbn [DesignDays.design_block Db.block_temp].
  match goal with
  | E : DesignDays.daily_frame epw_df = Ok ?daily |- _ =>
      destruct (DesignBlockFacts.daily_frame_dates epw_df daily E) as [Hlen _];
      rename daily into days
  end.
  assert (Hpick : forall col pct p asc r,
             In (pct, p) [ (DesignDays.pct_0_4, 4 # 10); (DesignDays.pct_1_0, 1);
                           (DesignDays.pct_99_6, 996 # 10); (DesignDays.pct_99_0, 99) ] ->
             DesignDays.percentile_day days col pct asc = Ok r ->
             nth_error (DesignDays.sort_values col asc days)
                       (Z.to_nat (Qfloor (inject_Z (Z.of_nat (List.length days))
                                          * p / 100))) = Some r).
  { intros col pct p asc r Hin Hr.
    destruct (DesignBlockFacts.percentile_day_row _ _ _ _ _ Hr)
      as [Hrin [idx [Hidx [Hpos Hnth]]]].
    assert (Hn : (1 <= Z.of_nat (List.length days) < 2 ^ 31)%Z).
    { destruct days; [destruct Hrin | cbn [List.length] in *; lia]. }
    destruct (DesignDayFacts.percentile_index_floor pct p (List.length days) Hin Hn)
      as [Hfloor _].
    rewrite Hfloor in Hidx. apply Ok_inj in Hidx. rewrite Hidx. exact Hnth. }
  assert (Hmono : forall p q : Q,
             (p <= q)%Q ->
             (Z.to_nat (Qfloor (inject_Z (Z.of_nat (List.length days)) * p / 100))
              <= Z.to_nat (Qfloor (inject_Z (Z.of_nat (List.length days)) * q / 100)))%nat).
  { intros p q Hpq.
    assert (Hz : (Qfloor (inject_Z (Z.of_nat (List.length days)) * p / 100)
                  <= Qfloor (inject_Z (Z.of_nat (List.length days)) * q / 100))%Z);
      [|lia].
    apply Qfloor_resp_le.
    apply Qmult_le_compat_r; [|discriminate].
    rewrite !(Qmult_comm (inject_Z _)).
    apply Qmult_le_compat_r; [exact Hpq|].
    rewrite <- (Zle_Qle 0). lia. }
  assert (Hsorted : forall col asc i j a b,
             (i <= j)%nat ->
             nth_error (DesignDays.sort_values col asc days) i = Some a ->
             nth_error (DesignDays.sort_values col asc days) j = Some b ->
             Spec.frame_leb col asc a b = true).
  { intros col asc i j a b Hij Ha Hb.
    destruct (DesignDayFacts.sort_values_arrangement col asc days) as [_ Hs].
    apply (DesignBlockFacts.sorted_nth _ _
             (DesignBlockFacts.frame_leb_refl col asc) Hs i j a b Hij Ha Hb). }
  split.
  - match goal with
    | E1 : DesignDays.percentile_day days DesignDays.MinTemp DesignDays.pct_0_4 true = Ok ?a,
      E2 : DesignDays.percentile_day days DesignDays.MinTemp DesignDays.pct_1_0 true = Ok ?b
      |- PyNum.flt (DesignDays.MinTemp ?b) (DesignDays.MinTemp ?a) = false =>
        apply (DesignBlockFacts.frame_leb_flt DesignDays.MinTemp true a b);
        apply (Hsorted DesignDays.MinTemp true _ _ a b
                 (Hmono (4 # 10) 1 ltac:(discriminate)));
        [ apply (Hpick _ _ _ _ _ (or_introl eq_refl) E1)
        | apply (Hpick _ _ _ _ _ (or_intror (or_introl eq_refl)) E2) ]
    end.
  - match goal with
    | E1 : DesignDays.percentile_day days DesignDays.MaxTemp DesignDays.pct_99_6 false = Ok ?a,
      E2 : DesignDays.percentile_day days DesignDays.MaxTemp DesignDays.pct_99_0 false = Ok ?b
      |- PyNum.flt (DesignDays.MaxTemp ?b) (DesignDays.MaxTemp ?a) = false =>
        apply (DesignBlockFacts.frame_leb_flt DesignDays.MaxTemp false b a);
        apply (Hsorted DesignDays.MaxTemp false _ _ b a
                 (Hmono 99 (996 # 10) ltac:(discriminate)));
        [ apply (Hpick _ _ _ _ _
                   (or_intror (or_intror (or_intror (or_introl eq_refl)))) E2)
        | apply (Hpick _ _ _ _ _
                   (or_intror (or_intror (or_introl eq_refl))) E1) ]
    end.
Qed.

Lemma design_temperatures_are_ordered_witness :
  exists heating_996 heating_99 cooling_04 cooling_1 others,
    match DesignDays.extract_design_days (L := Pandas.in_frame_order)
             Inputs.frame_january_july with
    | Ok blocks => blocks
    | Raise _ => []
    end = heating_996 :: heating_99 :: cooling_04 :: cooling_1 :: others /\
    PyNum.flt (Db.block_temp heating_99) (Db.block_temp heating_996) = false /\
    PyNum.flt (Db.block_temp cooling_1) (Db.block_temp cooling_04) = false.
Proof.
  destruct (DesignDays.extract_design_days (L := Pandas.in_frame_order)
             Inputs.frame_january_july)
    as [blocks|e] eqn:H.
  - apply (design_temperatures_are_ordered Inputs.frame_january_july blocks H).
    vm_compute. reflexivity.
  - vm_compute in H. discriminate H.
Defined.

(** ** The member that is read *)


(** ** Ground temperatures *)

Module GroundFacts.

Import PyStr PyNum Db Epw Terms.

(** one group gives its row, or nothing, and never stops the loop *)
Lemma ground_group_run (parts : list string) (base_idx : nat) (location_id : Z)
      (c : conn) :
  try_except (ground_group parts base_idx location_id) (fun _ => ret tt) c
  = (Ok tt,
     mk_conn (committed c)
             (pending c ++ ground_group_rows parts location_id base_idx)).
Proof.
  assert (Hsame : (Ok tt, c) = (Ok tt, mk_conn (committed c) (pending c ++ []))).
  { rewrite app_nil_r. destruct c; reflexivity. }
  unfold try_except, ground_group, ground_group_rows, bind, lift, ret, do_insert.
  destruct (rbind (list_index parts base_idx) py_float) as [depth|]; [|exact Hsame].
  destruct (float_field parts (base_idx + 1)) as [k|]; [|exact Hsame].
  destruct (float_field parts (base_idx + 2)) as [d|]; [|exact Hsame].
  destruct (float_field parts (base_idx + 3)) as [h|]; [|exact Hsame].
  destruct (float_fields parts (base_idx + 4) 12) as [monthly|]; [|exact Hsame].
  reflexivity.
Qed.

(** a group that starts behind the end of the line gives no row *)
Lemma ground_group_past_end (parts : list string) (location_id : Z) (base_idx : nat) :
  (List.length parts <= base_idx)%nat ->
  ground_group_rows parts location_id base_idx = [].
Proof.
  intros H. unfold ground_group_rows, list_index.
  destruct (nth_error parts base_idx) eqn:Hn; [|reflexivity].
  assert (base_idx < List.length parts)%nat
    by (apply nth_error_Some; congruence). lia.
Qed.

Lemma flat_map_nil {A B : Type} (f : A -> list B) (l : list A) :
  (forall a, In a l -> f a = []) -> flat_map f l = [].
Proof.
  induction l as [|a l IH]; intros H; [reflexivity|].
  cbn [flat_map]. rewrite (H a (or_introl eq_refl)). apply IH.
  intros b Hb. apply H. right. exact Hb.
Qed.

(** the loop over the depths returns, and leaves in the open transaction
    the rows of the groups from [i] on *)
Lemma ground_loop_rows (parts : list string) (location_id : Z) :
  forall n i c,
    ground_loop n i parts location_id c
    = (Ok tt,
       mk_conn (committed c)
               (pending c
                ++ flat_map (fun k => ground_group_rows parts location_id (2 + k * 16))
                            (seq i n))).
Proof.
  induction n as [|n IH]; intros i c.
  - cbn [ground_loop seq flat_map]. rewrite app_nil_r. destruct c; reflexivity.
  - cbn [ground_loop].
    destruct (Nat.leb_spec (List.length parts) (2 + i * 16)) as [Hend|Hmore].
    + rewrite flat_map_nil; [rewrite app_nil_r; destruct c; reflexivity|].
      intros k Hk. apply in_seq in Hk. apply ground_group_past_end. nia.
    + unfold bind at 1. rewrite ground_group_run. rewrite IH.
      cbn [seq flat_map committed pending]. rewrite <- app_assoc. reflexivity.
Qed.

End GroundFacts.

(** X23. For a line that starts with [GROUND TEMPERATURES], has three
    fields at least and an integer count [n] in its second field,
    [parse_ground_temps] returns and commits exactly one row for each of
    the first [n] depth groups that is complete and well formed, in the
    order of the line.  The group [k] is the 16 fields from index
    [2 + 16 k] on: a depth that [float()] accepts, then three soil
    properties and twelve monthly values, each blank (read as 0.0) or a
    number.  A group that is cut short by the end of the line, or holds a
    field that is not a number, gives no row and does not stop the groups
    after it. *)
Theorem ground_temperatures_stored (line : string) (location_id n : Z) (c : Db.conn) :
  PyStr.startswith line "GROUND TEMPERATURES" = true ->
  (3 <= List.length (PyStr.split "," line))%nat ->
  PyNum.parse_int (nth 1 (PyStr.split "," line) EmptyString) = Some n ->
  Epw.parse_ground_temps line location_id c
  = (Ok tt,
     Db.commit
       (Db.mk_conn (Db.committed c)
          (Db.pending c
           ++ Terms.ground_rows (PyStr.split "," line) location_id (Z.to_nat n)))).
Proof.
  intros Hl Hlen Hn. unfold Epw.parse_ground_temps. rewrite Hl. cbn [negb].
  destruct (Nat.ltb_spec (List.length (PyStr.split "," line)) 3) as [|_]; [lia|].
  unfold Db.bind at 1. unfold Db.lift, PyNum.py_int. rewrite Hn.
  unfold Db.bind. rewrite GroundFacts.ground_loop_rows. reflexivity.
Qed.

Lemma ground_temperatures_stored_witness :
  Epw.parse_ground_temps
    "GROUND TEMPERATURES,3,.5,,,,1.0,x,3.0,4.0,5.0,6.0,7.0,8.0,9.0,10.0,11.0,12.0,2,,,,1,2,3,4,5,6,7,8,9,10,11,12,4,,,,1,2"
    1 (Db.connect [])
  = (Ok tt,
     Db.mk_conn
       [ Db.GroundTempRow 1 (PyNum.PFin 2) (PyNum.PFin 0) (PyNum.PFin 0) (PyNum.PFin 0)
           (map (fun z => PyNum.PFin (inject_Z z)) [1; 2; 3; 4; 5; 6; 7; 8; 9; 10; 11; 12]%Z) ]
       []).
Proof.
  apply (ground_temperatures_stored
           "GROUND TEMPERATURES,3,.5,,,,1.0,x,3.0,4.0,5.0,6.0,7.0,8.0,9.0,10.0,11.0,12.0,2,,,,1,2,3,4,5,6,7,8,9,10,11,12,4,,,,1,2"
           1 3 (Db.connect [])).
  - reflexivity.
  - vm_compute. lia.
  - reflexivity.
Defined.

(** ** Tenths *)

Module RoundingFacts.

Import PyNum PyNumFacts.
Local Open Scope Q_scope.

(** a rational other than zero and below [2 ^ 31] in absolute value
    rounds to a finite float: the nearest multiple of the unit [2 ^ ue],
    with the sign of the rational *)
Lemma b64_finite (x : Q) :
  ~ x == 0 -> Qabs x < pow2 31 ->
  exists m ue,
    b64 x = PFin (dyadic (if Qle_bool 0 x then m else (- m)%Z) ue) /\
    (ue <= -21)%Z /\
    2 * inject_Z m - 1 <= 2 * (Qabs x * pow2 (- ue)) /\
    2 * (Qabs x * pow2 (- ue)) <= 2 * inject_Z m + 1.
Proof.
  intros Hx Hlt.
  assert (Ha : 0 < Qabs x).
  { destruct x as [a d]. unfold Qeq in Hx. unfold Qlt, Qabs. cbn in *. lia. }
  destruct (ilog2_spec (Qabs x) Ha) as [Hlo Hup].
  assert (He : (ilog2 (Qabs x) < 31)%Z).
  { apply pow2_lt_inv. eapply Qle_lt_trans; eassumption. }
  unfold b64.
  assert (Hz : Qeq_bool x 0 = false).
  { destruct (Qeq_bool x 0) eqn:E; [|reflexivity].
    apply Qeq_bool_eq in E. contradiction. }
  rewrite Hz.
  set (ue := Z.max (ilog2 (Qabs x) - 52) (-1074)).
  set (y := cancel_twos (/ pow2 ue * Qabs x)).
  set (m := round_half_even y).
  assert (Hue : (ue <= -21)%Z) by (unfold ue; lia).
  assert (Hy : y == Qabs x * pow2 (- ue)).
  { unfold y. rewrite cancel_twos_eq, pow2_inv. ring. }
  destruct (round_half_even_near y) as [N1 N2]. fold m in N1, N2.
  rewrite Hy in N1, N2.
  assert (Hm : (m <= 2 ^ (31 - ue))%Z).
  { apply half_step_le. rewrite <- pow2_nonneg_Z by lia.
    assert (E : pow2 (31 - ue) == pow2 31 * pow2 (- ue)).
    { rewrite <- pow2_add. reflexivity. }
    assert (P := pow2_pos (- ue)).
    assert (Qabs x * pow2 (- ue) < pow2 31 * pow2 (- ue)).
    { apply Qmult_lt_compat_r; assumption. }
    rewrite E. lra. }
  assert (Hov : (1024 <=? Z.log2 m + ue)%Z = false).
  { apply Z.leb_gt.
    destruct (Z.leb_spec m 0) as [Hm0|Hm0].
    - rewrite Z.log2_nonpos by assumption. lia.
    - assert (Z.log2 m < 32 - ue)%Z; [|lia].
      apply Z.log2_lt_pow2; [assumption|].
      replace (32 - ue)%Z with (Z.succ (31 - ue)) by lia.
      rewrite Z.pow_succ_r by lia.
      assert (0 < 2 ^ (31 - ue))%Z by (apply Z.pow_pos_nonneg; lia). lia. }
  rewrite Hov. exists m, ue. repeat split; assumption.
Qed.

(** the float is within [2 ^ -22] of the rational *)
Lemma b64_near (x : Q) :
  ~ x == 0 -> - pow2 31 < x -> x < pow2 31 ->
  exists v, b64 x = PFin v /\
            x - (1 # 4194304) <= v /\ v <= x + (1 # 4194304).
Proof.
  intros Hx Hlo Hhi.
  assert (Habs : Qabs x < pow2 31).
  { apply Qabs_Qlt_condition. split; assumption. }
  destruct (b64_finite x Hx Habs) as (m & ue & Hb & Hue & N1 & N2).
  rewrite Hb. eexists. split; [reflexivity|].
  set (T := pow2 (- ue)) in *. set (U := pow2 ue).
  assert (HU : 0 < U) by apply pow2_pos.
  assert (HTU : T * U == 1).
  { unfold T, U. rewrite <- pow2_add. replace (- ue + ue)%Z with 0%Z by lia.
    reflexivity. }
  assert (HUle : U <= 1 # 2097152).
  { assert (U <= pow2 (-21)) by (apply pow2_le; lia).
    assert (pow2 (-21) == 1 # 2097152) by reflexivity. lra. }
  assert (M1 : (2 * inject_Z m - 1) * U <= 2 * (Qabs x * T) * U).
  { apply Qmult_le_compat_r; [exact N1 | lra]. }
  assert (M2 : 2 * (Qabs x * T) * U <= (2 * inject_Z m + 1) * U).
  { apply Qmult_le_compat_r; [exact N2 | lra]. }
  assert (E : 2 * (Qabs x * T) * U == 2 * Qabs x).
  { transitivity (2 * Qabs x * (T * U)); [ring|]. rewrite HTU. ring. }
  rewrite E in M1, M2.
  destruct (Qle_bool 0 x) eqn:Hs; rewrite dyadic_eq; fold U.
  - apply Qle_bool_iff in Hs. rewrite (Qabs_pos x Hs) in M1, M2. lra.
  - assert (Hneg : x <= 0).
    { apply Qlt_le_weak. apply Qnot_le_lt. intros H.
      apply Qle_bool_iff in H. congruence. }
    rewrite (Qabs_neg x Hneg) in M1, M2.
    rewrite inject_Z_opp. lra.
Qed.

(** [float(n)] is exact for every integer below [2 ^ 31] in absolute
    value *)
Lemma of_Z_exact_signed (n : Z) :
  (- 2 ^ 31 < n < 2 ^ 31)%Z -> exists r, of_Z n = PFin r /\ r == inject_Z n.
Proof.
  intros Hn. unfold of_Z.
  destruct (Z.eq_dec n 0) as [->|Hne].
  - exists 0. split; reflexivity.
  - assert (Hx : ~ inject_Z n == 0).
    { intros H. apply Hne. unfold Qeq in H. cbn in H. lia. }
    assert (Habs : Qabs (inject_Z n) < pow2 31).
    { change (Qabs (inject_Z n)) with (inject_Z (Z.abs n)).
      rewrite pow2_nonneg_Z by lia. rewrite <- Zlt_Qlt. lia. }
    destruct (b64_finite _ Hx Habs) as (m & ue & Hb & Hue & N1 & N2).
    rewrite Hb. eexists. split; [reflexivity|].
    change (Qabs (inject_Z n)) with (inject_Z (Z.abs n)) in N1, N2.
    rewrite pow2_nonneg_Z in N1, N2 by lia.
    rewrite <- inject_Z_mult in N1, N2.
    assert (Hm : m = (Z.abs n * 2 ^ (- ue))%Z).
    { assert (m <= Z.abs n * 2 ^ (- ue))%Z by (apply half_le; assumption).
      assert (Z.abs n * 2 ^ (- ue) <= m)%Z by (apply half_ge; assumption).
      lia. }
    assert (Hunit : inject_Z (2 ^ (- ue)) * pow2 ue == 1).
    { rewrite <- pow2_nonneg_Z by lia. rewrite <- pow2_add.
      replace (- ue + ue)%Z with 0%Z by lia. reflexivity. }
    rewrite dyadic_eq.
    destruct (Qle_bool 0 (inject_Z n)) eqn:Hs.
    + apply Qle_bool_iff in Hs. rewrite <- (Zle_Qle 0) in Hs.
      rewrite Hm, Z.abs_eq by assumption. rewrite inject_Z_mult.
      rewrite <- Qmult_assoc, Hunit. ring.
    + assert (Hneg : (n < 0)%Z).
      { destruct (Z.lt_ge_cases n 0) as [H|H]; [exact H|].
        rewrite (Zle_Qle 0) in H. change (inject_Z 0) with 0 in H.
        apply Qle_bool_iff in H. congruence. }
      rewrite Hm, Z.abs_neq by lia. rewrite inject_Z_opp, !inject_Z_mult.
      rewrite inject_Z_opp.
      transitivity (inject_Z n * (inject_Z (2 ^ (- ue)) * pow2 ue)); [ring|].
      rewrite Hunit. ring.
Qed.

(** a rational within half a unit of an integer rounds to it *)
Lemma round_half_even_at (x : Q) (k : Z) :
  2 * inject_Z k - 1 < 2 * x -> 2 * x < 2 * inject_Z k + 1 ->
  round_half_even x = k.
Proof.
  intros H1 H2. destruct (round_half_even_near x) as [N1 N2].
  assert (A : inject_Z (round_half_even x) < inject_Z (k + 1)).
  { rewrite inject_Z_plus. change (inject_Z 1) with 1. lra. }
  assert (B : inject_Z k < inject_Z (round_half_even x + 1)).
  { rewrite inject_Z_plus. change (inject_Z 1) with 1. lra. }
  rewrite <- Zlt_Qlt in A, B. lia.
Qed.

(** the float [0.1] *)
Lemma tenth : b64 (1 # 10) = PFin (3602879701896397 # 36028797018963968).
Proof. vm_compute. reflexivity. Qed.

(** [round(n * 0.1, 1)] is the float nearest to [n / 10] *)
Lemma round1_of_product (n : Z) :
  (- 2 ^ 31 < n < 2 ^ 31)%Z ->
  Wy3.round1 (fmul (of_Z n) (b64 (1 # 10))) = b64 (inject_Z n / 10).
Proof.
  intros Hn. rewrite tenth.
  destruct (of_Z_exact_signed n Hn) as (r & -> & Hr).
  cbn [fmul].
  set (cq := 3602879701896397 # 36028797018963968) in *.
  assert (Hn1 : - inject_Z (2 ^ 31) < inject_Z n).
  { rewrite <- inject_Z_opp, <- Zlt_Qlt. lia. }
  assert (Hn2 : inject_Z n < inject_Z (2 ^ 31)) by (rewrite <- Zlt_Qlt; lia).
  change (inject_Z (2 ^ 31)) with (2147483648 # 1) in Hn1, Hn2.
  destruct (Z.eq_dec n 0) as [->|Hne].
  - assert (Hzero : Qeq_bool (r * cq) 0 = true).
    { apply Qeq_bool_iff. rewrite Hr. reflexivity. }
    unfold b64 at 1. rewrite Hzero. reflexivity.
  - assert (Hx : ~ r * cq == 0).
    { rewrite Hr. intros H.
      assert (Hn0 : inject_Z n == 0).
      { unfold cq in H. lra. }
      apply Hne. unfold Qeq in Hn0. cbn in Hn0. lia. }
    assert (Hlo : - pow2 31 < r * cq).
    { change (pow2 31) with (2147483648 # 1). rewrite Hr. unfold cq. lra. }
    assert (Hhi : r * cq < pow2 31).
    { change (pow2 31) with (2147483648 # 1). rewrite Hr. unfold cq. lra. }
    destruct (b64_near (r * cq) Hx Hlo Hhi) as (v & -> & V1 & V2).
    rewrite Hr in V1, V2. unfold cq in V1, V2.
    unfold Wy3.round1.
    rewrite (round_half_even_at (v * 10) n); [reflexivity | lra | lra].
Qed.

(** the float [1.0 / 3.6] *)
Lemma radiation_factor :
  Wy3.conv_radiation = PFin (2501999792983609 # 9007199254740992).
Proof. vm_compute. reflexivity. Qed.

(** rounding to an integer does not depend on how the rational is written *)
Lemma round_half_even_Qeq (x y : Q) :
  x == y -> round_half_even x = round_half_even y.
Proof.
  destruct x as [a b], y as [c d]. unfold Qeq, round_half_even.
  cbn [Qnum Qden]. intros E.
  assert (Ha := Z_div_mod a (Z.pos b) eq_refl).
  assert (Hc := Z_div_mod c (Z.pos d) eq_refl).
  destruct (Z.div_eucl a (Z.pos b)) as [fa ra].
  destruct (Z.div_eucl c (Z.pos d)) as [fc rc].
  destruct Ha as [Ha Hra]. destruct Hc as [Hc Hrc].
  assert (Hf : fa = fc).
  { destruct (Z.lt_trichotomy fa fc) as [H|[H|H]]; [exfalso|exact H|exfalso].
    - assert (Z.pos b * Z.pos d * (fc - fa) >= Z.pos b * Z.pos d)%Z by nia.
      nia.
    - assert (Z.pos b * Z.pos d * (fa - fc) >= Z.pos b * Z.pos d)%Z by nia.
      nia. }
  subst fc.
  assert (Hr : (ra * Z.pos d = rc * Z.pos b)%Z) by nia.
  destruct (Z.compare_spec (2 * ra) (Z.pos b)),
           (Z.compare_spec (2 * rc) (Z.pos d)); try reflexivity; nia.
Qed.

(** a product with the float [1.0 / 3.6] that lies, in exact arithmetic,
    half way between two integers is that half-integer as a float: the
    error of the factor is below half a unit in the last place *)
Lemma radiation_tie (q : Q) (n j : Z) :
  (0 < n < 2 ^ 31)%Z -> q == inject_Z n -> (5 * n = 18 * j + 9)%Z ->
  exists v, b64 (q * (2501999792983609 # 9007199254740992)) = PFin v /\
            v == inject_Z n * (5 # 18).
Proof.
  intros Hn Hq Htie.
  set (cq := 2501999792983609 # 9007199254740992).
  assert (Hn0 : 1 <= inject_Z n).
  { change 1 with (inject_Z 1). rewrite <- Zle_Qle. lia. }
  assert (Hn1 : inject_Z n < 2147483648).
  { change 2147483648 with (inject_Z (2 ^ 31)). rewrite <- Zlt_Qlt. lia. }
  assert (Hx0 : 0 < q * cq) by (rewrite Hq; unfold cq; lra).
  assert (Hx1 : q * cq < pow2 31).
  { change (pow2 31) with 2147483648. rewrite Hq. unfold cq. lra. }
  destruct (b64_pos _ Hx0 Hx1) as (m & ue & Hb & Hue & N1 & N2).
  destruct (ilog2_spec _ Hx0) as [_ Hup].
  rewrite Hb. eexists. split; [reflexivity|].
  set (P := pow2 (- ue)) in *. set (U := pow2 ue).
  assert (HP : 0 < P) by apply pow2_pos.
  assert (HPU : P * U == 1).
  { unfold P, U. rewrite <- pow2_add. replace (- ue + ue)%Z with 0%Z by lia.
    reflexivity. }
  assert (F1 : pow2 (ilog2 (q * cq) + 1) * P <= 9007199254740992).
  { unfold P. rewrite <- pow2_add.
    change 9007199254740992 with (pow2 53). apply pow2_le. lia. }
  assert (F2 : q * cq * P < pow2 (ilog2 (q * cq) + 1) * P).
  { apply Qmult_lt_compat_r; assumption. }
  assert (F3 : inject_Z n * cq * P < 9007199254740992).
  { rewrite <- Hq. lra. }
  rewrite Hq in N1, N2.
  set (T := ((2 * j + 1) * 2 ^ (- ue - 1))%Z).
  assert (HT : 18 * inject_Z T == 5 * (inject_Z n * P)).
  { assert (E : (18 * T = 5 * (n * 2 ^ (- ue)))%Z).
    { unfold T. replace (- ue)%Z with (Z.succ (- ue - 1)) at 2 by lia.
      rewrite Z.pow_succ_r by lia.
      replace (5 * (n * (2 * 2 ^ (- ue - 1))))%Z
        with (5 * n * (2 * 2 ^ (- ue - 1)))%Z by ring.
      rewrite Htie. ring. }
    unfold P. rewrite pow2_nonneg_Z by lia.
    change 18 with (inject_Z 18). change 5 with (inject_Z 5).
    rewrite <- !inject_Z_mult. rewrite E. reflexivity. }
  assert (Hm : m = T).
  { assert (A : inject_Z m < inject_Z (T + 1)).
    { rewrite inject_Z_plus. change (inject_Z 1) with 1.
      unfold cq in N1, F3. lra. }
    assert (B : inject_Z T < inject_Z (m + 1)).
    { rewrite inject_Z_plus. change (inject_Z 1) with 1.
      assert (0 < inject_Z n * P) by (apply Qmult_lt_0_compat; lra).
      unfold cq in N2. lra. }
    rewrite <- Zlt_Qlt in A, B. lia. }
  rewrite dyadic_eq, Hm. fold U.
  assert (HT' : inject_Z T == (5 # 18) * (inject_Z n * P)) by lra.
  rewrite HT'.
  transitivity ((5 # 18) * inject_Z n * (P * U)); [ring|].
  rewrite HPU. ring.
Qed.

(** [round(x * (1.0 / 3.6))] for a float [x] that holds the integer [n]
    is [n / 3.6] rounded, halves to the even integer *)
Lemma radiation_product (q : Q) (n : Z) :
  (0 <= n < 2 ^ 31)%Z -> q == inject_Z n ->
  exists v, b64 (q * (2501999792983609 # 9007199254740992)) = PFin v /\
            round_half_even v = round_half_even (inject_Z n * 10 / 36).
Proof.
  intros Hn Hq.
  set (cq := 2501999792983609 # 9007199254740992).
  destruct (Z.eq_dec n 0) as [->|Hne].
  - exists 0. split; [|reflexivity].
    assert (Hzero : Qeq_bool (q * cq) 0 = true).
    { apply Qeq_bool_iff. rewrite Hq. reflexivity. }
    unfold b64. rewrite Hzero. reflexivity.
  - assert (Ht : inject_Z n * 10 / 36 == inject_Z n * (5 # 18)) by field.
    set (k := round_half_even (inject_Z n * 10 / 36)).
    destruct (round_half_even_near (inject_Z n * 10 / 36)) as [K1 K2].
    fold k in K1, K2. rewrite Ht in K1, K2.
    assert (Hn0 : 1 <= inject_Z n).
    { change 1 with (inject_Z 1). rewrite <- Zle_Qle. lia. }
    assert (Hn1 : inject_Z n < 2147483648).
    { change 2147483648 with (inject_Z (2 ^ 31)). rewrite <- Zlt_Qlt. lia. }
    assert (Z1 : (18 * k - 9 <= 5 * n)%Z).
    { rewrite Zle_Qle. replace (18 * k - 9)%Z with (18 * k + - 9)%Z by lia.
      rewrite inject_Z_plus, !inject_Z_mult.
      change (inject_Z 18) with 18. change (inject_Z 5) with 5.
      change (inject_Z (- 9)) with (- 9). lra. }
    assert (Z2 : (5 * n <= 18 * k + 9)%Z).
    { rewrite Zle_Qle. rewrite inject_Z_plus, !inject_Z_mult.
      change (inject_Z 18) with 18. change (inject_Z 5) with 5.
      change (inject_Z 9) with 9. lra. }
    destruct (Z.eq_dec (5 * n) (18 * (k - 1) + 9)) as [Elo|Elo];
      [|destruct (Z.eq_dec (5 * n) (18 * k + 9)) as [Ehi|Ehi]].
    + destruct (radiation_tie q n (k - 1) ltac:(lia) Hq Elo) as (v & Hv & Ev).
      exists v. split; [exact Hv|]. apply round_half_even_Qeq.
      rewrite Ev, Ht. reflexivity.
    + destruct (radiation_tie q n k ltac:(lia) Hq Ehi) as (v & Hv & Ev).
      exists v. split; [exact Hv|]. apply round_half_even_Qeq.
      rewrite Ev, Ht. reflexivity.
    + assert (Q1 : 18 * inject_Z k - 8 <= 5 * inject_Z n).
      { assert (H : (18 * k + - 8 <= 5 * n)%Z) by lia.
        rewrite Zle_Qle in H. rewrite inject_Z_plus, !inject_Z_mult in H.
        change (inject_Z 18) with 18 in H. change (inject_Z 5) with 5 in H.
        change (inject_Z (- 8)) with (- 8) in H. lra. }
      assert (Q2 : 5 * inject_Z n <= 18 * inject_Z k + 8).
      { assert (H : (5 * n <= 18 * k + 8)%Z) by lia.
        rewrite Zle_Qle in H. rewrite inject_Z_plus, !inject_Z_mult in H.
        change (inject_Z 18) with 18 in H. change (inject_Z 5) with 5 in H.
        change (inject_Z 8) with 8 in H. lra. }
      assert (Hx : ~ q * cq == 0).
      { rewrite Hq. unfold cq. lra. }
      assert (Hlo : - pow2 31 < q * cq).
      { change (pow2 31) with 2147483648. rewrite Hq. unfold cq. lra. }
      assert (Hhi : q * cq < pow2 31).
      { change (pow2 31) with 2147483648. rewrite Hq. unfold cq. lra. }
      destruct (b64_near (q * cq) Hx Hlo Hhi) as (v & Hv & V1 & V2).
      exists v. split; [exact Hv|].
      rewrite Hq in V1, V2. unfold cq in V1, V2.
      apply round_half_even_at; lra.
Qed.

End RoundingFacts.

(** X24. The four values the transcoder takes as tenths (the two
    temperatures, the wind speed and the visibility) are exact: for a field
    that [int()] reads as [n], with [n] below [2 ^ 31] in absolute value,
    [round(n * 0.1, 1)] is the float nearest to [n / 10], the one written
    with a single decimal.  The rounding to one decimal takes away the
    error of the product with the float 0.1. *)
Theorem tenths_are_exact (field : string) (n : Z) (factor : PyNum.pyfloat) :
  PyNum.parse_int field = Some n ->
  (- 2 ^ 31 < n < 2 ^ 31)%Z ->
  In factor [ Wy3.conv_temperature; Wy3.conv_speed; Wy3.conv_visibility ] ->
  Wy3.tenths field factor = Ok (PyNum.b64 (inject_Z n / 10)).
Proof.
  intros Hfield Hn Hfactor.
  assert (Hf : factor = PyNum.b64 (1 # 10)).
  { destruct Hfactor as [<- | [<- | [<- | []]]]; reflexivity. }
  subst factor. unfold Wy3.tenths, PyNum.py_int. rewrite Hfield.
  unfold rbind. f_equal. apply RoundingFacts.round1_of_product. exact Hn.
Qed.

Lemma tenths_are_exact_witness :
  Wy3.tenths "-123" Wy3.conv_temperature = Ok (PyNum.b64 (inject_Z (-123) / 10)).
Proof.
  apply (tenths_are_exact "-123" (-123) Wy3.conv_temperature).
  - reflexivity.
  - split; reflexivity.
  - left. reflexivity.
Defined.

(** X25. The four solar radiation values are converted exactly: for a
    field that [float()] reads as the integer [n], [0 <= n < 2 ^ 31],
    [round(float(field) * (1.0 / 3.6))] is [n / 3.6] rounded to the nearest
    integer, a half going to the even one.  The errors of the float
    [1.0 / 3.6] and of the product never change the rounded value, also
    not where [n / 3.6] lies half way between two integers. *)
Theorem radiation_is_the_rounded_quotient (field : string) (q : Q) (n : Z) :
  PyNum.py_float field = Ok (PyNum.PFin q) ->
  q == inject_Z n ->
  (0 <= n < 2 ^ 31)%Z ->
  Wy3.rounded field Wy3.conv_radiation
  = Ok (Wy3.Text (PyNum.str_of_Z (PyNum.round_half_even (inject_Z n * 10 / 36)))).
Proof.
  intros Hfield Hq Hn. unfold Wy3.rounded. rewrite Hfield. cbn [rbind].
  rewrite RoundingFacts.radiation_factor. cbn [PyNum.fmul].
  destruct (RoundingFacts.radiation_product q n Hn Hq) as (v & -> & Hv).
  cbn [PyNum.round_float rbind]. rewrite Hv. reflexivity.
Qed.

Lemma radiation_is_the_rounded_quotient_witness :
  Wy3.rounded "0045" Wy3.conv_radiation
  = Ok (Wy3.Text (PyNum.str_of_Z (PyNum.round_half_even (inject_Z 45 * 10 / 36)))).
Proof.
  apply (radiation_is_the_rounded_quotient "0045" 45 45).
  - reflexivity.
  - reflexivity.
  - lia.
Defined.
